(** * NL2SQL pipeline: a shallow embedding of the backend agents

    The development follows the Python sources under
    [NL-2-sql-App/backend]: [validator.py], [executor.py], [pipeline.py],
    [planner.py], [sql_generator.py], [sql_validator.py] and
    [llm_prompt_builder_new.py].

    Conventions.
    - Python [str] is [string]; the model is restricted to ASCII text, on
      which [str.upper], [str.lower], [str.strip] and the [re] classes
      [\s], [\w], [\d] are the functions below.
    - Python [int] is [Z].
    - A Python [dict] with a fixed set of keys is a record whose optional
      keys are [option] fields; a dict iterated in insertion order is an
      association list.
    - Third-party libraries (sqlparse, sqlite3, json, the LLM client) are
      not part of the repository: they are parameters of the sections that
      use them, and every assumption made on them is a named hypothesis.
    - The decorator [log_agent_flow] of [logger_config.py] is part of
      [ExecutorAgent.run_query], whose result may hold values that
      [json.dumps] refuses.  Around [validate] and [analyze_query], whose
      arguments and results [json.dumps] accepts (for a conversation
      state that it accepts), the decorator changes nothing that the
      caller sees, and it is not written out there. *)

From Stdlib Require Import List Bool Arith ZArith Lia.
From Stdlib Require Import Strings.Ascii Strings.String.
Import ListNotations.

Local Open Scope string_scope.
Local Open Scope list_scope.
Local Open Scope nat_scope.

(* ================================================================== *)
(** * Python strings *)
(* ================================================================== *)

Module PyStr.

(** [str.isspace] on one ASCII character: TAB..CR, FS..US and SPACE.
    The same set is [\s] for [re] and for the sqlparse lexer. *)
Definition isspace (c : ascii) : bool :=
  let n := nat_of_ascii c in
  ((9 <=? n) && (n <=? 13)) || ((28 <=? n) && (n <=? 32)).

Definition isdigit (c : ascii) : bool :=
  let n := nat_of_ascii c in (48 <=? n) && (n <=? 57).

Definition isupper (c : ascii) : bool :=
  let n := nat_of_ascii c in (65 <=? n) && (n <=? 90).

Definition islower (c : ascii) : bool :=
  let n := nat_of_ascii c in (97 <=? n) && (n <=? 122).

(** [\w] of [re] on ASCII: letters, digits and underscore. *)
Definition isword (c : ascii) : bool :=
  isupper c || islower c || isdigit c || (nat_of_ascii c =? 95).

Definition upper_char (c : ascii) : ascii :=
  if islower c then ascii_of_nat (nat_of_ascii c - 32) else c.

Definition lower_char (c : ascii) : ascii :=
  if isupper c then ascii_of_nat (nat_of_ascii c + 32) else c.

Fixpoint map_chars (f : ascii -> ascii) (s : string) : string :=
  match s with
  | EmptyString => EmptyString
  | String c r => String (f c) (map_chars f r)
  end.

(** [s.upper()] and [s.lower()]. *)
Definition upper : string -> string := map_chars upper_char.
Definition lower : string -> string := map_chars lower_char.

(** [s.startswith(p)]. *)
Fixpoint startswith (p s : string) : bool :=
  match p, s with
  | EmptyString, _ => true
  | String a p', String b s' => Ascii.eqb a b && startswith p' s'
  | String _ _, EmptyString => false
  end.

(** [sub in s]. *)
Fixpoint contains (sub s : string) : bool :=
  startswith sub s ||
  match s with
  | EmptyString => false
  | String _ r => contains sub r
  end.

(** [s.lstrip()], [s.rstrip()], [s.strip()]. *)
Fixpoint lstrip (s : string) : string :=
  match s with
  | EmptyString => EmptyString
  | String c r => if isspace c then lstrip r else s
  end.

Fixpoint rstrip (s : string) : string :=
  match s with
  | EmptyString => EmptyString
  | String c r =>
      match rstrip r with
      | EmptyString => if isspace c then EmptyString else String c EmptyString
      | r' => String c r'
      end
  end.

Definition strip (s : string) : string := rstrip (lstrip s).

(** [s.strip(chars)] for a one-character [chars]. *)
Fixpoint lstrip_char (x : ascii) (s : string) : string :=
  match s with
  | EmptyString => EmptyString
  | String c r => if Ascii.eqb c x then lstrip_char x r else s
  end.

Fixpoint rstrip_char (x : ascii) (s : string) : string :=
  match s with
  | EmptyString => EmptyString
  | String c r =>
      match rstrip_char x r with
      | EmptyString => if Ascii.eqb c x then EmptyString else String c EmptyString
      | r' => String c r'
      end
  end.

Definition strip_char (x : ascii) (s : string) : string :=
  rstrip_char x (lstrip_char x s).

(** [s[n:]] and [s[:n]] for [0 <= n]. *)
Fixpoint drop (n : nat) (s : string) : string :=
  match n, s with
  | O, _ => s
  | S n', String _ r => drop n' r
  | S _, EmptyString => EmptyString
  end.

Fixpoint take (n : nat) (s : string) : string :=
  match n, s with
  | O, _ => EmptyString
  | S n', String c r => String c (take n' r)
  | S _, EmptyString => EmptyString
  end.

(** [s[a:b]] for [0 <= a], [0 <= b]. *)
Definition slice (a b : nat) (s : string) : string := drop a (take b s).

(** The offset of the first occurrence of [sub] in [s], if any. *)
Fixpoint find0 (sub s : string) : option nat :=
  if startswith sub s then Some O
  else match s with
       | EmptyString => None
       | String _ r => option_map S (find0 sub r)
       end.

(** [s.find(sub, start)]: [None] is Python's [-1].  When [start] is past
    the end only an empty [sub] at exactly [len(s)] could be found; the
    callers search for a non-empty marker. *)
Definition find (sub s : string) (start : nat) : option nat :=
  if String.length s <? start then None
  else option_map (fun i => start + i) (find0 sub (drop start s)).

(** Every character is whitespace (true of the empty string too): the
    strings for which [s.strip()] is empty. *)
Fixpoint isblank (s : string) : bool :=
  match s with
  | EmptyString => true
  | String c r => isspace c && isblank r
  end.

(** Python truthiness of a string. *)
Definition truthy (s : string) : bool :=
  match s with EmptyString => false | _ => true end.

(** [x in xs] for a list of strings. *)
Definition mem (x : string) (xs : list string) : bool :=
  existsb (String.eqb x) xs.

End PyStr.

(* ================================================================== *)
(** * Exceptions *)
(* ================================================================== *)

(** The Python exceptions that the modelled code can let escape. *)
Inductive PyExn : Type :=
| IndexError
| AttributeError
| ValueError (msg : string)
| TypeError (msg : string)
| OverflowError (msg : string)
| OtherError (msg : string).

Inductive outcome (A : Type) : Type :=
| Return (a : A)
| Raise (e : PyExn).
Arguments Return {A} a.
Arguments Raise {A} e.

(** [str(err)]. *)
Definition str_of_exn (e : PyExn) : string :=
  match e with
  | IndexError => "list index out of range"
  | AttributeError => "object has no such attribute"
  | ValueError msg => msg
  | TypeError msg => msg
  | OverflowError msg => msg
  | OtherError msg => msg
  end.

(* ================================================================== *)
(** * State and exceptions *)
(* ================================================================== *)

(** A computation that reads and writes a state [S] and either returns or
    raises; the state survives an exception. *)
Definition M (S A : Type) : Type := S -> outcome A * S.

Definition ret {S A : Type} (a : A) : M S A := fun s => (Return a, s).

Definition bind {S A B : Type} (c : M S A) (k : A -> M S B) : M S B :=
  fun s =>
    match c s with
    | (Return a, s') => k a s'
    | (Raise e, s') => (Raise e, s')
    end.

Notation "x <- c ;; k" := (bind c (fun x => k))
  (at level 61, c at next level, right associativity).

(** [d.get(key, default)] on an optional key. *)
Definition get_default {A : Type} (o : option A) (d : A) : A :=
  match o with Some a => a | None => d end.

(** [d.get(k)] on a dict kept as an association list (the keys of a dict
    are distinct). *)
Fixpoint dict_get {A : Type} (k : string) (d : list (string * A)) : option A :=
  match d with
  | [] => None
  | (k', v) :: r => if String.eqb k k' then Some v else dict_get k r
  end.

(* ================================================================== *)
(** * JSON values *)
(* ================================================================== *)

(** What [json.loads] returns and [json.dumps] accepts. *)
#[warnings="-register-all"]
Inductive Json : Type :=
| JNull
| JBool (b : bool)
| JNumber (n : Z)
| JString (s : string)
| JArray (items : list Json)
| JObject (members : list (string * Json)).

Definition JStrings (l : list string) : Json := JArray (map JString l).

(** [bool(v)] for a JSON value. *)
Definition py_truthy (v : Json) : bool :=
  match v with
  | JNull => false
  | JBool b => b
  | JNumber n => negb (n =? 0)%Z
  | JString s => PyStr.truthy s
  | JArray items => match items with [] => false | _ => true end
  | JObject members => match members with [] => false | _ => true end
  end.

(* ================================================================== *)
(** * validator.py *)
(* ================================================================== *)

Module Validator.

(** What [validate] reads of a sqlparse token: [t.value] and
    [t.is_whitespace].  A grouped token (identifier list, parenthesis,
    WHERE clause) is one token whose value is its whole text. *)
Record Token : Type := mkToken {
  value : string;
  is_whitespace : bool
}.

(** [stmt.tokens]: the top-level tokens of one statement. *)
Definition Statement : Type := list Token.

(** The dict returned by [validate]; the key [is_valid] is always
    present, the others are optional. *)
Record ValidationResult : Type := mkValidationResult {
  is_valid : bool;
  error : option string;
  warning : option string;
  tables_used : option (list string)
}.

Definition invalid (msg : string) : ValidationResult :=
  {| is_valid := false; error := Some msg; warning := None; tables_used := None |}.

(** The result as the dict that it is, for a callee that reads it by
    key. *)
Definition to_dict (r : ValidationResult) : list (string * Json) :=
  [("is_valid", JBool (is_valid r))]
  ++ match error r with Some e => [("error", JString e)] | None => [] end
  ++ match warning r with Some w => [("warning", JString w)] | None => [] end
  ++ match tables_used r with Some l => [("tables_used", JStrings l)] | None => [] end.

(** [forbidden] of [validate]. *)
Definition forbidden : list string :=
  ["DROP"; "DELETE"; "UPDATE"; "INSERT"; "ALTER"].

Section Agent.

(** [sqlparse.parse]. *)
Variable sqlparse_parse : string -> list Statement.

(** [self.schema_tables], in the insertion order of the dict. *)
Variable schema_tables : list (string * list string).

(** [[t.value.upper() for t in stmt.tokens if not t.is_whitespace]]. *)
Definition significant_tokens (stmt : Statement) : list string :=
  map (fun t => PyStr.upper (value t))
      (filter (fun t => negb (is_whitespace t)) stmt).

(** The loop [for table in self.schema_tables]. *)
Definition tables_found (sql : string) : list string :=
  let sql_str := PyStr.upper sql in
  filter (fun table => PyStr.contains (PyStr.upper table) sql_str)
         (map fst schema_tables).

(** [ValidatorAgent.validate]. *)
Definition validate (sql : string) : outcome ValidationResult :=
  match sqlparse_parse sql with
  | [] => Return (invalid "Invalid SQL syntax")
  | stmt :: _ =>
      let tokens := significant_tokens stmt in
      match tokens with
      | [] => Raise IndexError
      | first :: _ =>
          if negb (PyStr.contains "SELECT" first) then
            Return (invalid "Only SELECT statements are allowed")
          else
            match List.find (fun word => PyStr.mem word tokens) forbidden with
            | Some word =>
                Return (invalid ("Forbidden operation detected: " ++ word)%string)
            | None =>
                match tables_found sql with
                | [] =>
                    Return {| is_valid := true;
                              error := None;
                              warning := Some "No known tables referenced";
                              tables_used := Some [] |}
                | found =>
                    Return {| is_valid := true;
                              error := None;
                              warning := None;
                              tables_used := Some found |}
                end
            end
      end
  end.

End Agent.

(** [word] is a standalone token of [sql]: some statement of its parse has
    a token that is not whitespace and whose text, in upper case, is
    [word]. *)
Definition standalone_token (sqlparse_parse : string -> list Statement)
    (sql word : string) : Prop :=
  exists stmt t,
    In stmt (sqlparse_parse sql) /\ In t stmt /\
    is_whitespace t = false /\ PyStr.upper (value t) = word.

End Validator.


(* ================================================================== *)
(** * A reference instance of the statement parser *)
(* ================================================================== *)

(** sqlparse is a dependency of the repository, not part of it, and
    [Validator.validate] is parameterised by it.  [FlatSql.parse] is an
    executable instance for the fragment on which sqlparse performs no
    grouping: words (keywords, names, numbers), single-quoted literals,
    one-character whitespace and punctuation tokens, statements ended by
    [;].  It serves to run [validate] on concrete inputs. *)
Module FlatSql.

Import Validator.

Definition quote : ascii := "'"%char.
Definition semicolon : ascii := ";"%char.

Definition snoc (buf : string) (c : ascii) : string :=
  (buf ++ String c EmptyString)%string.

(** The pending word, if any, becomes a token. *)
Definition flush (buf : string) : list Token :=
  match buf with
  | EmptyString => []
  | _ => [mkToken buf false]
  end.

(** The lexer: [buf] is the text of the token being read, [inq] tells
    whether it is a quoted literal. *)
Fixpoint lex (s : string) (buf : string) (inq : bool) : list Token :=
  match s with
  | EmptyString => flush buf
  | String c r =>
      if inq then
        if Ascii.eqb c quote then mkToken (snoc buf c) false :: lex r EmptyString false
        else lex r (snoc buf c) true
      else if PyStr.isword c then lex r (snoc buf c) false
      else if Ascii.eqb c quote then flush buf ++ lex r (String c EmptyString) true
      else flush buf ++ mkToken (String c EmptyString) (PyStr.isspace c)
                        :: lex r EmptyString false
  end.

Definition is_semicolon (t : Token) : bool :=
  String.eqb (value t) (String semicolon EmptyString).

(** The statement splitter: a statement ends at [;], the whitespace that
    follows it stays with it, and a pending statement is produced at the
    end unless it is whitespace only. *)
Fixpoint split (toks : list Token) (cur : Statement) (consume_ws : bool)
  : list Statement :=
  match toks with
  | [] => if existsb (fun t => negb (is_whitespace t)) cur then [cur] else []
  | t :: r =>
      if consume_ws && negb (is_whitespace t)
      then cur :: split r [t] (is_semicolon t)
      else split r (cur ++ [t]) (consume_ws || is_semicolon t)
  end.

Definition parse (sql : string) : list Statement :=
  split (lex sql EmptyString false) [] false.

(** Tokens that are all whitespace. *)
Definition all_whitespace (toks : list Token) : Prop :=
  Forall (fun t => is_whitespace t = true) toks.

End FlatSql.

(* ================================================================== *)
(** * logger_config.py *)
(* ================================================================== *)

Module LoggerConfig.

(** The wrapper that [log_agent_flow(agent_name)] puts around an agent
    method, as its caller sees it.  [json.dumps] of the arguments comes
    before the call and outside the [try]; then the call; then
    [json.dumps] of the result, inside the [try], whose handler logs and
    raises again whatever was raised.  [input_error] and [output_error]
    give the message of the [TypeError] of [json.dumps], [None] when the
    data is serialisable.  The records that the wrapper keeps in
    [agent_logger] are read by the user interface only and are not part
    of the model. *)
Definition log_agent_flow {S A : Type} (input_error : option string)
    (output_error : A -> option string) (func : M S A) : M S A :=
  fun s =>
    match input_error with
    | Some msg => (Raise (TypeError msg), s)
    | None =>
        match func s with
        | (Return result, s') =>
            match output_error result with
            | Some msg => (Raise (TypeError msg), s')
            | None => (Return result, s')
            end
        | (Raise e, s') => (Raise e, s')
        end
    end.

End LoggerConfig.

(* ================================================================== *)
(** * executor.py *)
(* ================================================================== *)

Module Executor.

Import Validator.

Section Agent.

(** A value of a result column, as the driver yields it. *)
Variable Value : Type.

(** [json.dumps] on a value of a column: [None] when the value is
    serialisable (as [None], [int], [float] and [str] are), the message
    of the [TypeError] when it is not (as [bytes] are not). *)
Variable json_type_error : Value -> option string.

(** A [sqlite3.Row]: the columns of one result row, in order. *)
Definition Row : Type := list (string * Value).

(** [d[k] = v] on a dict kept in insertion order. *)
Fixpoint dict_set (k : string) (v : Value) (d : Row) : Row :=
  match d with
  | [] => [(k, v)]
  | (k', v') :: r =>
      if String.eqb k k' then (k, v) :: r else (k', v') :: dict_set k v r
  end.

(** [row[key]]: the value of the first column whose name is [key], the
    case of the ASCII letters ignored. *)
Definition row_item (row : Row) (key : string) : option Value :=
  option_map snd
    (List.find (fun kv => String.eqb (PyStr.lower (fst kv)) (PyStr.lower key)) row).

(** [dict(row)]: [d[key] = row[key]] for every [key] of [row.keys()]. *)
Definition dict_of_row (row : Row) : Row :=
  fold_left (fun d key =>
               match row_item row key with
               | Some v => dict_set key v d
               | None => d
               end)
            (map fst row) [].

(** The dict returned by [run_query]. *)
Record ExecResult : Type := mkExecResult {
  success : bool;
  results : option (list Row);
  message : option string;
  exec_error : option string
}.

(** The first value, in the order of the dump, that [json.dumps] does
    not accept. *)
Fixpoint first_type_error (cells : list Value) : option string :=
  match cells with
  | [] => None
  | v :: r =>
      match json_type_error v with
      | Some msg => Some msg
      | None => first_type_error r
      end
  end.

(** [json.dumps] on the dict returned by [run_query]: its other entries
    are a [bool] and strings. *)
Definition result_type_error (r : ExecResult) : option string :=
  match results r with
  | Some rows => first_type_error (flat_map (fun row : Row => map snd row) rows)
  | None => None
  end.

(** The database file behind [self.db_path]. *)
Variable Db : Type.

(** [sqlite3.connect(self.db_path)] followed by [cursor.execute(sql)]: the
    text of a [sqlite3.Error], or the full result set that the cursor
    stands for; and the database afterwards. *)
Variable sqlite_execute : string -> Db -> (string + list Row) * Db.

(** [cursor.fetchmany(size)] on a cursor that stands for [rows]: the rows
    fetched, or the exception raised for a [size] that the driver does
    not take, which is not a [sqlite3.Error]. *)
Variable fetchmany : list Row -> Z -> outcome (list Row).

(** The database together with the record of the statements that were
    sent to it. *)
Record Session : Type := mkSession {
  db : Db;
  executed : list string
}.

(** The default of the parameter [limit] of [run_query]. *)
Definition default_limit : Z := 100%Z.

(** [validation_context and not validation_context.get("is_valid")]: the
    context is a dict that is not empty, and its entry [is_valid] is
    missing or false as [bool()] reads it. *)
Definition gate_closed (validation_context : option (list (string * Json))) : bool :=
  match validation_context with
  | Some [] => false
  | Some d =>
      negb (match dict_get "is_valid" d with
            | Some v => py_truthy v
            | None => false
            end)
  | None => false
  end.

(** The body of [run_query], which the decorator wraps; an omitted
    argument is [None].  A [sqlite3.Error] is caught; the exception of
    [fetchmany] is not. *)
Definition run_query_body (sql : string) (limit : option Z)
    (validation_context : option (list (string * Json))) : M Session ExecResult :=
  fun s =>
    let limit := match limit with Some l => l | None => default_limit end in
    if gate_closed validation_context then
      (Return {| success := false; results := None; message := None;
                 exec_error := Some "Query failed validation" |}, s)
    else
      let '(r, db') := sqlite_execute sql (db s) in
      let s' := {| db := db'; executed := executed s ++ [sql] |} in
      match r with
      | inr cursor =>
          match fetchmany cursor limit with
          | Return rows =>
              let results := map dict_of_row rows in
              match results with
              | [] => (Return {| success := true; results := Some [];
                                 message := Some "No results found";
                                 exec_error := None |}, s')
              | _ => (Return {| success := true; results := Some results;
                                message := None; exec_error := None |}, s')
              end
          | Raise e => (Raise e, s')
          end
      | inl e =>
          (Return {| success := false; results := None; message := None;
                     exec_error := Some e |}, s')
      end.

(** [ExecutorAgent.run_query], that is
    [log_agent_flow("ExecutorAgent")(run_query)].  The arguments are a
    string, an [int] and a dict of JSON values or [None], which
    [json.dumps] accepts. *)
Definition run_query (sql : string) (limit : option Z)
    (validation_context : option (list (string * Json))) : M Session ExecResult :=
  LoggerConfig.log_agent_flow None result_type_error
    (run_query_body sql limit validation_context).

(** [run_query] as a collaborator of the pipeline, which hands it the
    dict that [validate] returned, and of the generator. *)
Definition run_query_call (sql : string) (limit : option Z)
    (validation_context : option ValidationResult) : M Session ExecResult :=
  run_query sql limit (option_map to_dict validation_context).

End Agent.

Arguments success {Value} _.
Arguments results {Value} _.
Arguments message {Value} _.
Arguments exec_error {Value} _.
Arguments db {Db} _.
Arguments executed {Db} _.
Arguments mkSession {Db} _ _.
Arguments row_item {Value} row key.
Arguments first_type_error {Value} json_type_error cells.
Arguments result_type_error {Value} json_type_error r.
Arguments run_query_body {Value Db} sqlite_execute fetchmany sql limit
  validation_context _.
Arguments run_query {Value} json_type_error {Db} sqlite_execute fetchmany sql limit
  validation_context _.
Arguments run_query_call {Value} json_type_error {Db} sqlite_execute fetchmany sql limit
  validation_context _.

End Executor.


(* ================================================================== *)
(** * pipeline.py *)
(* ================================================================== *)

Module Pipeline.

(** [PipelineConfig]. *)
Record PipelineConfig : Type := mkPipelineConfig {
  max_retries : Z;
  sql_row_limit : Z
}.

(** The field defaults of the dataclass [PipelineConfig]. *)
Definition default_config : PipelineConfig :=
  {| max_retries := 2%Z; sql_row_limit := 200%Z |}.

(** [PipelineDiagnostics], without [timings_ms] (wall-clock readings,
    which no decision of [run] depends on). *)
Record PipelineDiagnostics : Type := mkPipelineDiagnostics {
  retries : Z;
  validator_fail_reasons : list string;
  executor_errors : list string;
  generated_sql : option string;
  final_sql : option string;
  chosen_tables : list string;
  detected_capabilities : list string
}.

(** [PipelineDiagnostics()]. *)
Definition new_diagnostics : PipelineDiagnostics :=
  {| retries := 0%Z; validator_fail_reasons := []; executor_errors := [];
     generated_sql := None; final_sql := None;
     chosen_tables := []; detected_capabilities := [] |}.

Definition set_retries (n : Z) (d : PipelineDiagnostics) : PipelineDiagnostics :=
  {| retries := n;
     validator_fail_reasons := validator_fail_reasons d;
     executor_errors := executor_errors d;
     generated_sql := generated_sql d; final_sql := final_sql d;
     chosen_tables := chosen_tables d;
     detected_capabilities := detected_capabilities d |}.

Definition add_validator_fail_reason (r : string) (d : PipelineDiagnostics)
  : PipelineDiagnostics :=
  {| retries := retries d;
     validator_fail_reasons := validator_fail_reasons d ++ [r];
     executor_errors := executor_errors d;
     generated_sql := generated_sql d; final_sql := final_sql d;
     chosen_tables := chosen_tables d;
     detected_capabilities := detected_capabilities d |}.

Definition add_executor_error (e : string) (d : PipelineDiagnostics)
  : PipelineDiagnostics :=
  {| retries := retries d;
     validator_fail_reasons := validator_fail_reasons d;
     executor_errors := executor_errors d ++ [e];
     generated_sql := generated_sql d; final_sql := final_sql d;
     chosen_tables := chosen_tables d;
     detected_capabilities := detected_capabilities d |}.

Definition set_generated_sql (q : string) (d : PipelineDiagnostics)
  : PipelineDiagnostics :=
  {| retries := retries d;
     validator_fail_reasons := validator_fail_reasons d;
     executor_errors := executor_errors d;
     generated_sql := Some q; final_sql := final_sql d;
     chosen_tables := chosen_tables d;
     detected_capabilities := detected_capabilities d |}.

Definition set_final_sql (q : string) (d : PipelineDiagnostics)
  : PipelineDiagnostics :=
  {| retries := retries d;
     validator_fail_reasons := validator_fail_reasons d;
     executor_errors := executor_errors d;
     generated_sql := generated_sql d; final_sql := Some q;
     chosen_tables := chosen_tables d;
     detected_capabilities := detected_capabilities d |}.

(** The keys of the planner's dict that [run] reads by name; the keys it
    only forwards ([metadata_context], [conversation_state], [steps],
    [clarifications]) travel inside [GenCtx] as the plan itself. *)
Record Plan : Type := mkPlan {
  tables : list string;
  capabilities : list string;
  follow_up_suggestions : list string
}.

(** What [run] did with its collaborators, in order. *)
Inductive Event : Type :=
| EvPlan (nl_query : string)
| EvRetrieve (retrieval_query : string)
| EvGenerate (nl_query : string)
| EvValidate (sql : string)
| EvRepair (hint : string)
| EvExecute (sql : string) (limit : Z) (vc : Validator.ValidationResult)
| EvSummarize.

Section Run.

(** The world outside the pipeline: LLM, vector store, database. *)
Variable W : Type.

(** Result values, the retriever's bundle, the summarizer's dict and the
    clarified values are passed along unread. *)
Variables Value Bundle Summary Clarified : Type.

Definition Row : Type := list (string * Value).

(** [gen_ctx]. *)
Record GenCtx : Type := mkGenCtx {
  retrieval_context : Bundle;
  planner_analysis : Plan;
  clarified_values : option Clarified
}.

(** The six collaborators, as [run] calls them. *)
Record Agents : Type := mkAgents {
  analyze_query : string -> M W Plan;
  fetch_schema_context : string -> M W Bundle;
  generate : string -> Bundle -> GenCtx -> list (string * list string) -> M W string;
  repair_sql : string -> GenCtx -> string -> M W string;
  validate : string -> M W Validator.ValidationResult;
  run_query : string -> option Z -> option Validator.ValidationResult
              -> M W (Executor.ExecResult Value);
  summarize : string -> Executor.ExecResult Value -> M W Summary
}.

Variable agents : Agents.
Variable schema_tables : list (string * list string).
Variable cfg : PipelineConfig.

(** The world and the record of the calls made so far. *)
Record State : Type := mkState {
  world : W;
  trace : list Event
}.

(** A call to a collaborator: it is recorded, then made. *)
Definition call {A : Type} (ev : Event) (c : M W A) : M State A :=
  fun st =>
    let '(r, w') := c (world st) in
    (r, {| world := w'; trace := trace st ++ [ev] |}).

(** The dict that [run] returns. *)
Record PipelineResult : Type := mkPipelineResult {
  success : bool;
  error : option string;
  sql : string;
  diagnostics : PipelineDiagnostics;
  summary : option Summary;
  suggestions : list string;
  result_capabilities : list string;
  result_tables : list string;
  table : list Row;
  execution_message : string
}.

(** How the [while] loop of [run] ends: by the [return] inside it, by
    leaving the loop, or (in the model only) by exhausting [fuel]. *)
Inductive LoopResult : Type :=
| Done (out : PipelineResult)
| Broke (sql : string) (last_error : option string) (diag : PipelineDiagnostics)
| OutOfFuel.

Section Loop.

Variable nl_query : string.
Variable plan : Plan.
Variable gen_ctx : GenCtx.

(** [while attempts <= self.cfg.max_retries: ...]. *)
Fixpoint loop (fuel : nat) (attempts : Z) (last_error : option string)
    (sql : string) (diag : PipelineDiagnostics) : M State LoopResult :=
  if (attempts <=? max_retries cfg)%Z then
    match fuel with
    | O => ret OutOfFuel
    | S fuel' =>
        validation_result <- call (EvValidate sql) (validate agents sql) ;;
        if negb (Validator.is_valid validation_result) then
          let reason := get_default (Validator.error validation_result)
                                    "unknown validation error" in
          let diag := add_validator_fail_reason reason diag in
          let attempts := (attempts + 1)%Z in
          let diag := set_retries attempts diag in
          if (attempts >? max_retries cfg)%Z then
            ret (Broke sql last_error diag)
          else
            sql <- call (EvRepair reason) (repair_sql agents nl_query gen_ctx reason) ;;
            loop fuel' attempts last_error sql diag
        else
          exec_result <- call (EvExecute sql (sql_row_limit cfg) validation_result)
                              (run_query agents sql (Some (sql_row_limit cfg))
                                         (Some validation_result)) ;;
          if Executor.success exec_result then
            let diag := set_final_sql sql diag in
            let diag := set_retries attempts diag in
            out <- call EvSummarize (summarize agents nl_query exec_result) ;;
            ret (Done {| success := true;
                         error := None;
                         sql := sql;
                         diagnostics := diag;
                         summary := Some out;
                         suggestions := follow_up_suggestions plan;
                         result_capabilities := capabilities plan;
                         result_tables := chosen_tables diag;
                         table := get_default (Executor.results exec_result) [];
                         execution_message :=
                           get_default (Executor.message exec_result) "" |})
          else
            let err := get_default (Executor.exec_error exec_result) "unknown" in
            let diag := add_executor_error err diag in
            let last_error := Some err in
            let attempts := (attempts + 1)%Z in
            let diag := set_retries attempts diag in
            if (attempts >? max_retries cfg)%Z then
              ret (Broke sql last_error diag)
            else
              sql <- call (EvRepair err) (repair_sql agents nl_query gen_ctx err) ;;
              loop fuel' attempts last_error sql diag
    end
  else ret (Broke sql last_error diag).

End Loop.

(** [last_error or "Could not produce safe SQL"]. *)
Definition error_or_default (last_error : option string) : string :=
  match last_error with
  | Some e => if PyStr.truthy e then e else "Could not produce safe SQL"
  | None => "Could not produce safe SQL"
  end.

(** [NL2SQLPipeline.run]; [None] is returned only when the loop reports
    [OutOfFuel]. *)
Definition run (nl_query : string) (clarified : option Clarified)
  : M State (option PipelineResult) :=
  plan <- call (EvPlan nl_query) (analyze_query agents nl_query) ;;
  let diag := new_diagnostics in
  let diag := {| retries := retries diag;
                 validator_fail_reasons := validator_fail_reasons diag;
                 executor_errors := executor_errors diag;
                 generated_sql := generated_sql diag;
                 final_sql := final_sql diag;
                 chosen_tables := tables plan;
                 detected_capabilities := capabilities plan |} in
  let retrieval_query :=
    ("tables: " ++ String.concat " " (tables plan) ++ " query: " ++ nl_query)%string in
  ctx_bundle <- call (EvRetrieve retrieval_query)
                     (fetch_schema_context agents retrieval_query) ;;
  let gen_ctx := {| retrieval_context := ctx_bundle;
                    planner_analysis := plan;
                    clarified_values := clarified |} in
  sql0 <- call (EvGenerate nl_query)
               (generate agents nl_query ctx_bundle gen_ctx schema_tables) ;;
  let diag := set_generated_sql sql0 diag in
  r <- loop nl_query plan gen_ctx (S (Z.to_nat (max_retries cfg + 1))) 0%Z None sql0 diag ;;
  match r with
  | Done out => ret (Some out)
  | Broke sql last_error diag =>
      ret (Some {| success := false;
                   error := Some (error_or_default last_error);
                   sql := sql;
                   diagnostics := diag;
                   summary := None;
                   suggestions := [];
                   result_capabilities := capabilities plan;
                   result_tables := chosen_tables diag;
                   table := [];
                   execution_message := "" |})
  | OutOfFuel => ret None
  end.

End Run.

Arguments world {W} _.
Arguments trace {W} _.
Arguments mkState {W} _ _.
Arguments call {W A} ev c _.
Arguments analyze_query {W Value Bundle Summary Clarified} _ _ _.
Arguments fetch_schema_context {W Value Bundle Summary Clarified} _ _ _.
Arguments generate {W Value Bundle Summary Clarified} _ _ _ _ _ _.
Arguments repair_sql {W Value Bundle Summary Clarified} _ _ _ _ _.
Arguments validate {W Value Bundle Summary Clarified} _ _ _.
Arguments run_query {W Value Bundle Summary Clarified} _ _ _ _ _.
Arguments summarize {W Value Bundle Summary Clarified} _ _ _ _.
Arguments success {Value Summary} _.
Arguments error {Value Summary} _.
Arguments sql {Value Summary} _.
Arguments diagnostics {Value Summary} _.
Arguments table {Value Summary} _.
Arguments summary {Value Summary} _.
Arguments Done {Value Summary} out.
Arguments Broke {Value Summary} sql last_error diag.
Arguments OutOfFuel {Value Summary}.
Arguments loop {W Value Bundle Summary Clarified} agents cfg nl_query plan gen_ctx
  fuel attempts last_error sql diag _.
Arguments run {W Value Bundle Summary Clarified} agents schema_tables cfg nl_query
  clarified _.

(** Reading a trace. *)
Definition is_validate (ev : Event) : bool :=
  match ev with EvValidate _ => true | _ => false end.

Definition is_repair (ev : Event) : bool :=
  match ev with EvRepair _ => true | _ => false end.

Definition count (p : Event -> bool) (tr : list Event) : Z :=
  Z.of_nat (List.length (filter p tr)).

(** The SQL texts handed to the executor. *)
Fixpoint executed_sql (tr : list Event) : list string :=
  match tr with
  | [] => []
  | EvExecute sql _ _ :: r => sql :: executed_sql r
  | _ :: r => executed_sql r
  end.

(** An executor call made under the configuration [cfg] with a verdict
    that satisfies [P]: the limit is the configured one and the verdict is
    a valid one. *)
Definition gated (cfg : PipelineConfig)
    (P : string -> Validator.ValidationResult -> Prop) (ev : Event) : Prop :=
  match ev with
  | EvExecute sql limit vc =>
      limit = sql_row_limit cfg /\ Validator.is_valid vc = true /\ P sql vc
  | _ => True
  end.

End Pipeline.


(* ================================================================== *)
(** * planner.py *)
(* ================================================================== *)

Module Planner.

(** What the planner reads of a column of the metadata file. *)
Record ColumnInfo : Type := mkColumnInfo {
  distinct_values : option (list string);
  typical_high : option Z
}.

(** A table of the metadata file: its columns, by name. *)
Record TableInfo : Type := mkTableInfo {
  columns : list (string * ColumnInfo)
}.

(** [MetadataLoader.get_metadata()['tables']]. *)
Definition Metadata : Type := list (string * TableInfo).

(** [MetadataLoader.get_distinct_values]. *)
Definition get_distinct_values (md : Metadata) (table_name column_name : string)
  : list string :=
  match dict_get table_name md with
  | Some t =>
      match dict_get column_name (columns t) with
      | Some c => get_default (distinct_values c) []
      | None => []
      end
  | None => []
  end.

(** The zero-width [\b] that follows a match: the next character, if there
    is one, is not a word character. *)
Definition boundary (rest : string) : bool :=
  match rest with
  | EmptyString => true
  | String c _ => negb (PyStr.isword c)
  end.

(** [re.search(r"\b" + body + r"\b", s)] for a [body] that begins and ends
    with a word character: [body_at] recognises [body] followed by [\b] at
    the head of a string, and a match may start only where the previous
    character is not a word character. *)
Fixpoint search_word (body_at : string -> bool) (prev_word : bool) (s : string)
  : bool :=
  (negb prev_word && body_at s) ||
  match s with
  | EmptyString => false
  | String c r => search_word body_at (PyStr.isword c) r
  end.

(** [(20\d{2}|202\d)\b] at the head of a string.  Both alternatives take
    four characters and the second is an instance of the first. *)
Definition year_at (s : string) : bool :=
  match s with
  | String a (String b (String c (String d r))) =>
      Ascii.eqb a "2"%char && Ascii.eqb b "0"%char &&
      PyStr.isdigit c && PyStr.isdigit d && boundary r
  | _ => false
  end.

(** [re.search(r"\b(20\d{2}|202\d)\b", text)]. *)
Definition has_year (text : string) : bool := search_word year_at false text.

(** The text after the leading digits, and how many there are. *)
Fixpoint skip_digits (s : string) : nat * string :=
  match s with
  | String c r =>
      if PyStr.isdigit c then let '(n, t) := skip_digits r in (S n, t) else (O, s)
  | EmptyString => (O, s)
  end.

(** [\d{2,}\b] at the head of a string: digits are word characters, so the
    boundary can only follow the whole run. *)
Definition number_at (s : string) : bool :=
  let '(n, t) := skip_digits s in (2 <=? n) && boundary t.

(** [re.search(r"\b\d{2,}\b", text)]. *)
Definition has_number (text : string) : bool := search_word number_at false text.

(** The [default] of a clarification record. *)
Inductive DefaultValue : Type :=
| DNumber (n : Z)
| DText (s : string).

(** A clarification record. *)
Record Clarification : Type := mkClarification {
  field : string;
  prompt : string;
  type : string;
  default : DefaultValue;
  options : option (list string)
}.

(** [PlannerAgent._detect_clarifications]. *)
Definition _detect_clarifications (md : Metadata) (text : string)
  : list Clarification :=
  let tl := PyStr.lower text in
  let threshold :=
    if existsb (fun k => PyStr.contains k tl)
               ["high value"; "high balance"; "rich"; "wealthy"]
       && negb (has_number text)
    then
      let default_threshold :=
        match dict_get "accounts" md with
        | Some t =>
            match dict_get "balance" (columns t) with
            | Some balance_info => get_default (typical_high balance_info) 20000%Z
            | None => 20000%Z
            end
        | None => 20000%Z
        end in
      [ {| field := "min_balance";
           prompt := "What minimum balance should count as 'high'?";
           type := "number";
           default := DNumber default_threshold;
           options := None |} ]
    else [] in
  let timeframe :=
    if PyStr.contains "recent" tl
       || (PyStr.contains "last" tl && negb (has_year text))
    then
      [ {| field := "date_range";
           prompt := "What date range do you mean by 'recent'?";
           type := "text";
           default := DText "last 30 days";
           options := None |} ]
    else [] in
  let quarter :=
    if PyStr.contains "q1" tl || PyStr.contains "first quarter" tl
    then
      [ {| field := "date_range";
           prompt := "Confirm date range for Q1";
           type := "text";
           default := DText "2025-01-01..2025-03-31";
           options := None |} ]
    else [] in
  let account :=
    if PyStr.contains "account" tl
       && negb (existsb (fun acc_type => PyStr.contains acc_type tl)
                        (get_distinct_values md "accounts" "type"))
    then
      [ {| field := "account_type";
           prompt := "What type of account are you interested in?";
           type := "select";
           default := DText "checking";
           options := Some (get_distinct_values md "accounts" "type") |} ]
    else [] in
  threshold ++ timeframe ++ quarter ++ account.

(** The clarification of the ambiguous-timeframe branch. *)
Definition is_recent_clarification (c : Clarification) : bool :=
  String.eqb (field c) "date_range" &&
  String.eqb (prompt c) "What date range do you mean by 'recent'?" &&
  match default c with
  | DText d => String.eqb d "last 30 days"
  | DNumber _ => false
  end.

Definition emits_recent_clarification (md : Metadata) (text : string) : bool :=
  existsb is_recent_clarification (_detect_clarifications md text).

(** [self.schema_map]: the tables and their columns, in the order of the
    dict. *)
Definition SchemaMap : Type := list (string * list string).

(** [list(dict.fromkeys(xs))]: duplicates removed, first occurrences
    kept in order. *)
Fixpoint dedup_from (seen xs : list string) : list string :=
  match xs with
  | [] => []
  | x :: r =>
      if PyStr.mem x seen then dedup_from seen r
      else x :: dedup_from (x :: seen) r
  end.

Definition dedup (xs : list string) : list string := dedup_from [] xs.

(** [col_info.get('distinct_values')] is a non-empty list one of whose
    values, in lower case, occurs in [tl]. *)
Definition column_matches (tl : string) (c : ColumnInfo) : bool :=
  match distinct_values c with
  | Some (v :: vs) => existsb (fun val => PyStr.contains (PyStr.lower val) tl) (v :: vs)
  | _ => false
  end.

(** The tables of the schema whose name contains [word]. *)
Definition tables_containing (schema_map : SchemaMap) (word : string)
  : list string :=
  filter (fun t => PyStr.contains word t) (map fst schema_map).

(** [PlannerAgent._detect_tables]. *)
Definition _detect_tables (schema_map : SchemaMap) (md : Metadata) (text : string)
  : list string :=
  let tl := PyStr.lower text in
  let direct :=
    filter (fun table => PyStr.contains (PyStr.lower table) tl) (map fst schema_map) in
  let by_value :=
    map fst (filter (fun entry =>
                       existsb (fun col => column_matches tl (snd col))
                               (columns (snd entry)))
                    md) in
  let found := direct ++ by_value in
  let found :=
    match found with
    | [] =>
        (if PyStr.contains "customer" tl
         then tables_containing schema_map "customer" else [])
        ++ (if PyStr.contains "account" tl
            then tables_containing schema_map "account" else [])
        ++ (if PyStr.contains "transaction" tl || PyStr.contains "transactions" tl
            then tables_containing schema_map "transaction" else [])
        ++ (if PyStr.contains "employee" tl || PyStr.contains "employees" tl
            then tables_containing schema_map "employee" else [])
        ++ (if PyStr.contains "branch" tl || PyStr.contains "branches" tl
            then tables_containing schema_map "branch" else [])
    | _ => found
    end in
  match dedup found with
  | [] => map fst schema_map
  | unique_tables => unique_tables
  end.

(** The keyword lists of the class. *)
Definition DATE_WORDS : list string :=
  ["q1"; "q2"; "q3"; "q4"; "quarter"; "year"; "month"; "week"; "today";
   "yesterday"; "last"; "first quarter"; "2024"; "2025"].
Definition AGG_WORDS : list string :=
  ["average"; "avg"; "sum"; "count"; "total"; "number of"; "how many"].
Definition EXISTS_WORDS : list string :=
  ["both"; "either"; "and"; "have both"; "have both a"; "have both an"].
Definition WINDOW_WORDS : list string :=
  ["consecutive"; "consecutive days"; "lag"; "lead"].
Definition WEEKEND_WORDS : list string := ["weekend"; "saturday"; "sunday"].
Definition THRESHOLD_WORDS : list string :=
  ["greater than"; "less than"; "above"; "below"; "minimum"; "max"; "at least";
   "more than"].

(** [any(w in tl for w in words)]. *)
Definition any_in (words : list string) (tl : string) : bool :=
  existsb (fun w => PyStr.contains w tl) words.

(** [sorted] on strings: insertion into a sorted list. *)
Fixpoint insert_sorted (x : string) (l : list string) : list string :=
  match l with
  | [] => [x]
  | y :: r => if String.leb x y then x :: l else y :: insert_sorted x r
  end.

Definition sorted (l : list string) : list string :=
  fold_right insert_sorted [] l.

(** Every element is strictly below the next one, in the order of
    [str]: the list is sorted and has no duplicate. *)
Fixpoint ascending (l : list string) : bool :=
  match l with
  | x :: ((y :: _) as r) => String.ltb x y && ascending r
  | _ => true
  end.

(** [metadata['tables'][table]['columns'].get(column, {})
    .get('distinct_values', [])], for a table that is present (and has
    its [columns] entry); a value in lower case occurs in [tl]. *)
Definition table_value_in (md : Metadata) (table column tl : string) : bool :=
  match dict_get table md with
  | Some t =>
      match dict_get column (columns t) with
      | Some c =>
          existsb (fun v => PyStr.contains (PyStr.lower v) tl)
                  (get_default (distinct_values c) [])
      | None => false
      end
  | None => false
  end.

(** The tags of [_detect_capabilities], in the order the set receives
    them. *)
Definition capability_tags (md : Metadata) (text : string) : list string :=
  let tl := PyStr.lower text in
  (if any_in AGG_WORDS tl then ["aggregate"] else [])
  ++ (if any_in EXISTS_WORDS tl then ["exists"] else [])
  ++ (if any_in WINDOW_WORDS tl then ["window"] else [])
  ++ (if any_in WEEKEND_WORDS tl then ["weekend"] else [])
  ++ (if any_in DATE_WORDS tl then ["date_filter"] else [])
  ++ (if any_in THRESHOLD_WORDS tl then ["threshold"] else [])
  ++ (if table_value_in md "accounts" "type" tl then ["account_type_filter"] else [])
  ++ (if table_value_in md "transactions" "type" tl
      then ["transaction_type_filter"] else [])
  ++ (if table_value_in md "employees" "position" tl then ["position_filter"] else [])
  ++ (if PyStr.contains "manager" tl || PyStr.contains "handled by" tl
         || PyStr.contains "handled" tl
      then ["join_employees"] else []).

(** [PlannerAgent._detect_capabilities]. *)
Definition _detect_capabilities (md : Metadata) (text : string) : list string :=
  sorted (capability_tags md text).

(** [PlannerAgent._generate_follow_up_suggestions]; the tables and the
    capabilities it receives are not read. *)
Definition _generate_follow_up_suggestions (md : Metadata) (query : string)
  : list string :=
  let query_lower := PyStr.lower query in
  let branch :=
    if PyStr.contains "branch" query_lower || PyStr.contains "branches" query_lower
    then
      if PyStr.contains "transaction" query_lower
      then ["Show me the bottom 5 performing branches";
            "What's the average transaction amount by branch?";
            "Show me branch performance by month";
            "Compare branch performance by employee count"]
      else ["Show me the top 10 branches by transaction volume";
            "Which branches have the most employees?";
            "Show me branch performance by revenue";
            "What's the average account balance by branch?"]
    else [] in
  let account :=
    if PyStr.contains "account" query_lower || PyStr.contains "balance" query_lower
    then
      (match get_distinct_values md "accounts" "type" with
       | t0 :: t1 :: _ =>
           [("Show me customers with both " ++ t0 ++ " and " ++ t1 ++ " accounts")%string]
       | _ => []
       end)
      ++ ["Show me the top 10 accounts by balance";
          "What's the average account balance?";
          "Show me account distribution by type"]
    else [] in
  let employee :=
    if PyStr.contains "employee" query_lower || PyStr.contains "salary" query_lower
    then
      (match get_distinct_values md "employees" "position" with
       | p0 :: _ => [("Show me all " ++ p0 ++ "s")%string]
       | [] => []
       end)
      ++ ["Show me the top 10 highest paid employees";
          "What's the average employee salary?";
          "Show me salary distribution by position"]
    else [] in
  let transaction :=
    if PyStr.contains "transaction" query_lower
    then
      (match get_distinct_values md "transactions" "type" with
       | t0 :: _ => [("Show me all " ++ t0 ++ " transactions")%string]
       | [] => []
       end)
      ++ ["Show me transaction trends by month";
          "What's the average transaction amount?";
          "Show me transactions by type"]
    else [] in
  let suggestions := branch ++ account ++ employee ++ transaction in
  let suggestions :=
    match suggestions with
    | [] => ["Show me the count of rows by each table";
             "What's the top performing branch?";
             "Show me the highest balance account";
             "Which employee has the highest salary?"]
    | _ => suggestions
    end in
  firstn 4 suggestions.

(** A step of the plan: its action and, for the two fetching steps, the
    tables. *)
Definition PlanStep : Type := (string * option (list string))%type.

(** The dict that [analyze_query] returns, without [conversation_state]
    (the constructor's argument, handed through unread); the plan of an
    empty question has neither [query] nor [follow_up_suggestions] nor
    [metadata_context]. *)
Record PlanDict : Type := mkPlanDict {
  plan_query : option string;
  plan_tables : list string;
  plan_steps : list PlanStep;
  plan_capabilities : list string;
  plan_clarifications : list Clarification;
  plan_follow_up_suggestions : option (list string);
  plan_metadata_context : option (list (string * TableInfo))
}.

(** [PlannerAgent.analyze_query]. *)
Definition analyze_query (schema_map : SchemaMap) (md : Metadata) (nl_query : string)
  : PlanDict :=
  if negb (PyStr.truthy nl_query) || negb (PyStr.truthy (PyStr.strip nl_query)) then
    {| plan_query := None;
       plan_tables := map fst schema_map;
       plan_steps := [("fetch_schema", Some (map fst schema_map))];
       plan_capabilities := [];
       plan_clarifications := [];
       plan_follow_up_suggestions := None;
       plan_metadata_context := None |}
  else
    let tables := _detect_tables schema_map md nl_query in
    let capabilities := _detect_capabilities md nl_query in
    let clarifications := _detect_clarifications md nl_query in
    let follow_up_suggestions := _generate_follow_up_suggestions md nl_query in
    {| plan_query := Some nl_query;
       plan_tables := tables;
       plan_steps := [("fetch_schema", Some tables);
                      ("retrieve_examples", Some tables);
                      ("generate_sql", None);
                      ("validate_sql", None);
                      ("execute_sql", None)];
       plan_capabilities := capabilities;
       plan_clarifications := clarifications;
       plan_follow_up_suggestions := Some follow_up_suggestions;
       plan_metadata_context :=
         Some (flat_map (fun table =>
                           match dict_get table md with
                           | Some t => [(table, t)]
                           | None => []
                           end)
                        (dedup tables)) |}.

End Planner.


(* ================================================================== *)
(** * sql_validator.py *)
(* ================================================================== *)

Module SQLValidator.

(** The dict built by [get_error_context]. *)
Record ErrorContext : Type := mkErrorContext {
  error_type : string;
  suggestion : string;
  examples : list string
}.

(** [SQLValidator.get_error_context]; [error_msg.lower()] raises
    [AttributeError] when the message is [None]. *)
Definition get_error_context (error_msg : option string) : outcome ErrorContext :=
  match error_msg with
  | None => Raise AttributeError
  | Some msg =>
      let error_lower := PyStr.lower msg in
      if PyStr.contains "no such table" error_lower then
        Return {| error_type := "table_not_found";
                  suggestion := "Check table names and ensure they exist in the schema";
                  examples := ["FROM customers c";
                               "JOIN accounts a ON c.id = a.customer_id"] |}
      else if PyStr.contains "no such column" error_lower then
        Return {| error_type := "column_not_found";
                  suggestion := "Verify column names and table aliases";
                  examples := ["SELECT c.first_name, c.last_name, a.account_number";
                               "WHERE a.status = 'active'"] |}
      else if PyStr.contains "ambiguous" error_lower then
        Return {| error_type := "ambiguous_column";
                  suggestion := "Use table aliases to qualify column names";
                  examples := ["SELECT c.id AS customer_id, a.id AS account_id";
                               "ON c.branch_id = b.id"] |}
      else if PyStr.contains "syntax error" error_lower then
        Return {| error_type := "syntax_error";
                  suggestion := "Check SQL syntax, especially JOINs and conditions";
                  examples := ["LEFT JOIN branches b ON c.branch_id = b.id";
                               "WHERE a.type IN ('checking', 'savings')"] |}
      else
        Return {| error_type := "unknown";
                  suggestion := "Please review the query syntax";
                  examples := [] |}
  end.

(** [DANGEROUS_KEYWORDS], as the set literal lists it. *)
Definition DANGEROUS_KEYWORDS : list string :=
  ["DROP"; "DELETE"; "TRUNCATE"; "UPDATE"; "INSERT"; "ALTER"; "CREATE";
   "MODIFY"; "RENAME"; "REPLACE"; "GRANT"; "REVOKE"].

(** [[a-zA-Z_]]: the first character of an identifier. *)
Definition isidstart (c : ascii) : bool :=
  PyStr.isupper c || PyStr.islower c || (nat_of_ascii c =? 95).

(** [(?:FROM|JOIN)\s+[a-zA-Z_]] at the head of a string, letter case
    ignored: the keyword, at least one whitespace character, and after all
    the whitespace the first character of an identifier. *)
Definition from_join_at (s : string) : bool :=
  let kw := PyStr.upper (PyStr.take 4 s) in
  (String.eqb kw "FROM" || String.eqb kw "JOIN") &&
  match PyStr.drop 4 s with
  | String c r =>
      PyStr.isspace c &&
      match PyStr.lstrip r with
      | String d _ => isidstart d
      | EmptyString => false
      end
  | EmptyString => false
  end.

(** A match somewhere in the string. *)
Fixpoint search_from_join (s : string) : bool :=
  from_join_at s ||
  match s with
  | EmptyString => false
  | String _ r => search_from_join r
  end.

(** [SQLValidator._has_valid_identifiers]: [re.findall] finds a table
    after FROM or JOIN. *)
Definition _has_valid_identifiers (sql : string) : bool := search_from_join sql.

(** How the test execution of a statement ends: [fetchall] returns, or
    [sqlite3.OperationalError] is raised, or another exception is. *)
Inductive TestOutcome : Type :=
| TestOk
| TestOperationalError (msg : string)
| TestOtherError (msg : string).

(** The text that [_test_execution] sends to the database. *)
Definition test_sql_of (sql : string) : string :=
  let test_sql := PyStr.strip_char ";"%char sql in
  if negb (PyStr.contains "LIMIT" (PyStr.upper test_sql))
  then (test_sql ++ " LIMIT 1")%string
  else test_sql.

Section Validation.

(** The database file behind [self.db_path]. *)
Variable W : Type.

(** [sqlite3.connect], [cursor.execute(test_sql)] and [cursor.fetchall()]. *)
Variable sqlite_test : string -> W -> TestOutcome * W.

(** The order in which the set [DANGEROUS_KEYWORDS] is iterated. *)
Variable keyword_order : list string.

(** [SQLValidator._test_execution]. *)
Definition _test_execution (sql : string) (w : W) : (bool * option string) * W :=
  let '(r, w') := sqlite_test (test_sql_of sql) w in
  match r with
  | TestOk => ((true, None), w')
  | TestOperationalError e => ((false, Some ("SQL execution error: " ++ e)%string), w')
  | TestOtherError e => ((false, Some ("Validation error: " ++ e)%string), w')
  end.

(** [SQLValidator.validate_sql]. *)
Definition validate_sql (sql : string) (w : W) : (bool * option string) * W :=
  let sql := PyStr.strip sql in
  if negb (PyStr.truthy sql) || negb (PyStr.truthy (PyStr.strip sql)) then
    ((false, Some "Empty SQL query"), w)
  else
    let sql_upper := PyStr.upper sql in
    match List.find (fun keyword => PyStr.contains keyword sql_upper) keyword_order with
    | Some keyword =>
        ((false, Some ("Dangerous keyword '" ++ keyword ++ "' found in query")%string), w)
    | None =>
        if negb (PyStr.startswith "SELECT" sql_upper) then
          ((false, Some "Only SELECT queries are allowed"), w)
        else if negb (_has_valid_identifiers sql) then
          ((false, Some "Invalid table or column names in query"), w)
        else _test_execution sql w
    end.

End Validation.

Arguments _test_execution {W} sqlite_test sql w.
Arguments validate_sql {W} sqlite_test keyword_order sql w.

End SQLValidator.

(* ================================================================== *)
(** * llm_prompt_builder_new.py *)
(* ================================================================== *)

Module PromptingAgent.

(** The checklist under [error_context] in [build_prompt]. *)
Definition correction_focus : list string :=
  ["Verify column names against schema";
   "Check join conditions";
   "Validate value domains";
   "Review aggregation logic"].

Section Agent.

(** [self.context] is set. *)
Variable context_initialized : bool.

(** [_build_schema_infused_context()], [_build_chain_of_thought_steps] and
    the rendered [_find_relevant_examples]: they read the question, the
    tables and the capabilities, never the error context.  They are
    taken for a metadata file that has the entries they read
    ([description] of a table, [type] of a column); without one the
    [KeyError] is raised again by [build_prompt]. *)
Variable schema_context : Json.
Variable reasoning_steps : string -> list string -> list string -> list string.
Variable examples : string -> list string -> list Json.

(** The constant sections [critical_requirements], [analysis_steps],
    [task.output_format] and [requirements] of the prompt. *)
Variables critical_requirements analysis_steps output_format requirements : Json.

(** The dict [prompt] of [build_prompt]; [error_context] is tested for
    truthiness. *)
Definition prompt_dict (query : string) (detected_tables capabilities : list string)
    (error_context : option string) : list (string * Json) :=
  [ ("critical_requirements", critical_requirements);
    ("analysis_steps", analysis_steps);
    ("task", JObject [ ("objective", JString "Generate a SQLite SQL query");
                       ("input_query", JString query);
                       ("context", JString "Banking database query generation");
                       ("output_format", output_format) ]);
    ("schema_context", schema_context);
    ("reasoning",
       JObject [ ("chain_of_thought",
                    JObject [ ("steps", JStrings (reasoning_steps query detected_tables
                                                                  capabilities));
                              ("explanation",
                                 JString "Following systematic analysis process") ]);
                 ("detected_capabilities", JStrings capabilities);
                 ("required_tables", JStrings detected_tables) ]);
    ("examples", JArray (examples query detected_tables));
    ("requirements", requirements) ]
  ++
  match error_context with
  | Some e =>
      if PyStr.truthy e then
        [ ("error_context",
             JObject [ ("previous_error", JString e);
                       ("correction_focus", JStrings correction_focus) ]) ]
      else []
  | None => []
  end.

(** [json.dumps(prompt, indent=2)]. *)
Variable json_dumps : Json -> string.

(** [PromptingAgent.build_prompt]. *)
Definition build_prompt (query : string) (detected_tables capabilities : list string)
    (error_context : option string) : outcome string :=
  if negb context_initialized then
    Raise (ValueError "Context not initialized. Call initialize_context first.")
  else
    Return (json_dumps (JObject (prompt_dict query detected_tables capabilities
                                             error_context))).

End Agent.

(** [QueryExample]. *)
Record QueryExample : Type := mkQueryExample {
  nl_query : string;
  sql_query : string;
  suggestion : string;
  reasoning_steps : list string;
  tables_used : list string;
  key_columns : list string;
  conditions : list string
}.

(** [s.split()]: the maximal runs of characters that are not
    whitespace; [cur] is the run being read. *)
Fixpoint split_from (s cur : string) : list string :=
  match s with
  | EmptyString => if PyStr.truthy cur then [cur] else []
  | String c r =>
      if PyStr.isspace c
      then (if PyStr.truthy cur then [cur] else []) ++ split_from r EmptyString
      else split_from r (cur ++ String c EmptyString)%string
  end.

Definition split (s : string) : list string := split_from s EmptyString.

(** [set(a) & set(b)] is not empty. *)
Definition overlap (a b : list string) : bool :=
  existsb (fun x => PyStr.mem x b) a.

(** The test of the loop of [_find_relevant_examples]. *)
Definition is_relevant (query : string) (detected_tables : list string)
    (example : QueryExample) : bool :=
  overlap (tables_used example) detected_tables &&
  overlap (split (PyStr.lower query)) (split (PyStr.lower (nl_query example))).

(** [PromptingAgent._find_relevant_examples], over [self.example_queries]. *)
Definition _find_relevant_examples (example_queries : list QueryExample)
    (query : string) (detected_tables : list string) : list QueryExample :=
  firstn 2 (filter (is_relevant query detected_tables) example_queries).

Section History.

(** [QueryHistory]: an entry is stored as it is built. *)
Variable Entry : Type.

(** [self.max_history]. *)
Variable max_history : Z.

(** [PromptingAgent.add_query_to_history] on the history of the context;
    [None] is a context that was never initialised. *)
Definition add_query_to_history (query_history : option (list Entry))
    (history_entry : Entry) : outcome (list Entry) :=
  match query_history with
  | None => Raise (ValueError "Context not initialized. Call initialize_context first.")
  | Some h =>
      let h := h ++ [history_entry] in
      if (Z.of_nat (List.length h) >? max_history)%Z then Return (tl h) else Return h
  end.

(** The history after the entries [es] have been added in turn. *)
Fixpoint add_all (h : list Entry) (es : list Entry) : list Entry :=
  match es with
  | [] => h
  | e :: r =>
      match add_query_to_history (Some h) e with
      | Return h' => add_all h' r
      | Raise _ => h
      end
  end.

End History.

Section Conversation.

(** The values kept in [conversation_context]. *)
Variable Item : Type.

(** [d[key] = value] on a dict kept in insertion order. *)
Fixpoint dict_put (key : string) (value : Item) (d : list (string * Item))
  : list (string * Item) :=
  match d with
  | [] => [(key, value)]
  | (k, v) :: r =>
      if String.eqb key k then (key, value) :: r else (k, v) :: dict_put key value r
  end.

(** [PromptingAgent.update_conversation_context]. *)
Definition update_conversation_context
    (conversation_context : option (list (string * Item)))
    (key : string) (value : Item) : outcome (list (string * Item)) :=
  match conversation_context with
  | None => Raise (ValueError "Context not initialized. Call initialize_context first.")
  | Some d => Return (dict_put key value d)
  end.

(** [PromptingAgent.get_conversation_context]; the inner [None] is the
    [None] of [dict.get]. *)
Definition get_conversation_context
    (conversation_context : option (list (string * Item)))
    (key : string) : outcome (option Item) :=
  match conversation_context with
  | None => Raise (ValueError "Context not initialized. Call initialize_context first.")
  | Some d => Return (dict_get key d)
  end.

End Conversation.

Arguments add_query_to_history {Entry} max_history query_history history_entry.
Arguments add_all {Entry} max_history h es.
Arguments dict_put {Item} key value d.
Arguments update_conversation_context {Item} conversation_context key value.
Arguments get_conversation_context {Item} conversation_context key.

End PromptingAgent.


(* ================================================================== *)
(** * sql_generator.py *)
(* ================================================================== *)

Module SQLGenerator.

Definition backtick : ascii := "`"%char.

(** The markers of a fenced block. *)
Definition fence : string := "```".
Definition fence_json : string := "```json".

(** [SQLGeneratorAgent._clean_llm_response]. *)
Definition _clean_llm_response (response : string) : string :=
  let cleaned := PyStr.strip response in
  let cleaned :=
    if PyStr.startswith fence_json cleaned then
      match PyStr.find fence cleaned 7 with
      | Some end_marker => PyStr.strip (PyStr.slice 7 end_marker cleaned)
      | None => PyStr.strip (PyStr.drop 7 cleaned)
      end
    else if PyStr.startswith fence cleaned then
      match PyStr.find fence cleaned 3 with
      | Some end_marker => PyStr.strip (PyStr.slice 3 end_marker cleaned)
      | None => PyStr.strip (PyStr.drop 3 cleaned)
      end
    else cleaned in
  PyStr.strip_char backtick cleaned.

Section Parsing.

(** [json.loads]; [None] is a [JSONDecodeError]. *)
Variable json_loads : string -> option Json.

(** [response_json.get(key, "").strip()]; [None] stands for the
    [AttributeError] of a value that is not a string. *)
Definition stripped_field (key : string) (members : list (string * Json))
  : option string :=
  match dict_get key members with
  | None => Some (PyStr.strip "")
  | Some (JString s) => Some (PyStr.strip s)
  | Some _ => None
  end.

(** [SQLGeneratorAgent._parse_llm_response]; both handlers return
    [(None, None)]. *)
Definition _parse_llm_response (response : string) : option string * option string :=
  let cleaned_response := _clean_llm_response response in
  match json_loads cleaned_response with
  | None => (None, None)
  | Some (JObject members) =>
      match stripped_field "SQLQuery" members with
      | None => (None, None)
      | Some sql_query =>
          match stripped_field "Suggestion" members with
          | None => (None, None)
          | Some suggestion =>
              if negb (PyStr.truthy sql_query) || negb (PyStr.truthy suggestion)
              then (None, None)
              else (Some sql_query, Some suggestion)
          end
      end
  | Some _ => (None, None)
  end.

End Parsing.

(** The keys of the generation context that the generator reads. *)
Record GenContext : Type := mkGenContext {
  detected_tables : list string;
  detected_capabilities : list string
}.

(** The local variables of [_try_llm_generation] that outlive an
    iteration; an unbound [prompt] is [None]. *)
Record Locals : Type := mkLocals {
  attempt_number : Z;
  current_sql : option string;
  error_context : option string;
  prompt : option string
}.

(** [(success, sql, suggestion)]. *)
Definition Generated : Type := (bool * string * option string)%type.

(** An iteration of the [while] loop either returns from the function or
    goes on to the next iteration. *)
Inductive Step : Type :=
| Returned (r : Generated)
| Continue (l : Locals).

Section Agent.

(** The world of the generator: the LLM service and the database. *)
Variable W : Type.
Variable Value : Type.

(** The generator's state: the world and the prompts sent to the LLM. *)
Record State : Type := mkState {
  world : W;
  sent : list string
}.

(** What the generator calls outside its own class. *)
Record Collaborators : Type := mkCollaborators {
  (** [json.loads]; [None] is a [JSONDecodeError]. *)
  json_loads : string -> option Json;
  (** [self.llm_provider.generate_text(prompt, temperature=..., ...)]; the
      integer is the number of steps of 0.1 added to the base temperature. *)
  generate_text : string -> Z -> M W (option string);
  (** [self.validator.validate_sql]. *)
  validate_sql : string -> M W (bool * option string);
  (** [ExecutorAgent().run_query]. *)
  run_query : string -> option Z -> option Validator.ValidationResult
              -> M W (Executor.ExecResult Value);
  (** [self.prompting_agent.build_prompt]. *)
  build_prompt : string -> list string -> list string -> option string
                 -> outcome string;
  (** [self.prompting_agent.build_error_correction_prompt], applied to the
      question, the original SQL, the error message and the attempt
      number. *)
  build_error_correction_prompt :
    string -> string -> option string -> Z -> outcome string;
  (** [_exclude_problematic_columns]: a rewriting of the SQL text by
      regular expressions, taken as given. *)
  _exclude_problematic_columns : string -> string -> string
}.

Variable deps : Collaborators.

Definition lift {A : Type} (c : M W A) : M State A :=
  fun st => let '(r, w') := c (world st) in (r, {| world := w'; sent := sent st |}).

(** A call to the LLM: the prompt is recorded, then sent. *)
Definition send (p : string) (temperature_steps : Z) : M State (option string) :=
  fun st =>
    let '(r, w') := generate_text deps p temperature_steps (world st) in
    (r, {| world := w'; sent := sent st ++ [p] |}).

(** [attempts_left -= 1; attempt_number += 1] (the caller decrements
    [attempts_left]). *)
Definition next_attempt (l : Locals) : Locals :=
  {| attempt_number := (attempt_number l + 1)%Z;
     current_sql := current_sql l;
     error_context := error_context l;
     prompt := prompt l |}.

(** A step of the [try] block that may raise: the handlers of the loop
    end the iteration with the locals [l] of that moment. *)
Definition guarded {A : Type} (l : Locals) (c : M State A) (k : A -> M State Step)
  : M State Step :=
  fun st =>
    match c st with
    | (Return a, st') => k a st'
    | (Raise _, st') => (Return (Continue (next_attempt l)), st')
    end.

(** [_test_sql_execution]: the executor is called with [limit=1] and no
    validation context. *)
Definition _test_sql_execution (sql : string) : M State (Executor.ExecResult Value) :=
  fun st =>
    match lift (run_query deps sql (Some 1%Z) None) st with
    | (Return r, st') => (Return r, st')
    | (Raise err, st') =>
        (Return {| Executor.success := false; Executor.results := None;
                   Executor.message := None;
                   Executor.exec_error := Some (str_of_exn err) |}, st')
    end.

(** [_try_llm_error_correction]. *)
Definition _try_llm_error_correction (query original_sql : string)
    (error_msg : option string) (attempt : Z) : M State Generated :=
  fun st =>
    match build_error_correction_prompt deps query original_sql error_msg attempt with
    | Raise e => (Raise e, st)
    | Return correction_prompt =>
        match send correction_prompt attempt st with
        | (Raise e, st') => (Raise e, st')
        | (Return None, st') => (Return (false, original_sql, None), st')
        | (Return (Some response), st') =>
            match _parse_llm_response (json_loads deps) (PyStr.strip response) with
            | (Some corrected_sql, suggestion) =>
                (Return (true, corrected_sql, suggestion), st')
            | (None, _) => (Return (false, original_sql, None), st')
            end
        end
    end.

Section Generation.

Variable query : string.
Variable context : GenContext.

(** The tail of an iteration, from [response = generate_text(...)] on. *)
Definition ask_llm (attempts_left : Z) (l : Locals) : M State Step :=
  match prompt l with
  | None => ret (Continue (next_attempt l))
  | Some p =>
      guarded l (send p (3 - attempts_left)%Z) (fun response =>
      match response with
      | None => ret (Continue (next_attempt l))
      | Some response =>
          match _parse_llm_response (json_loads deps) (PyStr.strip response) with
          | (Some sql, Some suggestion) =>
              let l := {| attempt_number := attempt_number l;
                          current_sql := Some sql;
                          error_context := error_context l;
                          prompt := prompt l |} in
              guarded l (lift (validate_sql deps sql)) (fun v =>
              let '(is_valid, error_msg) := v in
              if is_valid then
                guarded l (_test_sql_execution sql) (fun exec_result =>
                if Executor.success exec_result then
                  ret (Returned (true, sql, Some suggestion))
                else
                  ret (Continue (next_attempt
                         {| attempt_number := attempt_number l;
                            current_sql := current_sql l;
                            error_context :=
                              Some (get_default (Executor.exec_error exec_result)
                                                "Execution failed");
                            prompt := prompt l |})))
              else
                ret (Continue (next_attempt
                       {| attempt_number := attempt_number l;
                          current_sql := current_sql l;
                          error_context := error_msg;
                          prompt := prompt l |})))
          | _ => ret (Continue (next_attempt l))
          end
      end)
  end.

(** One iteration of [while attempts_left > 0]. *)
Definition iteration (attempts_left : Z) (l : Locals) : M State Step :=
  if (attempt_number l =? 1)%Z then
    match build_prompt deps query (detected_tables context)
                       (detected_capabilities context) (error_context l) with
    | Raise _ => ret (Continue (next_attempt l))
    | Return p =>
        ask_llm attempts_left
                {| attempt_number := attempt_number l;
                   current_sql := current_sql l;
                   error_context := error_context l;
                   prompt := Some p |}
    end
  else
    match current_sql l with
    | Some cs =>
        if PyStr.truthy cs then
          guarded l (_try_llm_error_correction query cs (error_context l)
                                               (attempt_number l))
            (fun r =>
             let '(success, corrected_sql, suggestion) := r in
             if success then
               let l := {| attempt_number := attempt_number l;
                           current_sql := Some corrected_sql;
                           error_context := error_context l;
                           prompt := prompt l |} in
               guarded l (lift (validate_sql deps corrected_sql)) (fun v =>
               let '(is_valid, error_msg) := v in
               if is_valid then ret (Returned (true, corrected_sql, suggestion))
               else ret (Continue (next_attempt
                           {| attempt_number := attempt_number l;
                              current_sql := current_sql l;
                              error_context := error_msg;
                              prompt := prompt l |})))
             else ask_llm attempts_left l)
        else ask_llm attempts_left l
    | None => ask_llm attempts_left l
    end.

(** The loop [while attempts_left > 0], by recursion on the number of
    iterations left: every iteration that does not return decrements
    [attempts_left] by one. *)
Fixpoint attempts (attempts_left : nat) (l : Locals) : M State (Locals + Generated) :=
  match attempts_left with
  | O => ret (inl l)
  | S n =>
      step <- iteration (Z.of_nat attempts_left) l ;;
      match step with
      | Returned r => ret (inr r)
      | Continue l' => attempts n l'
      end
  end.

(** [SQLGeneratorAgent._try_llm_generation]. *)
Definition _try_llm_generation (attempts_left : Z) : M State Generated :=
  r <- attempts (Z.to_nat attempts_left)
                {| attempt_number := 1%Z; current_sql := None;
                   error_context := None; prompt := None |} ;;
  let failed : Generated :=
    (false, "ERROR: Failed to generate valid SQL after multiple attempts", None) in
  match r with
  | inr g => ret g
  | inl l =>
      match current_sql l, error_context l with
      | Some cs, Some ec =>
          if PyStr.truthy cs && PyStr.truthy ec then
            let simplified_sql := _exclude_problematic_columns deps cs ec in
            if negb (String.eqb simplified_sql cs) then
              fun st =>
                match lift (validate_sql deps simplified_sql) st with
                | (Return (true, _), st') =>
                    (Return (true, simplified_sql,
                             Some "Simplified query with problematic columns excluded"),
                     st')
                | (Return (false, _), st') => (Return failed, st')
                | (Raise e, st') => (Raise e, st')
                end
            else ret failed
          else ret failed
      | _, _ => ret failed
      end
  end.

(** [SQLGeneratorAgent.repair_sql]. *)
Definition repair_sql (hint : option string) : M State string :=
  match SQLValidator.get_error_context hint with
  | Raise _ => ret "SELECT 1;"
  | Return error_context =>
      fun st =>
        match _try_llm_generation 2%Z st with
        | (Return (true, sql, _), st') => (Return sql, st')
        | (Return (false, _, _), st') => (Return "SELECT 1;", st')
        | (Raise _, st') => (Return "SELECT 1;", st')
        end
  end.

End Generation.

End Agent.

Arguments world {W} _.
Arguments sent {W} _.
Arguments mkState {W} _ _.
Arguments json_loads {W Value} _ _.
Arguments generate_text {W Value} _ _ _ _.
Arguments validate_sql {W Value} _ _ _.
Arguments run_query {W Value} _ _ _ _ _.
Arguments build_prompt {W Value} _ _ _ _ _.
Arguments build_error_correction_prompt {W Value} _ _ _ _ _.
Arguments _exclude_problematic_columns {W Value} _ _ _.
Arguments lift {W A} c _.
Arguments guarded {W A} l c k _.
Arguments send {W Value} deps p temperature_steps _.
Arguments _test_sql_execution {W Value} deps sql _.
Arguments _try_llm_error_correction {W Value} deps query original_sql error_msg attempt _.
Arguments ask_llm {W Value} deps attempts_left l _.
Arguments iteration {W Value} deps query context attempts_left l _.
Arguments attempts {W Value} deps query context attempts_left l _.
Arguments _try_llm_generation {W Value} deps query context attempts_left _.
Arguments repair_sql {W Value} deps query context hint _.

(** Reading the record of prompts: a computation only adds to it, or its
    first addition is the prompt [p]. *)
Definition monotone {W A : Type} (c : M (State W) A) : Prop :=
  forall st, exists more, sent (snd (c st)) = sent st ++ more.

Definition first_sends {W A : Type} (p : string) (c : M (State W) A) : Prop :=
  forall st, exists more, sent (snd (c st)) = sent st ++ p :: more.

(** A computation sends at most [k] prompts and, when it returns,
    returns a value that satisfies [Q]. *)
Definition sends_at_most {W A : Type} (k : nat) (Q : A -> Prop)
    (c : M (State W) A) : Prop :=
  forall st,
    List.length (sent (snd (c st))) <= List.length (sent st) + k /\
    match fst (c st) with
    | Return a => Q a
    | Raise _ => True
    end.

(** What an iteration that starts with the locals [l] leaves, for a
    property [P] of SQL texts: a success with a text that has it, or the
    locals of the next attempt. *)
Definition step_ok (P : string -> Prop) (l : Locals) (step : Step) : Prop :=
  match step with
  | Returned (ok, sql, _) => ok = true /\ P sql
  | Continue l' => attempt_number l' = (attempt_number l + 1)%Z
  end.

(** What the loop leaves: the locals after the last iteration, or a
    success with a text that has [P]. *)
Definition loop_ok (P : string -> Prop) (r : Locals + Generated) : Prop :=
  match r with
  | inl _ => True
  | inr (ok, sql, _) => ok = true /\ P sql
  end.

(** What a generation leaves: a failure, or a success with a text that
    has [P]. *)
Definition generated_ok (P : string -> Prop) (g : Generated) : Prop :=
  match g with
  | (true, sql, _) => P sql
  | (false, _, _) => True
  end.


End SQLGenerator.


(* ================================================================== *)
(** * The texts an LLM answers with *)
(* ================================================================== *)

Module LLMText.

Definition newline : string := String (ascii_of_nat 10) EmptyString.
Definition dquote : string := String (ascii_of_nat 34) EmptyString.

(** The two fenced wrappings of a JSON text [body], as a model emits
    them: the opening marker, the body on lines of its own, the closing
    marker. *)
Definition fenced_json (body : string) : string :=
  ("```json" ++ newline ++ body ++ newline ++ "```")%string.

Definition fenced (body : string) : string :=
  ("```" ++ newline ++ body ++ newline ++ "```")%string.

(** The text of a JSON object: an opening brace, a closing brace, and
    anything between them. *)
Definition object_text (body : string) : Prop :=
  exists inner : string, body = ("{" ++ inner ++ "}")%string.

(** The compact text of the object with the two keys of the response
    format; the fields are written without escapes. *)
Definition response_text (sql_query suggestion : string) : string :=
  ("{" ++ dquote ++ "SQLQuery" ++ dquote ++ ": " ++ dquote ++ sql_query ++ dquote
   ++ ", " ++ dquote ++ "Suggestion" ++ dquote ++ ": " ++ dquote ++ suggestion
   ++ dquote ++ "}")%string.

(** The object that [json.loads] builds from [response_text]. *)
Definition response_object (sql_query suggestion : string) : Json :=
  JObject [("SQLQuery", JString sql_query); ("Suggestion", JString suggestion)].

(** [json.loads] restricted to a finite table of texts. *)
Definition loads_table (known : list (string * Json)) (text : string) : option Json :=
  dict_get text known.

End LLMText.

(* ================================================================== *)
(** * Concrete instances *)
(* ================================================================== *)

Module Demo.

(** The five tables of the banking schema (the fixture of
    [tests/test_validator.py], with the first columns of each table). *)
Definition bank_schema : list (string * list string) :=
  [ ("customers", ["id"; "first_name"; "last_name"; "email"]);
    ("accounts", ["id"; "customer_id"; "account_number"; "type"; "balance"]);
    ("branches", ["id"; "name"; "address"; "city"]);
    ("employees", ["id"; "branch_id"; "name"; "position"]);
    ("transactions", ["id"; "account_id"; "transaction_date"; "amount"]) ].

(** [ValidatorAgent(bank_schema).validate] over the reference parser. *)
Definition validate (sql : string) : outcome Validator.ValidationResult :=
  Validator.validate FlatSql.parse bank_schema sql.

(** A database of one table of [n] rows: every statement selects them
    all. *)
Definition rows (n : nat) : list (Executor.Row Z) :=
  map (fun i => [("id", Z.of_nat i)]) (seq 1 n).

Definition sqlite_execute (n : nat) (sql : string) (d : unit)
  : (string + list (Executor.Row Z)) * unit :=
  (inr (rows n), d).

(** [fetchmany] of the sqlite3 module of CPython: the size is converted
    to a C [int]; the loop that collects the rows stops when their count
    reaches the size, which it never does for a size of zero or less. *)
Definition fetchmany {Value : Type} (cursor : list (Executor.Row Value)) (size : Z)
  : outcome (list (Executor.Row Value)) :=
  if (size <? -2147483648)%Z || (2147483647 <? size)%Z then
    Raise (OverflowError "Python int too large to convert to C int")
  else if (size <=? 0)%Z then Return cursor
  else Return (firstn (Z.to_nat size) cursor).

(** Integers are serialisable. *)
Definition integer_type_error (v : Z) : option string := None.

(** [ExecutorAgent.run_query] on that database. *)
Definition run_query (n : nat) (sql : string) (limit : option Z)
    (vc : option (list (string * Json))) (s : Executor.Session unit)
  : outcome (Executor.ExecResult Z) * Executor.Session unit :=
  Executor.run_query integer_type_error (sqlite_execute n) fetchmany sql limit vc s.

(** The cells of a table with a BLOB column, and [json.dumps] on them. *)
Inductive Cell : Type :=
| IntegerCell (n : Z)
| TextCell (s : string)
| BlobCell (b : string).

Definition cell_type_error (c : Cell) : option string :=
  match c with
  | BlobCell _ => Some "Object of type bytes is not JSON serializable"
  | _ => None
  end.

(** A database of one table of [n] rows with an integer and a BLOB. *)
Definition blob_rows (n : nat) : list (Executor.Row Cell) :=
  map (fun i => [("id", IntegerCell (Z.of_nat i)); ("photo", BlobCell "PNG")])
      (seq 1 n).

Definition sqlite_execute_blob (n : nat) (sql : string) (d : unit)
  : (string + list (Executor.Row Cell)) * unit :=
  (inr (blob_rows n), d).

(** A pipeline whose generator first emits [first_sql] and repairs to
    [repaired_sql], with the validator and the executor above. *)
Definition agents (first_sql repaired_sql : string)
  : Pipeline.Agents (Executor.Session unit) Z unit unit unit :=
  {| Pipeline.analyze_query := fun _ =>
       ret {| Pipeline.tables := ["customers"];
              Pipeline.capabilities := [];
              Pipeline.follow_up_suggestions := [] |};
     Pipeline.fetch_schema_context := fun _ => ret tt;
     Pipeline.generate := fun _ _ _ _ => ret first_sql;
     Pipeline.repair_sql := fun _ _ _ => ret repaired_sql;
     Pipeline.validate := fun sql w => (validate sql, w);
     Pipeline.run_query :=
       Executor.run_query_call integer_type_error (sqlite_execute 3) fetchmany;
     Pipeline.summarize := fun _ _ => ret tt |}.

Definition start : Pipeline.State (Executor.Session unit) :=
  {| Pipeline.world := {| Executor.db := tt; Executor.executed := [] |};
     Pipeline.trace := [] |}.

(** An LLM response whose SQL field begins with a space, and the loader
    that knows its text. *)
Definition padded_response : string := LLMText.response_text " SELECT 1" "one".

Definition padded_loads : string -> option Json :=
  LLMText.loads_table [(padded_response, LLMText.response_object " SELECT 1" "one")].

(** A response without surrounding whitespace in its fields. *)
Definition plain_response : string := LLMText.response_text "SELECT 1" "one".

Definition plain_loads : string -> option Json :=
  LLMText.loads_table [(plain_response, LLMText.response_object "SELECT 1" "one")].

(** A generator whose LLM never answers, over a prompt builder that
    renders a prompt to the list of its top-level keys. *)
Definition render_keys (j : Json) : string :=
  match j with
  | JObject members => String.concat "," (map fst members)
  | _ => ""
  end.

Definition prompt_builder (query : string) (tables caps : list string)
    (error_context : option string) : outcome string :=
  PromptingAgent.build_prompt true JNull (fun _ _ _ => []) (fun _ _ => [])
    JNull JNull JNull JNull render_keys query tables caps error_context.

Definition silent_generator : SQLGenerator.Collaborators unit Z :=
  {| SQLGenerator.json_loads := fun _ => None;
     SQLGenerator.generate_text := fun _ _ => ret None;
     SQLGenerator.validate_sql := fun _ => ret (false, Some "Empty SQL query");
     SQLGenerator.run_query := fun _ _ _ =>
       ret {| Executor.success := false; Executor.results := None;
              Executor.message := None; Executor.exec_error := Some "no database" |};
     SQLGenerator.build_prompt := prompt_builder;
     SQLGenerator.build_error_correction_prompt := fun _ _ _ _ =>
       Raise AttributeError;
     SQLGenerator._exclude_problematic_columns := fun sql _ => sql |}.

(** A generator whose LLM always answers with [plain_response], over a
    validator that accepts the text [SELECT 1] only and an executor that
    runs everything. *)
Definition answering_generator : SQLGenerator.Collaborators unit Z :=
  {| SQLGenerator.json_loads := plain_loads;
     SQLGenerator.generate_text := fun _ _ => ret (Some plain_response);
     SQLGenerator.validate_sql := fun sql => ret (String.eqb sql "SELECT 1", None);
     SQLGenerator.run_query := fun _ _ _ =>
       ret {| Executor.success := true; Executor.results := Some [];
              Executor.message := None; Executor.exec_error := None |};
     SQLGenerator.build_prompt := prompt_builder;
     SQLGenerator.build_error_correction_prompt := fun _ _ _ _ =>
       Raise AttributeError;
     SQLGenerator._exclude_problematic_columns := fun sql _ => sql |}.

(** A parser that keeps a statement made of whitespace only. *)
Definition whitespace_statement_parse (sql : string) : list Validator.Statement :=
  [[Validator.mkToken sql true]].

(** A database on which every statement fails. *)
Definition sqlite_fail (sql : string) (d : unit)
  : (string + list (Executor.Row Z)) * unit :=
  (inl "no such table: customer", d).

(** A database on which every test execution succeeds. *)
Definition sqlite_test_ok (sql : string) (d : unit) : SQLValidator.TestOutcome * unit :=
  (SQLValidator.TestOk, d).

(** A pipeline whose validator rejects every text. *)
Definition rejecting_agents : Pipeline.Agents (Executor.Session unit) Z unit unit unit :=
  {| Pipeline.analyze_query := fun _ =>
       ret {| Pipeline.tables := ["customers"];
              Pipeline.capabilities := [];
              Pipeline.follow_up_suggestions := [] |};
     Pipeline.fetch_schema_context := fun _ => ret tt;
     Pipeline.generate := fun _ _ _ _ => ret "DROP TABLE customers";
     Pipeline.repair_sql := fun _ _ _ => ret "DELETE FROM customers";
     Pipeline.validate := fun sql =>
       ret (Validator.invalid "Only SELECT statements are allowed");
     Pipeline.run_query :=
       Executor.run_query_call integer_type_error (sqlite_execute 3) fetchmany;
     Pipeline.summarize := fun _ _ => ret tt |}.

(** Two example queries, with the tables and the questions of the two
    examples of the prompting agent. *)
Definition example_queries : list PromptingAgent.QueryExample :=
  [ {| PromptingAgent.nl_query :=
         "List all branches and their managers' names. Include branches without a manager.";
       PromptingAgent.sql_query := "SELECT b.name FROM branches b";
       PromptingAgent.suggestion := "";
       PromptingAgent.reasoning_steps := [];
       PromptingAgent.tables_used := ["branches"; "employees"];
       PromptingAgent.key_columns := [];
       PromptingAgent.conditions := [] |};
    {| PromptingAgent.nl_query :=
         "Find customers who have both checking and savings accounts.";
       PromptingAgent.sql_query := "SELECT c.email FROM customers c";
       PromptingAgent.suggestion := "";
       PromptingAgent.reasoning_steps := [];
       PromptingAgent.tables_used := ["customers"; "accounts"];
       PromptingAgent.key_columns := [];
       PromptingAgent.conditions := [] |} ].

(** A metadata file with the account types and the employee positions. *)
Definition metadata : Planner.Metadata :=
  [ ("accounts",
     {| Planner.columns :=
          [ ("type", {| Planner.distinct_values := Some ["checking"; "savings"];
                        Planner.typical_high := None |});
            ("balance", {| Planner.distinct_values := None;
                           Planner.typical_high := Some 50000%Z |}) ] |});
    ("employees",
     {| Planner.columns :=
          [ ("position", {| Planner.distinct_values := Some ["Branch Manager"; "Teller"];
                            Planner.typical_high := None |}) ] |}) ].

(** A metadata file whose account types begin with a capital letter. *)
Definition capitalised_metadata : Planner.Metadata :=
  [ ("accounts",
     {| Planner.columns :=
          [ ("type", {| Planner.distinct_values := Some ["Checking"; "Savings"];
                        Planner.typical_high := None |}) ] |}) ].

End Demo.


(* ================================================================== *)
(** * Properties of the reference parser *)
(* ================================================================== *)

Lemma isspace_not_word (c : ascii) :
  PyStr.isspace c = true ->
  PyStr.isword c = false /\ Ascii.eqb c FlatSql.quote = false.
Proof.
  destruct c as [b0 b1 b2 b3 b4 b5 b6 b7].
  destruct b0, b1, b2, b3, b4, b5, b6, b7;
    vm_compute; intro H; try discriminate H; split; reflexivity.
Qed.

Lemma lex_blank (s : string) :
  PyStr.isblank s = true -> FlatSql.all_whitespace (FlatSql.lex s EmptyString false).
Proof.
  induction s as [|c r IH]; simpl; intro H.
  - constructor.
  - apply andb_prop in H. destruct H as [Hc Hr].
    destruct (isspace_not_word c Hc) as [Hw Hq].
    rewrite Hw, Hq. simpl. constructor.
    + exact Hc.
    + apply IH. exact Hr.
Qed.

Lemma existsb_all_whitespace (cur : list Validator.Token) :
  FlatSql.all_whitespace cur ->
  existsb (fun t => negb (Validator.is_whitespace t)) cur = false.
Proof.
  induction 1 as [|t l Ht _ IH]; simpl.
  - reflexivity.
  - rewrite Ht, IH. reflexivity.
Qed.

Lemma split_all_whitespace (toks cur : list Validator.Token) (consume_ws : bool) :
  FlatSql.all_whitespace toks -> FlatSql.all_whitespace cur ->
  FlatSql.split toks cur consume_ws = [].
Proof.
  intro Ht. revert cur consume_ws.
  induction Ht as [|t l Hws _ IH]; intros cur consume_ws Hcur; simpl.
  - rewrite (existsb_all_whitespace cur Hcur). reflexivity.
  - rewrite Hws. simpl. rewrite andb_false_r.
    apply IH. apply Forall_app. split; [exact Hcur | constructor; [exact Hws | constructor]].
Qed.

(** The reference parser produces no statement on a blank text. *)
Lemma parse_blank (s : string) :
  PyStr.isblank s = true -> FlatSql.parse s = [].
Proof.
  intro H. unfold FlatSql.parse.
  apply split_all_whitespace; [apply lex_blank; exact H | constructor].
Qed.

(* ================================================================== *)
(** * Properties of the validator *)
(* ================================================================== *)

Lemma mem_In (x : string) (xs : list string) :
  In x xs -> PyStr.mem x xs = true.
Proof.
  intro H. unfold PyStr.mem. apply existsb_exists.
  exists x. split; [exact H | apply String.eqb_refl].
Qed.


Section ValidatorProperties.

Variable parse : string -> list Validator.Statement.
Variable schema : list (string * list string).

(** The first check of [validate]: a first significant token that does
    not contain SELECT ends the validation. *)
Lemma validate_leading_token (sql : string) (stmt : Validator.Statement)
    (rest : list Validator.Statement) (first : string) (toks : list string) :
  parse sql = stmt :: rest ->
  Validator.significant_tokens stmt = first :: toks ->
  PyStr.contains "SELECT" first = false ->
  Validator.validate parse schema sql
  = Return (Validator.invalid "Only SELECT statements are allowed").
Proof.
  intros Hp Ht Hc. unfold Validator.validate.
  rewrite Hp, Ht, Hc. reflexivity.
Qed.

(** The second check: a forbidden word among the significant tokens of
    the first statement makes the result invalid. *)
Lemma validate_forbidden_token (sql : string) (stmt : Validator.Statement)
    (rest : list Validator.Statement) (word : string) :
  parse sql = stmt :: rest ->
  In word Validator.forbidden ->
  In word (Validator.significant_tokens stmt) ->
  exists msg, Validator.validate parse schema sql = Return (Validator.invalid msg).
Proof.
  intros Hp Hf Hin. unfold Validator.validate. rewrite Hp.
  destruct (Validator.significant_tokens stmt) as [|first toks] eqn:Ht.
  - destruct Hin.
  - cbv zeta. destruct (PyStr.contains "SELECT" first); cbn [negb].
    + destruct (find (fun w => PyStr.mem w (first :: toks)) Validator.forbidden)
        as [w|] eqn:Hfind.
      * eexists. reflexivity.
      * exfalso. pose proof (find_none _ _ Hfind word Hf) as Hn.
        cbv beta in Hn. rewrite (mem_In word (first :: toks) Hin) in Hn.
        discriminate Hn.
    + eexists. reflexivity.
Qed.

(** What an accepted text looks like: [validate] returns a valid result
    only if the first statement starts with a token that contains SELECT
    and none of its significant tokens is a forbidden word. *)
Lemma validate_accepts_inv (sql : string) (r : Validator.ValidationResult) :
  Validator.validate parse schema sql = Return r ->
  Validator.is_valid r = true ->
  exists stmt rest first toks,
    parse sql = stmt :: rest /\
    Validator.significant_tokens stmt = first :: toks /\
    PyStr.contains "SELECT" first = true /\
    forall word, In word Validator.forbidden -> ~ In word (first :: toks).
Proof.
  intros Hv Hr.
  destruct (parse sql) as [|stmt rest] eqn:Hp.
  - unfold Validator.validate in Hv. rewrite Hp in Hv.
    injection Hv as <-. discriminate Hr.
  - destruct (Validator.significant_tokens stmt) as [|first toks] eqn:Ht.
    + unfold Validator.validate in Hv. rewrite Hp, Ht in Hv. discriminate Hv.
    + destruct (PyStr.contains "SELECT" first) eqn:Hc.
      * exists stmt, rest, first, toks. repeat split; try assumption.
        intros word Hf Hin.
        destruct (validate_forbidden_token sql stmt rest word Hp Hf) as [msg Hm].
        { rewrite Ht. exact Hin. }
        rewrite Hm in Hv. injection Hv as <-. discriminate Hr.
      * rewrite (validate_leading_token sql stmt rest first toks Hp Ht Hc) in Hv.
        injection Hv as <-. discriminate Hr.
Qed.

(** C5 (as the code behaves): a text whose first significant token is the
    verb WITH is rejected for its leading verb, with the message of the
    SELECT-only check; the statement form that [tests/test_validator.py]
    expects to pass does not pass. *)
Theorem validate_rejects_leading_with (sql : string) (stmt : Validator.Statement)
    (rest : list Validator.Statement) (toks : list string) :
  parse sql = stmt :: rest ->
  Validator.significant_tokens stmt = "WITH" :: toks ->
  Validator.validate parse schema sql
  = Return (Validator.invalid "Only SELECT statements are allowed").
Proof.
  intros Hp Ht.
  apply (validate_leading_token sql stmt rest "WITH" toks Hp Ht).
  reflexivity.
Qed.


(** The parser contract used for blank input: no statement comes out of a
    text made of whitespace only (the statement splitter of sqlparse drops
    a pending statement whose tokens are all whitespace). *)
Hypothesis parse_blank_none :
  forall s, PyStr.isblank s = true -> parse s = [].

(** C7: for every empty or whitespace-only text, [validate] returns (it
    does not raise) a result whose [is_valid] is false. *)
Theorem validate_blank_invalid (sql : string) :
  PyStr.isblank sql = true ->
  exists r, Validator.validate parse schema sql = Return r /\
            Validator.is_valid r = false.
Proof.
  intro H. unfold Validator.validate. rewrite (parse_blank_none sql H).
  eexists. split; reflexivity.
Qed.

End ValidatorProperties.

(** The CTE statement of the validator test, in short: it is rejected. *)
Lemma validate_rejects_leading_with_witness :
  Validator.validate FlatSql.parse Demo.bank_schema
    "WITH t AS (SELECT 1) SELECT * FROM t"
  = Return (Validator.invalid "Only SELECT statements are allowed").
Proof.
  eapply (validate_rejects_leading_with FlatSql.parse Demo.bank_schema
            "WITH t AS (SELECT 1) SELECT * FROM t"); reflexivity.
Defined.



(** Three spaces, on the reference parser, which meets the contract. *)
Lemma validate_blank_invalid_witness :
  PyStr.isblank "   " = true /\
  exists r, Validator.validate FlatSql.parse Demo.bank_schema "   " = Return r /\
            Validator.is_valid r = false.
Proof.
  split.
  - reflexivity.
  - apply (validate_blank_invalid FlatSql.parse Demo.bank_schema parse_blank "   ").
    reflexivity.
Defined.


(* ================================================================== *)
(** * Properties of the pipeline *)
(* ================================================================== *)

Lemma count_app (p : Pipeline.Event -> bool) (a b : list Pipeline.Event) :
  Pipeline.count p (a ++ b) = (Pipeline.count p a + Pipeline.count p b)%Z.
Proof.
  unfold Pipeline.count. rewrite filter_app, length_app. lia.
Qed.

Lemma count_cons (p : Pipeline.Event -> bool) (e : Pipeline.Event)
    (tr : list Pipeline.Event) :
  Pipeline.count p (e :: tr)
  = ((if p e then 1 else 0) + Pipeline.count p tr)%Z.
Proof.
  unfold Pipeline.count. simpl. destruct (p e); cbn [List.length]; lia.
Qed.

Lemma count_nil (p : Pipeline.Event -> bool) : Pipeline.count p [] = 0%Z.
Proof. reflexivity. Qed.

Ltac count_events :=
  rewrite ?count_cons, ?count_nil;
  cbn [Pipeline.is_validate Pipeline.is_repair]; lia.

Section PipelineProperties.

Variables W Value Bundle Summary Clarified : Type.
Variable agents : Pipeline.Agents W Value Bundle Summary Clarified.
Variable cfg : Pipeline.PipelineConfig.

(** The loop, started at [attempts] with enough fuel: how many
    validations and repairs it adds to the trace, and the [retries] of
    what it returns. *)
Lemma loop_spec (nl_query : string) (plan : Pipeline.Plan)
    (gen_ctx : Pipeline.GenCtx Bundle Clarified) (fuel : nat) :
  forall attempts last_error sql diag st r st',
    (0 <= attempts)%Z ->
    (Pipeline.max_retries cfg + 1 - attempts < Z.of_nat fuel)%Z ->
    (Pipeline.retries diag <= Pipeline.max_retries cfg + 1)%Z ->
    Pipeline.loop agents cfg nl_query plan gen_ctx fuel attempts last_error sql diag st
    = (r, st') ->
    exists new,
      Pipeline.trace st' = Pipeline.trace st ++ new /\
      (Pipeline.count Pipeline.is_validate new
         <= Z.max 0 (Pipeline.max_retries cfg + 1 - attempts))%Z /\
      (Pipeline.count Pipeline.is_repair new
         <= Z.max 0 (Pipeline.max_retries cfg - attempts))%Z /\
      match r with
      | Return (Pipeline.Done out) =>
          Pipeline.success out = true /\
          (attempts <= Pipeline.retries (Pipeline.diagnostics out)
                    <= Pipeline.max_retries cfg)%Z
      | Return (Pipeline.Broke _ _ d) =>
          (Pipeline.retries d <= Pipeline.max_retries cfg + 1)%Z
      | Return Pipeline.OutOfFuel => False
      | Raise _ => True
      end.
Proof.
  induction fuel as [|fuel IH]; intros attempts last_error sql diag st r st' Ha Hf Hd H.
  - simpl in H. destruct (attempts <=? Pipeline.max_retries cfg)%Z eqn:Hle.
    + apply Z.leb_le in Hle. lia.
    + inversion H; subst. exists []. rewrite app_nil_r.
      repeat split; try count_events; try constructor; try exact Hd.
  - simpl in H. destruct (attempts <=? Pipeline.max_retries cfg)%Z eqn:Hle.
    2:{ inversion H; subst. exists []. rewrite app_nil_r.
        repeat split; try count_events; try constructor; try exact Hd. }
    apply Z.leb_le in Hle.
    unfold bind at 1 in H. unfold Pipeline.call at 1 in H.
    destruct (Pipeline.validate agents sql (Pipeline.world st)) as [[vr|e] w1] eqn:Hv.
    2:{ inversion H; subst. exists [Pipeline.EvValidate sql]. cbn.
        repeat split; try count_events; try lia; repeat constructor. }
    destruct (Validator.is_valid vr) eqn:Hvalid; cbn [negb] in H.
    + (* valid: execute *)
      unfold bind at 1 in H. unfold Pipeline.call at 1 in H. cbn [Pipeline.world Pipeline.trace] in H.
      destruct (Pipeline.run_query agents sql (Some (Pipeline.sql_row_limit cfg)) (Some vr) w1)
        as [[er|e] w2] eqn:Hx.
      2:{ inversion H; subst.
          exists [Pipeline.EvValidate sql; Pipeline.EvExecute sql (Pipeline.sql_row_limit cfg) vr].
          cbn. rewrite <- app_assoc. cbn.
          repeat split; try count_events; try lia; repeat constructor; eauto. }
      destruct (Executor.success er) eqn:Hs.
      * unfold bind at 1 in H. unfold Pipeline.call at 1 in H. cbn [Pipeline.world Pipeline.trace] in H.
        destruct (Pipeline.summarize agents nl_query er w2) as [[out|e] w3] eqn:Hsum.
        -- inversion H; subst.
           exists [Pipeline.EvValidate sql; Pipeline.EvExecute sql (Pipeline.sql_row_limit cfg) vr; Pipeline.EvSummarize].
           cbn. rewrite <- !app_assoc. cbn.
           repeat split; try count_events; try lia; repeat constructor; eauto.
        -- inversion H; subst.
           exists [Pipeline.EvValidate sql; Pipeline.EvExecute sql (Pipeline.sql_row_limit cfg) vr; Pipeline.EvSummarize].
           cbn. rewrite <- !app_assoc. cbn.
           repeat split; try count_events; try lia; repeat constructor; eauto.
      * cbv zeta in H.
        destruct (attempts + 1 >? Pipeline.max_retries cfg)%Z eqn:Hgt.
        -- inversion H; subst.
           exists [Pipeline.EvValidate sql; Pipeline.EvExecute sql (Pipeline.sql_row_limit cfg) vr].
           cbn. rewrite <- !app_assoc. cbn.
           repeat split; try count_events; try lia; repeat constructor; eauto.
        -- assert (Hlt : (attempts + 1 <= Pipeline.max_retries cfg)%Z).
           { destruct (Z.gtb_spec (attempts + 1) (Pipeline.max_retries cfg)); [discriminate | lia]. }
           unfold bind at 1 in H. unfold Pipeline.call at 1 in H. cbn [Pipeline.world Pipeline.trace] in H.
           match type of H with context [Pipeline.repair_sql agents ?a ?b ?c ?d] =>
             destruct (Pipeline.repair_sql agents a b c d) as [[sql'|e] w3] eqn:Hr end.
           2:{ inversion H; subst.
               eexists [Pipeline.EvValidate sql; Pipeline.EvExecute sql (Pipeline.sql_row_limit cfg) vr; Pipeline.EvRepair _].
               cbn. rewrite <- !app_assoc. cbn.
               repeat split; try count_events; try lia; repeat constructor; eauto. }
           apply IH in H; try (cbn; lia).
           destruct H as (new & Htr & Hcv & Hcr & Hres).
           cbn [Pipeline.trace] in Htr.
           eexists (Pipeline.EvValidate sql :: Pipeline.EvExecute sql (Pipeline.sql_row_limit cfg) vr :: Pipeline.EvRepair _ :: new).
           split; [rewrite Htr, <- !app_assoc; reflexivity|].
           split; [count_events|].
           split; [count_events|].
              destruct r as [[out|? ? d|]|e]; try exact Hres.
           destruct Hres as [Hok Hbound]. split; [exact Hok | lia].
    + (* invalid *)
      cbv zeta in H.
      destruct (attempts + 1 >? Pipeline.max_retries cfg)%Z eqn:Hgt.
      * inversion H; subst. exists [Pipeline.EvValidate sql]. cbn.
        repeat split; try count_events; try lia; repeat constructor.
      * assert (Hlt : (attempts + 1 <= Pipeline.max_retries cfg)%Z).
        { destruct (Z.gtb_spec (attempts + 1) (Pipeline.max_retries cfg)); [discriminate | lia]. }
        unfold bind at 1 in H. unfold Pipeline.call at 1 in H. cbn [Pipeline.world Pipeline.trace] in H.
        match type of H with context [Pipeline.repair_sql agents ?a ?b ?c ?d] =>
          destruct (Pipeline.repair_sql agents a b c d) as [[sql'|e] w3] eqn:Hr end.
        2:{ inversion H; subst.
            eexists [Pipeline.EvValidate sql; Pipeline.EvRepair _].
            cbn. rewrite <- !app_assoc. cbn.
            repeat split; try count_events; try lia; repeat constructor. }
        apply IH in H; try (cbn; lia).
        destruct H as (new & Htr & Hcv & Hcr & Hres).
        cbn [Pipeline.trace] in Htr.
        eexists (Pipeline.EvValidate sql :: Pipeline.EvRepair _ :: new).
        split; [rewrite Htr, <- !app_assoc; reflexivity|].
        split; [count_events|].
        split; [count_events|].
        destruct r as [[out|? ? d|]|e]; try exact Hres.
           destruct Hres as [Hok Hbound]. split; [exact Hok | lia].
Qed.

Variable schema_tables : list (string * list string).

(** [run] as a whole: what it adds to the trace and what it returns. *)
Lemma run_spec (nl : string) (clarified : option Clarified)
    (st st' : Pipeline.State W)
    (r : outcome (option (Pipeline.PipelineResult Value Summary))) :
  (0 <= Pipeline.max_retries cfg)%Z ->
  Pipeline.run agents schema_tables cfg nl clarified st = (r, st') ->
  exists new,
    Pipeline.trace st' = Pipeline.trace st ++ new /\
    (Pipeline.count Pipeline.is_validate new <= Pipeline.max_retries cfg + 1)%Z /\
    (Pipeline.count Pipeline.is_repair new <= Pipeline.max_retries cfg)%Z /\
    match r with
    | Return (Some res) =>
        (Pipeline.retries (Pipeline.diagnostics res)
           <= Pipeline.max_retries cfg + 1)%Z /\
        (Pipeline.success res = true ->
         (Pipeline.retries (Pipeline.diagnostics res)
            <= Pipeline.max_retries cfg)%Z)
    | Return None => False
    | Raise _ => True
    end.
Proof.
  intros Hm H. unfold Pipeline.run in H.
  unfold bind at 1 in H. unfold Pipeline.call at 1 in H.
  destruct (Pipeline.analyze_query agents nl (Pipeline.world st)) as [[plan|e] w1].
  2:{ inversion H; subst. exists [Pipeline.EvPlan nl].
      repeat split; try count_events; repeat constructor. }
  cbv zeta in H.
  unfold bind at 1 in H. unfold Pipeline.call at 1 in H.
  cbn [Pipeline.world Pipeline.trace] in H.
  match type of H with context [Pipeline.fetch_schema_context agents ?q ?w] =>
    destruct (Pipeline.fetch_schema_context agents q w) as [[bundle|e] w2] end.
  2:{ inversion H; subst. eexists [Pipeline.EvPlan nl; Pipeline.EvRetrieve _].
      rewrite <- !app_assoc.
      repeat split; try count_events; repeat constructor. }
  unfold bind at 1 in H. unfold Pipeline.call at 1 in H.
  cbn [Pipeline.world Pipeline.trace] in H.
  match type of H with context [Pipeline.generate agents ?a ?b ?c ?d ?w] =>
    destruct (Pipeline.generate agents a b c d w) as [[sql0|e] w3] end.
  2:{ inversion H; subst.
      eexists [Pipeline.EvPlan nl; Pipeline.EvRetrieve _; Pipeline.EvGenerate nl].
      rewrite <- !app_assoc.
      repeat split; try count_events; repeat constructor. }
  unfold bind at 1 in H.
  match type of H with context [Pipeline.loop ?a ?c ?n ?p ?g ?f ?at0 ?le ?s ?d ?st0] =>
    destruct (Pipeline.loop a c n p g f at0 le s d st0) as [lr st1] eqn:Hloop end.
  apply loop_spec in Hloop; try (cbn; lia).
  destruct Hloop as (new & Htr & Hcv & Hcr & Hres).
  cbn [Pipeline.trace] in Htr.
  eexists (Pipeline.EvPlan nl :: Pipeline.EvRetrieve _ :: Pipeline.EvGenerate nl :: new).
  assert (Htrace : Pipeline.trace st1
            = Pipeline.trace st ++ Pipeline.EvPlan nl
              :: Pipeline.EvRetrieve
                   ("tables: " ++ concat " " (Pipeline.tables plan) ++ " query: " ++ nl)
              :: Pipeline.EvGenerate nl :: new).
  { rewrite Htr, <- !app_assoc. reflexivity. }
  destruct lr as [[out| sqlb le d |]|e]; inversion H; subst;
    (split; [exact Htrace|]);
    (split; [count_events|]); (split; [count_events|]);
    try exact I; try contradiction.
  - destruct Hres as [Hok Hb]. split; intros; lia.
  - cbn. split; [exact Hres | intro Hx; discriminate Hx].
Qed.

End PipelineProperties.

Section PipelineGate.

Variables W Value Bundle Summary Clarified : Type.
Variable agents : Pipeline.Agents W Value Bundle Summary Clarified.
Variable cfg : Pipeline.PipelineConfig.
Variable P : string -> Validator.ValidationResult -> Prop.

Hypothesis validate_P :
  forall sql w vc w',
    Pipeline.validate agents sql w = (Return vc, w') -> P sql vc.

(** Whatever the retry budget, every executor call of the loop is made
    with the configured limit, on a text that the validator has just
    accepted. *)
Lemma loop_gated (nl_query : string) (plan : Pipeline.Plan)
    (gen_ctx : Pipeline.GenCtx Bundle Clarified) (fuel : nat) :
  forall attempts last_error sql diag st r st',
    Pipeline.loop agents cfg nl_query plan gen_ctx fuel attempts last_error sql diag st
    = (r, st') ->
    exists new,
      Pipeline.trace st' = Pipeline.trace st ++ new /\
      Forall (Pipeline.gated cfg P) new.
Proof.
  induction fuel as [|fuel IH]; intros attempts last_error sql diag st r st' H;
    simpl in H; destruct (attempts <=? Pipeline.max_retries cfg)%Z;
    try (inversion H; subst; exists []; rewrite app_nil_r; split; [reflexivity | constructor]).
  unfold bind at 1 in H. unfold Pipeline.call at 1 in H.
  destruct (Pipeline.validate agents sql (Pipeline.world st)) as [[vr|e] w1] eqn:Hv.
  2:{ inversion H; subst. exists [Pipeline.EvValidate sql].
      split; [reflexivity | repeat constructor]. }
  destruct (Validator.is_valid vr) eqn:Hvalid; cbn [negb] in H.
  - unfold bind at 1 in H. unfold Pipeline.call at 1 in H.
    cbn [Pipeline.world Pipeline.trace] in H.
    destruct (Pipeline.run_query agents sql (Some (Pipeline.sql_row_limit cfg)) (Some vr) w1)
      as [[er|e] w2].
    2:{ inversion H; subst.
        exists [Pipeline.EvValidate sql; Pipeline.EvExecute sql (Pipeline.sql_row_limit cfg) vr].
        cbn [Pipeline.trace]. rewrite <- app_assoc.
        split; [reflexivity | repeat constructor; eauto]. }
    destruct (Executor.success er).
    + unfold bind at 1 in H. unfold Pipeline.call at 1 in H.
      cbn [Pipeline.world Pipeline.trace] in H.
      exists [Pipeline.EvValidate sql;
              Pipeline.EvExecute sql (Pipeline.sql_row_limit cfg) vr;
              Pipeline.EvSummarize].
      destruct (Pipeline.summarize agents nl_query er w2) as [[out|e] w3];
        inversion H; subst; cbn [Pipeline.trace]; rewrite <- !app_assoc;
        (split; [reflexivity | repeat constructor; eauto]).
    + cbv zeta in H.
      destruct (attempts + 1 >? Pipeline.max_retries cfg)%Z.
      * inversion H; subst.
        exists [Pipeline.EvValidate sql; Pipeline.EvExecute sql (Pipeline.sql_row_limit cfg) vr].
        cbn [Pipeline.trace]. rewrite <- app_assoc.
        split; [reflexivity | repeat constructor; eauto].
      * unfold bind at 1 in H. unfold Pipeline.call at 1 in H.
        cbn [Pipeline.world Pipeline.trace] in H.
        match type of H with context [Pipeline.repair_sql agents ?a ?b ?c ?d] =>
          destruct (Pipeline.repair_sql agents a b c d) as [[sql'|e] w3] end.
        2:{ inversion H; subst.
            eexists [Pipeline.EvValidate sql;
                     Pipeline.EvExecute sql (Pipeline.sql_row_limit cfg) vr;
                     Pipeline.EvRepair _].
            cbn [Pipeline.trace]. rewrite <- !app_assoc.
            split; [reflexivity | repeat constructor; eauto]. }
        apply IH in H. destruct H as (new & Htr & Hg).
        cbn [Pipeline.trace] in Htr.
        eexists (Pipeline.EvValidate sql
                 :: Pipeline.EvExecute sql (Pipeline.sql_row_limit cfg) vr
                 :: Pipeline.EvRepair _ :: new).
        split; [rewrite Htr, <- !app_assoc; reflexivity | repeat constructor; eauto].
  - cbv zeta in H.
    destruct (attempts + 1 >? Pipeline.max_retries cfg)%Z.
    + inversion H; subst. exists [Pipeline.EvValidate sql].
      split; [reflexivity | repeat constructor].
    + unfold bind at 1 in H. unfold Pipeline.call at 1 in H.
      cbn [Pipeline.world Pipeline.trace] in H.
      match type of H with context [Pipeline.repair_sql agents ?a ?b ?c ?d] =>
        destruct (Pipeline.repair_sql agents a b c d) as [[sql'|e] w3] end.
      2:{ inversion H; subst.
          eexists [Pipeline.EvValidate sql; Pipeline.EvRepair _].
          cbn [Pipeline.trace]. rewrite <- !app_assoc.
          split; [reflexivity | repeat constructor]. }
      apply IH in H. destruct H as (new & Htr & Hg).
      cbn [Pipeline.trace] in Htr.
      eexists (Pipeline.EvValidate sql :: Pipeline.EvRepair _ :: new).
      split; [rewrite Htr, <- !app_assoc; reflexivity | repeat constructor; eauto].
Qed.

Variable schema_tables : list (string * list string).

Lemma run_gated (nl : string) (clarified : option Clarified)
    (st st' : Pipeline.State W)
    (r : outcome (option (Pipeline.PipelineResult Value Summary))) :
  Pipeline.run agents schema_tables cfg nl clarified st = (r, st') ->
  exists new,
    Pipeline.trace st' = Pipeline.trace st ++ new /\
    Forall (Pipeline.gated cfg P) new.
Proof.
  intro H. unfold Pipeline.run in H.
  unfold bind at 1 in H. unfold Pipeline.call at 1 in H.
  destruct (Pipeline.analyze_query agents nl (Pipeline.world st)) as [[plan|e] w1].
  2:{ inversion H; subst. exists [Pipeline.EvPlan nl].
      split; [reflexivity | repeat constructor]. }
  cbv zeta in H.
  unfold bind at 1 in H. unfold Pipeline.call at 1 in H.
  cbn [Pipeline.world Pipeline.trace] in H.
  match type of H with context [Pipeline.fetch_schema_context agents ?q ?w] =>
    destruct (Pipeline.fetch_schema_context agents q w) as [[bundle|e] w2] end.
  2:{ inversion H; subst. eexists [Pipeline.EvPlan nl; Pipeline.EvRetrieve _].
      cbn [Pipeline.trace]. rewrite <- !app_assoc.
      split; [reflexivity | repeat constructor]. }
  unfold bind at 1 in H. unfold Pipeline.call at 1 in H.
  cbn [Pipeline.world Pipeline.trace] in H.
  match type of H with context [Pipeline.generate agents ?a ?b ?c ?d ?w] =>
    destruct (Pipeline.generate agents a b c d w) as [[sql0|e] w3] end.
  2:{ inversion H; subst.
      eexists [Pipeline.EvPlan nl; Pipeline.EvRetrieve _; Pipeline.EvGenerate nl].
      cbn [Pipeline.trace]. rewrite <- !app_assoc.
      split; [reflexivity | repeat constructor]. }
  unfold bind at 1 in H.
  match type of H with context [Pipeline.loop ?a ?c ?n ?p ?g ?f ?at0 ?le ?s ?d ?st0] =>
    destruct (Pipeline.loop a c n p g f at0 le s d st0) as [lr st1] eqn:Hloop end.
  apply loop_gated in Hloop. destruct Hloop as (new & Htr & Hg).
  cbn [Pipeline.trace] in Htr.
  eexists (Pipeline.EvPlan nl :: Pipeline.EvRetrieve _ :: Pipeline.EvGenerate nl :: new).
  assert (Hst : Pipeline.trace st' = Pipeline.trace st1).
  { destruct lr as [[out| sqlb le d |]|e]; inversion H; subst; reflexivity. }
  rewrite Hst, Htr, <- !app_assoc.
  split; [reflexivity | repeat constructor; exact Hg].
Qed.

End PipelineGate.

Lemma executed_sql_app (a b : list Pipeline.Event) :
  Pipeline.executed_sql (a ++ b) = Pipeline.executed_sql a ++ Pipeline.executed_sql b.
Proof.
  induction a as [|e a IH]; simpl.
  - reflexivity.
  - destruct e; simpl; rewrite IH; reflexivity.
Qed.

Lemma gated_executed (cfg : Pipeline.PipelineConfig)
    (P : string -> Validator.ValidationResult -> Prop) (tr : list Pipeline.Event) :
  Forall (Pipeline.gated cfg P) tr ->
  forall sql, In sql (Pipeline.executed_sql tr) ->
  exists vc, Validator.is_valid vc = true /\ P sql vc.
Proof.
  induction 1 as [|e tr He _ IH]; simpl; intros sql Hin.
  - destruct Hin.
  - destruct e; try (apply IH; exact Hin).
    destruct Hin as [<- | Hin]; [|apply IH; exact Hin].
    destruct He as (_ & Hv & Hp). exists vc. split; assumption.
Qed.

(** C2: with a retry budget [max_retries >= 0], a run validates at most
    [max_retries + 1] times and calls the repair at most [max_retries]
    times, it does not run out of iterations, and the result it returns,
    successful or not, has [retries <= max_retries + 1] in its
    diagnostics. *)
Theorem run_retry_budget (W Value Bundle Summary Clarified : Type)
    (agents : Pipeline.Agents W Value Bundle Summary Clarified)
    (schema_tables : list (string * list string))
    (cfg : Pipeline.PipelineConfig)
    (nl_query : string) (clarified : option Clarified)
    (st st' : Pipeline.State W)
    (r : outcome (option (Pipeline.PipelineResult Value Summary))) :
  (0 <= Pipeline.max_retries cfg)%Z ->
  Pipeline.run agents schema_tables cfg nl_query clarified st = (r, st') ->
  exists new,
    Pipeline.trace st' = Pipeline.trace st ++ new /\
    (Pipeline.count Pipeline.is_validate new <= Pipeline.max_retries cfg + 1)%Z /\
    (Pipeline.count Pipeline.is_repair new <= Pipeline.max_retries cfg)%Z /\
    match r with
    | Return (Some res) =>
        (Pipeline.retries (Pipeline.diagnostics res)
           <= Pipeline.max_retries cfg + 1)%Z
    | Return None => False
    | Raise _ => True
    end.
Proof.
  intros Hm H.
  destruct (run_spec W Value Bundle Summary Clarified agents cfg schema_tables
              nl_query clarified st st' r Hm H)
    as (new & Htr & Hv & Hr & Hres).
  exists new. repeat split; try assumption.
  destruct r as [[res|]|e]; try exact Hres. exact (proj1 Hres).
Qed.

(** A generator that only ever emits a DROP statement, with the default
    budget of two retries: three validations, two repairs. *)
Lemma run_retry_budget_witness :
  (0 <= Pipeline.max_retries Pipeline.default_config)%Z /\
  exists new,
    Pipeline.trace
      (snd (Pipeline.run (Demo.agents "DROP TABLE customers" "DROP TABLE customers")
              Demo.bank_schema Pipeline.default_config "q" None Demo.start))
    = Pipeline.trace Demo.start ++ new /\
    (Pipeline.count Pipeline.is_validate new <= 3)%Z /\
    (Pipeline.count Pipeline.is_repair new <= 2)%Z.
Proof.
  split; [cbn; lia |].
  destruct (run_retry_budget _ _ _ _ _
              (Demo.agents "DROP TABLE customers" "DROP TABLE customers")
              Demo.bank_schema Pipeline.default_config "q" None Demo.start
              (snd (Pipeline.run (Demo.agents "DROP TABLE customers" "DROP TABLE customers")
                      Demo.bank_schema Pipeline.default_config "q" None Demo.start))
              (fst (Pipeline.run (Demo.agents "DROP TABLE customers" "DROP TABLE customers")
                      Demo.bank_schema Pipeline.default_config "q" None Demo.start)))
    as (new & Htr & Hv & Hr & _).
  - cbn; lia.
  - apply surjective_pairing.
  - exists new. repeat split; assumption.
Defined.

(** C1 (as the code behaves): [validate] rejects every text whose first
    parsed statement has DROP, DELETE, UPDATE, INSERT or ALTER among its
    significant tokens; and in a run of the pipeline whose validator is
    this [validate], every text handed to the executor was accepted by it:
    its first statement begins with a token that contains SELECT and has
    none of those five words among its significant tokens. *)
Theorem validator_gate (W Value Bundle Summary Clarified : Type)
    (agents : Pipeline.Agents W Value Bundle Summary Clarified)
    (parse : string -> list Validator.Statement)
    (schema schema_tables : list (string * list string))
    (cfg : Pipeline.PipelineConfig)
    (nl_query : string) (clarified : option Clarified)
    (st st' : Pipeline.State W)
    (r : outcome (option (Pipeline.PipelineResult Value Summary))) :
  (forall sql w,
      Pipeline.validate agents sql w = (Validator.validate parse schema sql, w)) ->
  Pipeline.trace st = [] ->
  Pipeline.run agents schema_tables cfg nl_query clarified st = (r, st') ->
  (forall sql stmt rest word,
      parse sql = stmt :: rest ->
      In word Validator.forbidden ->
      In word (Validator.significant_tokens stmt) ->
      exists msg,
        Validator.validate parse schema sql = Return (Validator.invalid msg))
  /\
  (forall sql,
      In sql (Pipeline.executed_sql (Pipeline.trace st')) ->
      exists vc stmt rest first toks,
        Validator.validate parse schema sql = Return vc /\
        Validator.is_valid vc = true /\
        parse sql = stmt :: rest /\
        Validator.significant_tokens stmt = first :: toks /\
        PyStr.contains "SELECT" first = true /\
        forall word, In word Validator.forbidden -> ~ In word (first :: toks)).
Proof.
  intros Hval Hst Hrun. split.
  - intros sql stmt rest word. apply validate_forbidden_token.
  - intros sql Hin.
    destruct (run_gated W Value Bundle Summary Clarified agents cfg
                (fun q vc => Validator.validate parse schema q = Return vc))
      with (schema_tables := schema_tables) (nl := nl_query)
           (clarified := clarified) (st := st) (st' := st') (r := r)
      as (new & Htr & Hg).
    + intros q w vc w' Hq. rewrite Hval in Hq. inversion Hq. reflexivity.
    + exact Hrun.
    + rewrite Htr, Hst in Hin. simpl in Hin.
      destruct (gated_executed cfg _ new Hg sql Hin) as (vc & Hvalid & Hvc).
      destruct (validate_accepts_inv parse schema sql vc Hvc Hvalid)
        as (stmt & rest & first & toks & Hp & Ht & Hc & Hno).
      exists vc, stmt, rest, first, toks. repeat split; assumption.
Qed.

(** A text with DROP among its tokens is rejected, and in a run whose
    generator first emits a DROP statement only accepted texts reach the
    executor. *)
Lemma validator_gate_witness :
  (exists msg,
      Demo.validate "SELECT id FROM customers DROP"
      = Return (Validator.invalid msg)) /\
  (forall sql,
      In sql (Pipeline.executed_sql
                (Pipeline.trace
                   (snd (Pipeline.run (Demo.agents "DROP TABLE customers" "SELECT 1")
                           Demo.bank_schema Pipeline.default_config "q" None
                           Demo.start)))) ->
      exists vc, Demo.validate sql = Return vc /\ Validator.is_valid vc = true).
Proof.
  destruct (validator_gate _ _ _ _ _
              (Demo.agents "DROP TABLE customers" "SELECT 1")
              FlatSql.parse Demo.bank_schema Demo.bank_schema
              Pipeline.default_config "q" None Demo.start
              (snd (Pipeline.run (Demo.agents "DROP TABLE customers" "SELECT 1")
                      Demo.bank_schema Pipeline.default_config "q" None Demo.start))
              (fst (Pipeline.run (Demo.agents "DROP TABLE customers" "SELECT 1")
                      Demo.bank_schema Pipeline.default_config "q" None Demo.start)))
    as [Hreject Hexec].
  - intros q w. reflexivity.
  - reflexivity.
  - apply surjective_pairing.
  - split.
    + eapply (Hreject "SELECT id FROM customers DROP" _ _ "DROP").
      * reflexivity.
      * left. reflexivity.
      * vm_compute. repeat ((left; reflexivity) || right).
    + intros sql Hin.
      destruct (Hexec sql Hin) as (vc & _ & _ & _ & _ & Hv & Hok & _).
      exists vc. split; assumption.
Defined.

(** TRUNCATE is not in the list of [validate]: the statement
    [SELECT TRUNCATE FROM customers], of which it is a standalone token (a
    keyword for sqlparse, left ungrouped), is valid for the validator and
    the pipeline hands it to the executor. *)
Lemma truncate_token_reaches_executor :
  Validator.standalone_token FlatSql.parse "SELECT TRUNCATE FROM customers" "TRUNCATE" /\
  Demo.validate "SELECT TRUNCATE FROM customers"
  = Return {| Validator.is_valid := true;
              Validator.error := None;
              Validator.warning := None;
              Validator.tables_used := Some ["customers"] |} /\
  Pipeline.executed_sql
    (Pipeline.trace
       (snd (Pipeline.run (Demo.agents "SELECT TRUNCATE FROM customers" "SELECT 1")
               Demo.bank_schema Pipeline.default_config "q" None Demo.start)))
  = ["SELECT TRUNCATE FROM customers"].
Proof.
  split; [| split; reflexivity].
  exists (hd [] (FlatSql.parse "SELECT TRUNCATE FROM customers")),
         (Validator.mkToken "TRUNCATE" false).
  repeat split.
  - left. reflexivity.
  - vm_compute. repeat ((left; reflexivity) || right).
Qed.

(* ================================================================== *)
(** * Properties of the executor *)
(* ================================================================== *)

(** The gate is closed by a dict that is not empty and whose [is_valid]
    entry is missing or false. *)
Lemma gate_closed_spec (vc : option (list (string * Json))) :
  Executor.gate_closed vc = true <->
  exists d, vc = Some d /\ d <> [] /\
            forall v, dict_get "is_valid" d = Some v -> py_truthy v = false.
Proof.
  unfold Executor.gate_closed. split.
  - destruct vc as [[|kv d]|]; try discriminate.
    intro H. exists (kv :: d). split; [reflexivity |]. split; [discriminate |].
    intros v Hv. rewrite Hv in H. destruct (py_truthy v); [discriminate | reflexivity].
  - intros (d & -> & Hne & Hv). destruct d as [|kv d]; [contradiction |].
    destruct (dict_get "is_valid" (kv :: d)) as [v|]; [| reflexivity].
    rewrite (Hv v eq_refl). reflexivity.
Qed.

(** The dict that [validate] returns closes the gate exactly when its
    [is_valid] is false. *)
Lemma gate_closed_to_dict (c : Validator.ValidationResult) :
  Executor.gate_closed (Some (Validator.to_dict c)) = negb (Validator.is_valid c).
Proof. reflexivity. Qed.

Section ExecutorProperties.

Variables Value Db : Type.
Variable json_type_error : Value -> option string.
Variable sqlite_execute : string -> Db -> (string + list (Executor.Row Value)) * Db.
Variable fetchmany :
  list (Executor.Row Value) -> Z -> outcome (list (Executor.Row Value)).

Local Abbreviation run_query :=
  (Executor.run_query json_type_error sqlite_execute fetchmany).

Local Abbreviation failed_validation :=
  {| Executor.success := false; Executor.results := @None (list (Executor.Row Value));
     Executor.message := None;
     Executor.exec_error := Some "Query failed validation" |}.





(** The values of [dict(row)] are values of the row. *)
Lemma dict_set_values (k : string) (v : Value) (d : Executor.Row Value)
    (P : Value -> Prop) :
  P v -> (forall kv, In kv d -> P (snd kv)) ->
  forall kv, In kv (Executor.dict_set Value k v d) -> P (snd kv).
Proof.
  intros Hv. induction d as [|[k' v'] d IH]; intros Hd kv Hin.
  - destruct Hin as [<- | []]. exact Hv.
  - cbn [Executor.dict_set] in Hin. destruct (String.eqb k k').
    + destruct Hin as [<- | Hin]; [exact Hv | apply Hd; now right].
    + destruct Hin as [<- | Hin]; [apply Hd; now left |].
      apply IH; [| exact Hin]. intros x Hx. apply Hd. now right.
Qed.

Lemma dict_of_row_values (row : Executor.Row Value) (P : Value -> Prop) :
  (forall kv, In kv row -> P (snd kv)) ->
  forall kv, In kv (Executor.dict_of_row Value row) -> P (snd kv).
Proof.
  intro Hrow. unfold Executor.dict_of_row.
  assert (Hgen : forall keys d,
             (forall kv, In kv d -> P (snd kv)) ->
             forall kv,
               In kv (fold_left
                        (fun d key =>
                           match Executor.row_item row key with
                           | Some v => Executor.dict_set Value key v d
                           | None => d
                           end) keys d) -> P (snd kv)).
  { induction keys as [|key keys IH]; intros d Hd; [exact Hd |].
    cbn [fold_left]. apply IH.
    destruct (Executor.row_item row key) as [v|] eqn:Hitem; [| exact Hd].
    apply dict_set_values; [| exact Hd].
    unfold Executor.row_item in Hitem.
    destruct (List.find _ row) as [kv0|] eqn:Hfind; [| discriminate].
    injection Hitem as <-. apply Hrow. apply (find_some _ _ Hfind). }
  apply Hgen. intros kv [].
Qed.

Lemma first_type_error_none (cells : list Value) :
  (forall v, In v cells -> json_type_error v = None) ->
  Executor.first_type_error json_type_error cells = None.
Proof.
  induction cells as [|v cells IH]; intro H; [reflexivity |].
  cbn [Executor.first_type_error]. rewrite (H v (or_introl eq_refl)).
  apply IH. intros x Hx. apply H. now right.
Qed.

(** [json.dumps] accepts the rows of a result whose values it accepts. *)
Lemma rows_serialisable (rows : list (Executor.Row Value)) :
  (forall row, In row rows -> forall kv, In kv row -> json_type_error (snd kv) = None) ->
  Executor.first_type_error json_type_error
    (flat_map (fun row : Executor.Row Value => map snd row)
              (map (Executor.dict_of_row Value) rows)) = None.
Proof.
  intro H. apply first_type_error_none. intros v Hv.
  apply in_flat_map in Hv. destruct Hv as (d & Hd & Hv).
  apply in_map_iff in Hd. destruct Hd as (row & <- & Hrow).
  apply in_map_iff in Hv. destruct Hv as (kv & <- & Hkv).
  exact (dict_of_row_values row (fun v => json_type_error v = None)
           (H row Hrow) kv Hkv).
Qed.

(** The cursor contract used for the row cap: for a size from one up to
    the largest C [int], [fetchmany] yields the first [size] rows of the
    result set, or all of them when there are fewer. *)
Hypothesis fetchmany_positive :
  forall cursor size,
    (0 < size < 2147483648)%Z ->
    fetchmany cursor size = Return (firstn (Z.to_nat size) cursor).

(** What [run_query] returns past the gate for such a limit and rows
    that [json.dumps] accepts. *)
Lemma run_query_fetches (sql : string) (limit : Z)
    (vc : option (list (string * Json))) (s : Executor.Session Db)
    (cursor : list (Executor.Row Value)) (db' : Db) :
  (0 < limit < 2147483648)%Z ->
  Executor.gate_closed vc = false ->
  sqlite_execute sql (Executor.db s) = (inr cursor, db') ->
  (forall row, In row (firstn (Z.to_nat limit) cursor) ->
     forall kv, In kv row -> json_type_error (snd kv) = None) ->
  fst (run_query sql (Some limit) vc s)
  = Return
      (match map (Executor.dict_of_row Value) (firstn (Z.to_nat limit) cursor) with
       | [] => {| Executor.success := true; Executor.results := Some [];
                  Executor.message := Some "No results found";
                  Executor.exec_error := None |}
       | rows => {| Executor.success := true; Executor.results := Some rows;
                    Executor.message := None; Executor.exec_error := None |}
       end).
Proof.
  intros Hlim Hg Hexec Hser.
  unfold Executor.run_query, LoggerConfig.log_agent_flow, Executor.run_query_body.
  rewrite Hg, Hexec, (fetchmany_positive cursor limit Hlim).
  pose proof (rows_serialisable _ Hser) as Hdump.
  destruct (map (Executor.dict_of_row Value) (firstn (Z.to_nat limit) cursor))
    as [|row rows] eqn:Hrows; cbn [fst snd].
  - reflexivity.
  - unfold Executor.result_type_error. cbn [Executor.results].
    rewrite Hdump. reflexivity.
Qed.

(** The row cap of [run_query]. *)
Lemma run_query_caps_rows (sql : string) (limit : Z)
    (vc : option (list (string * Json))) (s : Executor.Session Db)
    (cursor : list (Executor.Row Value)) (db' : Db) :
  (0 < limit < 2147483648)%Z ->
  Executor.gate_closed vc = false ->
  sqlite_execute sql (Executor.db s) = (inr cursor, db') ->
  (forall row, In row (firstn (Z.to_nat limit) cursor) ->
     forall kv, In kv row -> json_type_error (snd kv) = None) ->
  (limit < Z.of_nat (List.length cursor))%Z ->
  exists rows,
    fst (run_query sql (Some limit) vc s)
    = Return {| Executor.success := true; Executor.results := Some rows;
                Executor.message := None; Executor.exec_error := None |} /\
    Z.of_nat (List.length rows) = limit.
Proof.
  intros Hlim Hg Hexec Hser Hmore.
  rewrite (run_query_fetches sql limit vc s cursor db' Hlim Hg Hexec Hser).
  assert (Hlen : Z.of_nat (List.length (map (Executor.dict_of_row Value)
                                           (firstn (Z.to_nat limit) cursor))) = limit).
  { rewrite length_map, length_firstn. lia. }
  destruct (map (Executor.dict_of_row Value) (firstn (Z.to_nat limit) cursor))
    as [|row rows].
  - simpl in Hlen. lia.
  - exists (row :: rows). split; [reflexivity | exact Hlen].
Qed.

(** A size that [fetchmany] refuses: the exception escapes [run_query],
    after the statement was executed. *)
Lemma run_query_fetchmany_raises (sql : string) (limit : Z)
    (vc : option (list (string * Json))) (s : Executor.Session Db)
    (cursor : list (Executor.Row Value)) (db' : Db) (e : PyExn) :
  Executor.gate_closed vc = false ->
  sqlite_execute sql (Executor.db s) = (inr cursor, db') ->
  fetchmany cursor limit = Raise e ->
  run_query sql (Some limit) vc s
  = (Raise e, {| Executor.db := db'; Executor.executed := Executor.executed s ++ [sql] |}).
Proof.
  intros Hg Hexec Hf.
  unfold Executor.run_query, LoggerConfig.log_agent_flow, Executor.run_query_body.
  rewrite Hg, Hexec, Hf. reflexivity.
Qed.

End ExecutorProperties.

(** C4 (as the code behaves): past the validation gate, a statement whose
    result set has more than [limit] rows, for a limit from one up to
    the largest C [int] and rows that [json.dumps] accepts, makes
    [run_query] return exactly [limit] rows with [success] true.  The
    limit that the pipeline passes is [sql_row_limit], whose default is
    200; the default of [run_query] itself, used when the caller gives
    no limit, is 100. *)
Theorem run_query_row_cap (Value Db : Type)
    (json_type_error : Value -> option string)
    (sqlite_execute : string -> Db -> (string + list (Executor.Row Value)) * Db)
    (fetchmany : list (Executor.Row Value) -> Z -> outcome (list (Executor.Row Value)))
    (sql : string) (limit : Z) (vc : option (list (string * Json)))
    (s : Executor.Session Db) (cursor : list (Executor.Row Value)) (db' : Db) :
  (forall c size,
      (0 < size < 2147483648)%Z ->
      fetchmany c size = Return (firstn (Z.to_nat size) c)) ->
  (0 < limit < 2147483648)%Z ->
  (forall d, vc = Some d ->
     d = [] \/ exists v, dict_get "is_valid" d = Some v /\ py_truthy v = true) ->
  sqlite_execute sql (Executor.db s) = (inr cursor, db') ->
  (forall row, In row (firstn (Z.to_nat limit) cursor) ->
     forall kv, In kv row -> json_type_error (snd kv) = None) ->
  (limit < Z.of_nat (List.length cursor))%Z ->
  (exists rows,
      fst (Executor.run_query json_type_error sqlite_execute fetchmany sql
             (Some limit) vc s)
      = Return {| Executor.success := true; Executor.results := Some rows;
                  Executor.message := None; Executor.exec_error := None |} /\
      Z.of_nat (List.length rows) = limit)
  /\ Pipeline.sql_row_limit Pipeline.default_config = 200%Z
  /\ Executor.default_limit = 100%Z
  /\ (forall (W Bundle Summary Clarified : Type)
             (agents : Pipeline.Agents W Value Bundle Summary Clarified)
             (schema_tables : list (string * list string))
             (cfg : Pipeline.PipelineConfig) (nl_query : string)
             (clarified : option Clarified) (st st' : Pipeline.State W)
             (r : outcome (option (Pipeline.PipelineResult Value Summary)))
             (q : string) (l : Z) (c : Validator.ValidationResult),
         Pipeline.trace st = [] ->
         Pipeline.run agents schema_tables cfg nl_query clarified st = (r, st') ->
         In (Pipeline.EvExecute q l c) (Pipeline.trace st') ->
         l = Pipeline.sql_row_limit cfg).
Proof.
  intros Hfm Hlim Hopen Hexec Hser Hmore.
  assert (Hg : Executor.gate_closed vc = false).
  { destruct (Executor.gate_closed vc) eqn:Hg; [| reflexivity].
    apply gate_closed_spec in Hg. destruct Hg as (d & -> & Hne & Hv).
    destruct (Hopen d eq_refl) as [-> | (v & Hget & Ht)]; [contradiction |].
    rewrite (Hv v Hget) in Ht. discriminate. }
  split; [| split; [reflexivity | split; [reflexivity |]]].
  - apply (run_query_caps_rows Value Db json_type_error sqlite_execute fetchmany Hfm
             sql limit vc s cursor db' Hlim Hg Hexec Hser Hmore).
  - intros W Bundle Summary Clarified agents schema_tables cfg nl_query clarified
           st st' r q l c Hst Hrun Hin.
    destruct (run_gated W Value Bundle Summary Clarified agents cfg
                (fun _ _ => True) (fun _ _ _ _ _ => I)
                schema_tables nl_query clarified st st' r Hrun)
      as (new & Htr & Hgated).
    rewrite Htr, Hst in Hin. simpl in Hin.
    rewrite Forall_forall in Hgated. apply (Hgated _ Hin).
Qed.

(** Five rows of integers, a limit of three. *)
Lemma run_query_row_cap_witness :
  exists rows,
    fst (Demo.run_query 5 "SELECT id FROM customers" (Some 3%Z) None
           {| Executor.db := tt; Executor.executed := [] |})
    = Return {| Executor.success := true; Executor.results := Some rows;
                Executor.message := None; Executor.exec_error := None |} /\
    Z.of_nat (List.length rows) = 3%Z.
Proof.
  refine (proj1 (run_query_row_cap Z unit Demo.integer_type_error
                   (Demo.sqlite_execute 5) Demo.fetchmany
                   "SELECT id FROM customers" 3%Z None
                   {| Executor.db := tt; Executor.executed := [] |}
                   (Demo.rows 5) tt _ _ _ _ _ _)).
  - intros c size Hsize. unfold Demo.fetchmany.
    replace ((size <? -2147483648)%Z || (2147483647 <? size)%Z) with false
      by (symmetry; apply orb_false_iff; split; [apply Z.ltb_ge | apply Z.ltb_ge]; lia).
    replace (size <=? 0)%Z with false by (symmetry; apply Z.leb_gt; lia).
    reflexivity.
  - lia.
  - intros d Hd. discriminate Hd.
  - reflexivity.
  - intros row _ kv _. reflexivity.
  - cbn. lia.
Defined.

(** Where the claim fails.  With a limit of zero [fetchmany] fetches
    every row, so three rows come back where none was allowed; and a row
    that holds a BLOB makes the call raise, with five rows in the result
    set and a limit of three. *)
Lemma run_query_row_cap_fails :
  (exists rows,
      fst (Demo.run_query 3 "SELECT id FROM customers" (Some 0%Z) None
             {| Executor.db := tt; Executor.executed := [] |})
      = Return {| Executor.success := true; Executor.results := Some rows;
                  Executor.message := None; Executor.exec_error := None |} /\
      List.length rows = 3 /\ 0 < List.length (Demo.rows 3))
  /\
  (fst (Executor.run_query Demo.cell_type_error (Demo.sqlite_execute_blob 5)
          Demo.fetchmany "SELECT id, photo FROM customers" (Some 3%Z) None
          {| Executor.db := tt; Executor.executed := [] |})
   = Raise (TypeError "Object of type bytes is not JSON serializable") /\
   3 < List.length (Demo.blob_rows 5)).
Proof.
  split.
  - eexists. split; [vm_compute; reflexivity | split; vm_compute; [reflexivity | lia]].
  - split; [vm_compute; reflexivity | vm_compute; lia].
Qed.

(** With no limit given and 250 rows to return, [run_query] returns 100
    rows: the 200 of the configuration is not the default of
    [run_query]. *)
Lemma run_query_default_limit_is_100 :
  exists rows,
    fst (Demo.run_query 250 "SELECT id FROM customers" None None
           {| Executor.db := tt; Executor.executed := [] |})
    = Return {| Executor.success := true; Executor.results := Some rows;
                Executor.message := None; Executor.exec_error := None |} /\
    List.length rows = 100 /\ 200 < List.length (Demo.rows 250).
Proof.
  eexists. split; [vm_compute; reflexivity | split; vm_compute; [reflexivity | lia]].
Qed.


Local Open Scope string_scope.

(* ================================================================== *)
(** * Properties of the string operations *)
(* ================================================================== *)

Lemma string_app_assoc (a b c : string) : (a ++ b) ++ c = a ++ (b ++ c).
Proof.
  induction a as [|x a IH]; simpl.
  - reflexivity.
  - rewrite IH. reflexivity.
Qed.

Lemma rstrip_blank (w : string) :
  PyStr.isblank w = true -> PyStr.rstrip w = EmptyString.
Proof.
  induction w as [|c w IH]; simpl; intro H.
  - reflexivity.
  - apply andb_prop in H. destruct H as [Hc Hw].
    rewrite (IH Hw), Hc. reflexivity.
Qed.

Lemma rstrip_app_blank (x w : string) :
  PyStr.isblank w = true -> PyStr.rstrip (x ++ w) = PyStr.rstrip x.
Proof.
  intro H. induction x as [|c x IH]; simpl.
  - apply rstrip_blank. exact H.
  - rewrite IH. reflexivity.
Qed.

Lemma rstrip_ends_nonspace (x : string) (c : ascii) :
  PyStr.isspace c = false ->
  PyStr.rstrip (x ++ String c EmptyString) = x ++ String c EmptyString.
Proof.
  intro H. induction x as [|a x IH]; simpl.
  - rewrite H. reflexivity.
  - rewrite IH. destruct x; reflexivity.
Qed.

Lemma rstrip_char_ends_other (y : ascii) (x : string) (c : ascii) :
  Ascii.eqb c y = false ->
  PyStr.rstrip_char y (x ++ String c EmptyString) = x ++ String c EmptyString.
Proof.
  intro H. induction x as [|a x IH]; simpl.
  - rewrite H. reflexivity.
  - rewrite IH. destruct x; reflexivity.
Qed.

Lemma take_app_length (a b : string) (n : nat) :
  PyStr.take (String.length a + n) (a ++ b) = (a ++ PyStr.take n b)%string.
Proof.
  induction a as [|c a IH]; simpl.
  - reflexivity.
  - rewrite IH. reflexivity.
Qed.

(** A closing marker cannot begin inside a text that a newline follows,
    unless it lies in that text entirely. *)
Lemma startswith_fence_before_newline (y z : string) :
  PyStr.startswith SQLGenerator.fence (y ++ LLMText.newline ++ z) = true ->
  PyStr.startswith SQLGenerator.fence y = true.
Proof.
  destruct y as [|a [|b [|c y]]]; simpl.
  - intro H. discriminate H.
  - rewrite andb_false_r. intro H. discriminate H.
  - rewrite !andb_false_r. intro H. discriminate H.
  - intro H. exact H.
Qed.

Lemma find0_closing_fence (x : string) :
  PyStr.contains SQLGenerator.fence x = false ->
  PyStr.find0 SQLGenerator.fence (x ++ LLMText.newline ++ SQLGenerator.fence)
  = Some (String.length x + 1).
Proof.
  induction x as [|c x IH]; intro H.
  - reflexivity.
  - change (PyStr.contains SQLGenerator.fence (String c x))
      with (PyStr.startswith SQLGenerator.fence (String c x)
            || PyStr.contains SQLGenerator.fence x) in H.
    apply orb_false_elim in H. destruct H as [Hs Hc].
    change ((String c x ++ LLMText.newline ++ SQLGenerator.fence)%string)
      with (String c (x ++ LLMText.newline ++ SQLGenerator.fence)).
    change (PyStr.find0 SQLGenerator.fence
              (String c (x ++ LLMText.newline ++ SQLGenerator.fence)))
      with (if PyStr.startswith SQLGenerator.fence
                 (String c (x ++ LLMText.newline ++ SQLGenerator.fence))
            then Some O
            else option_map S
                   (PyStr.find0 SQLGenerator.fence
                      (x ++ LLMText.newline ++ SQLGenerator.fence))).
    destruct (PyStr.startswith SQLGenerator.fence
                (String c (x ++ LLMText.newline ++ SQLGenerator.fence))) eqn:Hsw.
    + apply (startswith_fence_before_newline (String c x)) in Hsw.
      rewrite Hsw in Hs. discriminate Hs.
    + rewrite (IH Hc). reflexivity.
Qed.

Section CleanProperties.

Variable inner : string.

Local Abbreviation body := ("{" ++ inner ++ "}")%string.

Lemma strip_object : PyStr.strip body = body.
Proof.
  unfold PyStr.strip. cbn [append PyStr.lstrip].
  change (PyStr.isspace "{") with false. cbv iota.
  apply (rstrip_ends_nonspace (String "{" inner) "}"). reflexivity.
Qed.

Lemma strip_backticks_object : PyStr.strip_char SQLGenerator.backtick body = body.
Proof.
  unfold PyStr.strip_char. cbn [append PyStr.lstrip_char].
  change (Ascii.eqb "{" SQLGenerator.backtick) with false. cbv iota.
  apply (rstrip_char_ends_other SQLGenerator.backtick (String "{" inner) "}").
  reflexivity.
Qed.

Lemma strip_lines_object :
  PyStr.strip (LLMText.newline ++ body ++ LLMText.newline) = body.
Proof.
  unfold PyStr.strip.
  change (PyStr.lstrip (LLMText.newline ++ body ++ LLMText.newline))
    with (PyStr.lstrip (body ++ LLMText.newline)).
  cbn [append PyStr.lstrip].
  change (PyStr.isspace "{") with false. cbv iota.
  change (String "{" ((inner ++ "}") ++ LLMText.newline))
    with (body ++ LLMText.newline)%string.
  rewrite rstrip_app_blank by reflexivity.
  fold (PyStr.strip body).
  change (PyStr.rstrip body) with (PyStr.rstrip (PyStr.lstrip body)).
  apply strip_object.
Qed.

(** A raw JSON object is left as it is. *)
Lemma clean_raw : SQLGenerator._clean_llm_response body = body.
Proof.
  unfold SQLGenerator._clean_llm_response. rewrite strip_object.
  change (PyStr.startswith SQLGenerator.fence_json body) with false.
  change (PyStr.startswith SQLGenerator.fence body) with false.
  cbv iota. apply strip_backticks_object.
Qed.

Hypothesis no_fence_inside : PyStr.contains SQLGenerator.fence body = false.

(** A block fenced with the json marker is reduced to its body. *)
Lemma clean_fenced_json :
  SQLGenerator._clean_llm_response (LLMText.fenced_json body) = body.
Proof.
  unfold SQLGenerator._clean_llm_response.
  assert (Hstrip : PyStr.strip (LLMText.fenced_json body) = LLMText.fenced_json body).
  { unfold PyStr.strip, LLMText.fenced_json.
    change (PyStr.lstrip ("```json" ++ LLMText.newline ++ body ++ LLMText.newline ++ "```"))
      with ("```json" ++ LLMText.newline ++ body ++ LLMText.newline ++ "```").
    replace ("```json" ++ LLMText.newline ++ body ++ LLMText.newline ++ "```")
      with (("```json" ++ LLMText.newline ++ body ++ LLMText.newline ++ "``")
            ++ String SQLGenerator.backtick EmptyString).
    - apply rstrip_ends_nonspace. reflexivity.
    - rewrite !string_app_assoc. reflexivity. }
  rewrite Hstrip.
  change (PyStr.startswith SQLGenerator.fence_json (LLMText.fenced_json body)) with true.
  cbv iota.
  assert (Hfind : PyStr.find SQLGenerator.fence (LLMText.fenced_json body) 7
                  = Some (7 + S (String.length body + 1))).
  { unfold PyStr.find, LLMText.fenced_json.
    change (String.length ("```json" ++ LLMText.newline ++ body ++ LLMText.newline ++ "```")
            <? 7)%nat with false. cbv iota.
    change (PyStr.drop 7 ("```json" ++ LLMText.newline ++ body ++ LLMText.newline ++ "```"))
      with (LLMText.newline ++ body ++ LLMText.newline ++ SQLGenerator.fence).
    change (PyStr.find0 SQLGenerator.fence
              (LLMText.newline ++ body ++ LLMText.newline ++ SQLGenerator.fence))
      with (option_map S (PyStr.find0 SQLGenerator.fence
                            (body ++ LLMText.newline ++ SQLGenerator.fence))).
    rewrite (find0_closing_fence body no_fence_inside). reflexivity. }
  rewrite Hfind.
  assert (Hslice : PyStr.slice 7 (7 + S (String.length body + 1)) (LLMText.fenced_json body)
                   = LLMText.newline ++ body ++ LLMText.newline).
  { unfold PyStr.slice, LLMText.fenced_json.
    change (PyStr.take (7 + S (String.length body + 1))
              ("```json" ++ LLMText.newline ++ body ++ LLMText.newline ++ "```"))
      with ("```json" ++ LLMText.newline
            ++ PyStr.take (String.length body + 1) (body ++ LLMText.newline ++ "```")).
    rewrite take_app_length. reflexivity. }
  rewrite Hslice, strip_lines_object. apply strip_backticks_object.
Qed.

(** So is a block fenced with the bare marker. *)
Lemma clean_fenced :
  SQLGenerator._clean_llm_response (LLMText.fenced body) = body.
Proof.
  unfold SQLGenerator._clean_llm_response.
  assert (Hstrip : PyStr.strip (LLMText.fenced body) = LLMText.fenced body).
  { unfold PyStr.strip, LLMText.fenced.
    change (PyStr.lstrip ("```" ++ LLMText.newline ++ body ++ LLMText.newline ++ "```"))
      with ("```" ++ LLMText.newline ++ body ++ LLMText.newline ++ "```").
    replace ("```" ++ LLMText.newline ++ body ++ LLMText.newline ++ "```")
      with (("```" ++ LLMText.newline ++ body ++ LLMText.newline ++ "``")
            ++ String SQLGenerator.backtick EmptyString).
    - apply rstrip_ends_nonspace. reflexivity.
    - rewrite !string_app_assoc. reflexivity. }
  rewrite Hstrip.
  change (PyStr.startswith SQLGenerator.fence_json (LLMText.fenced body)) with false.
  change (PyStr.startswith SQLGenerator.fence (LLMText.fenced body)) with true.
  cbv iota.
  assert (Hfind : PyStr.find SQLGenerator.fence (LLMText.fenced body) 3
                  = Some (3 + S (String.length body + 1))).
  { unfold PyStr.find, LLMText.fenced.
    change (String.length ("```" ++ LLMText.newline ++ body ++ LLMText.newline ++ "```")
            <? 3)%nat with false. cbv iota.
    change (PyStr.drop 3 ("```" ++ LLMText.newline ++ body ++ LLMText.newline ++ "```"))
      with (LLMText.newline ++ body ++ LLMText.newline ++ SQLGenerator.fence).
    change (PyStr.find0 SQLGenerator.fence
              (LLMText.newline ++ body ++ LLMText.newline ++ SQLGenerator.fence))
      with (option_map S (PyStr.find0 SQLGenerator.fence
                            (body ++ LLMText.newline ++ SQLGenerator.fence))).
    rewrite (find0_closing_fence body no_fence_inside). reflexivity. }
  rewrite Hfind.
  assert (Hslice : PyStr.slice 3 (3 + S (String.length body + 1)) (LLMText.fenced body)
                   = LLMText.newline ++ body ++ LLMText.newline).
  { unfold PyStr.slice, LLMText.fenced.
    change (PyStr.take (3 + S (String.length body + 1))
              ("```" ++ LLMText.newline ++ body ++ LLMText.newline ++ "```"))
      with ("```" ++ LLMText.newline
            ++ PyStr.take (String.length body + 1) (body ++ LLMText.newline ++ "```")).
    rewrite take_app_length. reflexivity. }
  rewrite Hslice, strip_lines_object. apply strip_backticks_object.
Qed.

End CleanProperties.

(* ================================================================== *)
(** * Properties of the response parser *)
(* ================================================================== *)

Lemma response_text_is_object (sql_query suggestion : string) :
  LLMText.object_text (LLMText.response_text sql_query suggestion).
Proof.
  exists (LLMText.dquote ++ "SQLQuery" ++ LLMText.dquote ++ ": " ++ LLMText.dquote
          ++ sql_query ++ LLMText.dquote ++ ", " ++ LLMText.dquote ++ "Suggestion"
          ++ LLMText.dquote ++ ": " ++ LLMText.dquote ++ suggestion ++ LLMText.dquote).
  unfold LLMText.response_text. repeat rewrite string_app_assoc. reflexivity.
Qed.

Section ParseProperties.

Variable json_loads : string -> option Json.

(** What [_parse_llm_response] returns once the cleaned text is a JSON
    object with the two string fields. *)
Lemma parse_cleaned (response body : string) (members : list (string * Json))
    (sql_query suggestion : string) :
  SQLGenerator._clean_llm_response response = body ->
  json_loads body = Some (JObject members) ->
  dict_get "SQLQuery" members = Some (JString sql_query) ->
  dict_get "Suggestion" members = Some (JString suggestion) ->
  PyStr.truthy (PyStr.strip sql_query) = true ->
  PyStr.truthy (PyStr.strip suggestion) = true ->
  SQLGenerator._parse_llm_response json_loads response
  = (Some (PyStr.strip sql_query), Some (PyStr.strip suggestion)).
Proof.
  intros Hc Hl Hq Hs Htq Hts.
  unfold SQLGenerator._parse_llm_response, SQLGenerator.stripped_field.
  rewrite Hc, Hl, Hq, Hs, Htq, Hts. reflexivity.
Qed.

(** C9 (as the code behaves): for the text of a JSON object that
    [json.loads] reads as an object with string fields SQLQuery and
    Suggestion, both non-empty once trimmed, [_parse_llm_response] returns
    the two fields trimmed of surrounding whitespace; it does so for the
    raw text, and for either fenced wrapping provided the text contains no
    triple backtick. *)
Theorem parse_llm_response_roundtrip (body : string)
    (members : list (string * Json)) (sql_query suggestion : string) :
  LLMText.object_text body ->
  json_loads body = Some (JObject members) ->
  dict_get "SQLQuery" members = Some (JString sql_query) ->
  dict_get "Suggestion" members = Some (JString suggestion) ->
  PyStr.truthy (PyStr.strip sql_query) = true ->
  PyStr.truthy (PyStr.strip suggestion) = true ->
  SQLGenerator._parse_llm_response json_loads body
  = (Some (PyStr.strip sql_query), Some (PyStr.strip suggestion))
  /\
  (PyStr.contains SQLGenerator.fence body = false ->
   SQLGenerator._parse_llm_response json_loads (LLMText.fenced_json body)
   = (Some (PyStr.strip sql_query), Some (PyStr.strip suggestion))
   /\
   SQLGenerator._parse_llm_response json_loads (LLMText.fenced body)
   = (Some (PyStr.strip sql_query), Some (PyStr.strip suggestion))).
Proof.
  intros [inner ->] Hl Hq Hs Htq Hts. split; [| intro Hnf; split].
  - apply (parse_cleaned _ ("{" ++ inner ++ "}") members); try assumption.
    apply clean_raw.
  - apply (parse_cleaned _ ("{" ++ inner ++ "}") members); try assumption.
    apply clean_fenced_json. exact Hnf.
  - apply (parse_cleaned _ ("{" ++ inner ++ "}") members); try assumption.
    apply clean_fenced. exact Hnf.
Qed.

End ParseProperties.

(** A response without padding, raw and in both fences. *)
Lemma parse_llm_response_roundtrip_witness :
  SQLGenerator._parse_llm_response Demo.plain_loads Demo.plain_response
  = (Some "SELECT 1", Some "one")
  /\
  SQLGenerator._parse_llm_response Demo.plain_loads
    (LLMText.fenced_json Demo.plain_response)
  = (Some "SELECT 1", Some "one")
  /\
  SQLGenerator._parse_llm_response Demo.plain_loads
    (LLMText.fenced Demo.plain_response)
  = (Some "SELECT 1", Some "one").
Proof.
  destruct (parse_llm_response_roundtrip Demo.plain_loads Demo.plain_response
              [("SQLQuery", JString "SELECT 1"); ("Suggestion", JString "one")]
              "SELECT 1" "one") as [Hraw Hfenced].
  - apply response_text_is_object.
  - reflexivity.
  - reflexivity.
  - reflexivity.
  - reflexivity.
  - reflexivity.
  - split; [exact Hraw | apply Hfenced; reflexivity].
Defined.

(** A response whose SQLQuery field begins with a space: the parsed
    field has lost it. *)
Lemma padded_field_is_trimmed :
  Demo.padded_loads Demo.padded_response
  = Some (LLMText.response_object " SELECT 1" "one") /\
  SQLGenerator._parse_llm_response Demo.padded_loads Demo.padded_response
  = (Some "SELECT 1", Some "one") /\
  Some "SELECT 1" <> Some " SELECT 1".
Proof.
  split; [reflexivity | split; [reflexivity | discriminate]].
Qed.

Local Open Scope list_scope.

(* ================================================================== *)
(** * Properties of the planner *)
(* ================================================================== *)

(** When the ambiguous-timeframe clarification is emitted: the test reads
    as "recent", or "last" without a year. *)
Lemma recent_clarification_spec (md : Planner.Metadata) (text : string) :
  Planner.emits_recent_clarification md text
  = PyStr.contains "recent" (PyStr.lower text)
    || (PyStr.contains "last" (PyStr.lower text) && negb (Planner.has_year text)).
Proof.
  unfold Planner.emits_recent_clarification, Planner._detect_clarifications.
  cbv zeta. rewrite !existsb_app.
  destruct (existsb _ _ && negb (Planner.has_number text));
    destruct (PyStr.contains "recent" (PyStr.lower text)
              || PyStr.contains "last" (PyStr.lower text)
                 && negb (Planner.has_year text));
    destruct (PyStr.contains "q1" (PyStr.lower text)
              || PyStr.contains "first quarter" (PyStr.lower text));
    destruct (PyStr.contains "account" (PyStr.lower text) && negb _);
    reflexivity.
Qed.

(** C8 (as the code behaves): a question that contains "recent" and an
    explicit year still gets the date_range clarification. *)
Theorem recent_with_year_still_asks (md : Planner.Metadata) :
  PyStr.contains "recent" (PyStr.lower "Show recent transactions from 2024") = true /\
  Planner.has_year "Show recent transactions from 2024" = true /\
  Planner.emits_recent_clarification md "Show recent transactions from 2024" = true.
Proof.
  split; [reflexivity | split; [reflexivity |]].
  rewrite recent_clarification_spec. reflexivity.
Qed.

(* ================================================================== *)
(** * Properties of the generator *)
(* ================================================================== *)

Lemma get_error_context_returns (hint : string) :
  exists ec, SQLValidator.get_error_context (Some hint) = Return ec.
Proof.
  unfold SQLValidator.get_error_context.
  destruct (PyStr.contains "no such table" (PyStr.lower hint)); [eexists; reflexivity |].
  destruct (PyStr.contains "no such column" (PyStr.lower hint)); [eexists; reflexivity |].
  destruct (PyStr.contains "ambiguous" (PyStr.lower hint)); [eexists; reflexivity |].
  destruct (PyStr.contains "syntax error" (PyStr.lower hint)); eexists; reflexivity.
Qed.

(** A prompt built without an error context has no [error_context] entry,
    whatever the question, the tables and the capabilities. *)
Lemma prompt_without_error_context
    (schema_context : Json)
    (reasoning_steps : string -> list string -> list string -> list string)
    (examples : string -> list string -> list Json)
    (critical_requirements analysis_steps output_format requirements : Json)
    (query : string) (tables capabilities : list string) :
  dict_get "error_context"
    (PromptingAgent.prompt_dict schema_context reasoning_steps examples
       critical_requirements analysis_steps output_format requirements
       query tables capabilities None) = None.
Proof. reflexivity. Qed.

Section GeneratorProperties.

Variables W Value : Type.
Variable deps : SQLGenerator.Collaborators W Value.

Lemma monotone_ret {A : Type} (a : A) :
  SQLGenerator.monotone (W := W) (ret a).
Proof. intro st. exists []. simpl. rewrite app_nil_r. reflexivity. Qed.

Lemma monotone_lift {A : Type} (c : M W A) :
  SQLGenerator.monotone (SQLGenerator.lift c).
Proof.
  intro st. exists []. unfold SQLGenerator.lift.
  destruct (c (SQLGenerator.world st)) as [r w']. simpl.
  rewrite app_nil_r. reflexivity.
Qed.

Lemma sent_send (p : string) (t : Z) (st : SQLGenerator.State W) :
  SQLGenerator.sent (snd (SQLGenerator.send deps p t st))
  = SQLGenerator.sent st ++ [p].
Proof.
  unfold SQLGenerator.send.
  destruct (SQLGenerator.generate_text deps p t (SQLGenerator.world st)) as [r w'].
  reflexivity.
Qed.

Lemma monotone_send (p : string) (t : Z) :
  SQLGenerator.monotone (SQLGenerator.send deps p t).
Proof. intro st. exists [p]. apply sent_send. Qed.

Lemma monotone_guarded {A : Type} (l : SQLGenerator.Locals)
    (c : M (SQLGenerator.State W) A)
    (k : A -> M (SQLGenerator.State W) SQLGenerator.Step) :
  SQLGenerator.monotone c -> (forall a, SQLGenerator.monotone (k a)) ->
  SQLGenerator.monotone (SQLGenerator.guarded l c k).
Proof.
  intros Hc Hk st. unfold SQLGenerator.guarded.
  destruct (Hc st) as [m1 H1].
  destruct (c st) as [[a|e] st1]; simpl in H1.
  - destruct (Hk a st1) as [m2 H2]. exists (m1 ++ m2).
    rewrite H2, H1, app_assoc. reflexivity.
  - exists m1. exact H1.
Qed.

Lemma monotone_bind {A B : Type} (c : M (SQLGenerator.State W) A)
    (k : A -> M (SQLGenerator.State W) B) :
  SQLGenerator.monotone c -> (forall a, SQLGenerator.monotone (k a)) ->
  SQLGenerator.monotone (bind c k).
Proof.
  intros Hc Hk st. unfold bind.
  destruct (Hc st) as [m1 H1].
  destruct (c st) as [[a|e] st1]; simpl in H1.
  - destruct (Hk a st1) as [m2 H2]. exists (m1 ++ m2).
    rewrite H2, H1, app_assoc. reflexivity.
  - exists m1. exact H1.
Qed.

Lemma monotone_test_sql_execution (sql : string) :
  SQLGenerator.monotone (SQLGenerator._test_sql_execution deps sql).
Proof.
  intro st. unfold SQLGenerator._test_sql_execution.
  destruct (monotone_lift (SQLGenerator.run_query deps sql (Some 1%Z) None) st)
    as [m H].
  destruct (SQLGenerator.lift _ st) as [[r|e] st']; exists m; exact H.
Qed.

Lemma monotone_error_correction (query original_sql : string)
    (error_msg : option string) (attempt : Z) :
  SQLGenerator.monotone
    (SQLGenerator._try_llm_error_correction deps query original_sql error_msg attempt).
Proof.
  intro st. unfold SQLGenerator._try_llm_error_correction.
  destruct (SQLGenerator.build_error_correction_prompt deps query original_sql
              error_msg attempt) as [p|e].
  - pose proof (sent_send p attempt st) as H.
    destruct (SQLGenerator.send deps p attempt st) as [[[response|]|e] st'];
      simpl in H.
    + exists [p].
      destruct (SQLGenerator._parse_llm_response _ _) as [[corrected|] sug]; exact H.
    + exists [p]. exact H.
    + exists [p]. exact H.
  - exists []. simpl. rewrite app_nil_r. reflexivity.
Qed.

Lemma monotone_ask_llm (attempts_left : Z) (l : SQLGenerator.Locals) :
  SQLGenerator.monotone (SQLGenerator.ask_llm deps attempts_left l).
Proof.
  unfold SQLGenerator.ask_llm.
  destruct (SQLGenerator.prompt l) as [p|]; [| apply monotone_ret].
  apply monotone_guarded; [apply monotone_send |].
  intros [response|]; [| apply monotone_ret].
  destruct (SQLGenerator._parse_llm_response _ _) as [[sql|] [suggestion|]];
    try apply monotone_ret.
  apply monotone_guarded; [apply monotone_lift |].
  intros [[|] error_msg]; [| apply monotone_ret].
  apply monotone_guarded; [apply monotone_test_sql_execution |].
  intro exec_result. destruct (Executor.success exec_result); apply monotone_ret.
Qed.

Lemma monotone_iteration (query : string) (context : SQLGenerator.GenContext)
    (attempts_left : Z) (l : SQLGenerator.Locals) :
  SQLGenerator.monotone (SQLGenerator.iteration deps query context attempts_left l).
Proof.
  unfold SQLGenerator.iteration.
  destruct (SQLGenerator.attempt_number l =? 1)%Z.
  - destruct (SQLGenerator.build_prompt deps _ _ _ _) as [p|e];
      [apply monotone_ask_llm | apply monotone_ret].
  - destruct (SQLGenerator.current_sql l) as [cs|]; [| apply monotone_ask_llm].
    destruct (PyStr.truthy cs); [| apply monotone_ask_llm].
    apply monotone_guarded; [apply monotone_error_correction |].
    intros [[[|] corrected] suggestion]; [| apply monotone_ask_llm].
    apply monotone_guarded; [apply monotone_lift |].
    intros [[|] error_msg]; apply monotone_ret.
Qed.

Lemma monotone_attempts (query : string) (context : SQLGenerator.GenContext)
    (n : nat) :
  forall l, SQLGenerator.monotone (SQLGenerator.attempts deps query context n l).
Proof.
  induction n as [|n IH]; intro l.
  - apply monotone_ret.
  - change (SQLGenerator.attempts deps query context (S n) l)
      with (bind (SQLGenerator.iteration deps query context (Z.of_nat (S n)) l)
              (fun step =>
                 match step with
                 | SQLGenerator.Returned r => ret (inr r)
                 | SQLGenerator.Continue l' =>
                     SQLGenerator.attempts deps query context n l'
                 end)).
    apply monotone_bind; [apply monotone_iteration |].
    intros [r|l']; [apply monotone_ret | apply IH].
Qed.

Lemma first_sends_bind {A B : Type} (p : string)
    (c : M (SQLGenerator.State W) A) (k : A -> M (SQLGenerator.State W) B) :
  SQLGenerator.first_sends p c -> (forall a, SQLGenerator.monotone (k a)) ->
  SQLGenerator.first_sends p (bind c k).
Proof.
  intros Hc Hk st. unfold bind.
  destruct (Hc st) as [m1 H1].
  destruct (c st) as [[a|e] st1]; simpl in H1.
  - destruct (Hk a st1) as [m2 H2]. exists (m1 ++ m2).
    rewrite H2, H1, <- app_assoc. reflexivity.
  - exists m1. exact H1.
Qed.

Lemma first_sends_guarded_send (p : string) (t : Z) (l : SQLGenerator.Locals)
    (k : option string -> M (SQLGenerator.State W) SQLGenerator.Step) :
  (forall a, SQLGenerator.monotone (k a)) ->
  SQLGenerator.first_sends p (SQLGenerator.guarded l (SQLGenerator.send deps p t) k).
Proof.
  intros Hk st. unfold SQLGenerator.guarded.
  pose proof (sent_send p t st) as H1.
  destruct (SQLGenerator.send deps p t st) as [[a|e] st1]; simpl in H1.
  - destruct (Hk a st1) as [m2 H2]. exists m2.
    rewrite H2, H1, <- app_assoc. reflexivity.
  - exists []. exact H1.
Qed.

(** The first iteration of a generation sends the prompt built from the
    initial locals, whose error context is [None]. *)
Lemma first_sends_try_llm_generation (query : string)
    (context : SQLGenerator.GenContext) (n : nat) (p : string) :
  SQLGenerator.build_prompt deps query (SQLGenerator.detected_tables context)
    (SQLGenerator.detected_capabilities context) None = Return p ->
  SQLGenerator.first_sends p
    (SQLGenerator._try_llm_generation deps query context (Z.of_nat (S n))).
Proof.
  intro Hp. unfold SQLGenerator._try_llm_generation.
  rewrite Nat2Z.id.
  apply first_sends_bind.
  - change (SQLGenerator.attempts deps query context (S n)
              {| SQLGenerator.attempt_number := 1; SQLGenerator.current_sql := None;
                 SQLGenerator.error_context := None; SQLGenerator.prompt := None |})
      with (bind (SQLGenerator.iteration deps query context (Z.of_nat (S n))
                    {| SQLGenerator.attempt_number := 1;
                       SQLGenerator.current_sql := None;
                       SQLGenerator.error_context := None;
                       SQLGenerator.prompt := None |})
              (fun step =>
                 match step with
                 | SQLGenerator.Returned r => ret (inr r)
                 | SQLGenerator.Continue l' =>
                     SQLGenerator.attempts deps query context n l'
                 end)).
    apply first_sends_bind.
    + unfold SQLGenerator.iteration.
      cbn [SQLGenerator.attempt_number SQLGenerator.error_context Z.eqb Pos.eqb].
      rewrite Hp. unfold SQLGenerator.ask_llm. cbn [SQLGenerator.prompt].
      apply first_sends_guarded_send.
      intros [response|]; [| apply monotone_ret].
      destruct (SQLGenerator._parse_llm_response _ _) as [[sql|] [suggestion|]];
        try apply monotone_ret.
      apply monotone_guarded; [apply monotone_lift |].
      intros [[|] error_msg]; [| apply monotone_ret].
      apply monotone_guarded; [apply monotone_test_sql_execution |].
      intro exec_result. destruct (Executor.success exec_result); apply monotone_ret.
    + intros [r|l']; [apply monotone_ret | apply monotone_attempts].
  - intros [l|g]; [| apply monotone_ret].
    destruct (SQLGenerator.current_sql l) as [cs|]; [| apply monotone_ret].
    destruct (SQLGenerator.error_context l) as [ec|]; [| apply monotone_ret].
    destruct (PyStr.truthy cs && PyStr.truthy ec); [| apply monotone_ret].
    destruct (negb _); [| apply monotone_ret].
    intro st.
    destruct (monotone_lift (SQLGenerator.validate_sql deps
                 (SQLGenerator._exclude_problematic_columns deps cs ec)) st) as [m H].
    destruct (SQLGenerator.lift _ st) as [[[[|] msg]|e] st']; exists m; exact H.
Qed.

End GeneratorProperties.

(** C3 (as the code behaves): whatever the error hint, the first prompt
    that [repair_sql] sends to the LLM is the prompt of a first generation,
    built with no error context: it is the same text for every hint, and
    its document has no [error_context] entry, hence neither the previous
    SQL, nor the error message, nor the correction checklist. *)
Theorem repair_sends_plain_prompt (W Value : Type)
    (deps : SQLGenerator.Collaborators W Value)
    (schema_context : Json)
    (reasoning_steps : string -> list string -> list string -> list string)
    (examples : string -> list string -> list Json)
    (critical_requirements analysis_steps output_format requirements : Json)
    (json_dumps : Json -> string)
    (query : string) (context : SQLGenerator.GenContext) (hint : string)
    (st : SQLGenerator.State W) :
  SQLGenerator.build_prompt deps
  = PromptingAgent.build_prompt true schema_context reasoning_steps examples
      critical_requirements analysis_steps output_format requirements json_dumps ->
  (exists more,
      SQLGenerator.sent
        (snd (SQLGenerator.repair_sql deps query context (Some hint) st))
      = SQLGenerator.sent st
        ++ json_dumps
             (JObject
                (PromptingAgent.prompt_dict schema_context reasoning_steps examples
                   critical_requirements analysis_steps output_format requirements
                   query (SQLGenerator.detected_tables context)
                   (SQLGenerator.detected_capabilities context) None))
           :: more)
  /\
  dict_get "error_context"
    (PromptingAgent.prompt_dict schema_context reasoning_steps examples
       critical_requirements analysis_steps output_format requirements
       query (SQLGenerator.detected_tables context)
       (SQLGenerator.detected_capabilities context) None) = None.
Proof.
  intro Hb. split; [| reflexivity].
  unfold SQLGenerator.repair_sql.
  destruct (get_error_context_returns hint) as [ec Hec]. rewrite Hec.
  destruct (first_sends_try_llm_generation W Value deps query context 1
              (json_dumps
                 (JObject
                    (PromptingAgent.prompt_dict schema_context reasoning_steps
                       examples critical_requirements analysis_steps output_format
                       requirements query (SQLGenerator.detected_tables context)
                       (SQLGenerator.detected_capabilities context) None))))
    with (st := st) as [more Hmore].
  - rewrite Hb. reflexivity.
  - exists more. change (Z.of_nat 2) with 2%Z in Hmore.
    destruct (SQLGenerator._try_llm_generation deps query context 2 st)
      as [[[[[|] sql] suggestion]|e] st']; exact Hmore.
Qed.

(** A repair after a missing-column error, with an LLM that does not
    answer: the first prompt sent is the plain prompt, whose keys do not
    include [error_context]. *)
Lemma repair_sends_plain_prompt_witness :
  exists more,
    SQLGenerator.sent
      (snd (SQLGenerator.repair_sql Demo.silent_generator "List customers"
              {| SQLGenerator.detected_tables := ["customers"];
                 SQLGenerator.detected_capabilities := [] |}
              (Some "no such column: full_name")
              {| SQLGenerator.world := tt; SQLGenerator.sent := [] |}))
    = "critical_requirements,analysis_steps,task,schema_context,reasoning,examples,requirements"
      :: more.
Proof.
  exact (proj1 (repair_sends_plain_prompt unit Z Demo.silent_generator
                  JNull (fun _ _ _ => []) (fun _ _ => []) JNull JNull JNull JNull
                  Demo.render_keys "List customers"
                  {| SQLGenerator.detected_tables := ["customers"];
                     SQLGenerator.detected_capabilities := [] |}
                  "no such column: full_name"
                  {| SQLGenerator.world := tt; SQLGenerator.sent := [] |}
                  eq_refl)).
Defined.

(* ================================================================== *)
(** * Further properties of the validator *)
(* ================================================================== *)

Lemma In_mem (x : string) (xs : list string) :
  PyStr.mem x xs = true -> In x xs.
Proof.
  unfold PyStr.mem. intro H. apply existsb_exists in H.
  destruct H as (y & Hy & Heq). apply String.eqb_eq in Heq. subst. exact Hy.
Qed.

Section ValidatorFurther.

Variable parse : string -> list Validator.Statement.
Variable schema : list (string * list string).

(** What [validate] returns for a text that passes its two checks. *)
Lemma validate_accepts (sql : string) (stmt : Validator.Statement)
    (rest : list Validator.Statement) (first : string) (toks : list string) :
  parse sql = stmt :: rest ->
  Validator.significant_tokens stmt = first :: toks ->
  PyStr.contains "SELECT" first = true ->
  (forall word, In word Validator.forbidden -> ~ In word (first :: toks)) ->
  Validator.validate parse schema sql
  = Return {| Validator.is_valid := true;
              Validator.error := None;
              Validator.warning :=
                match Validator.tables_found schema sql with
                | [] => Some "No known tables referenced"
                | _ => None
                end;
              Validator.tables_used := Some (Validator.tables_found schema sql) |}.
Proof.
  intros Hp Ht Hc Hno. unfold Validator.validate. rewrite Hp, Ht. cbv zeta.
  rewrite Hc. cbn [negb].
  destruct (find (fun w => PyStr.mem w (first :: toks)) Validator.forbidden)
    as [w|] eqn:Hfind.
  - exfalso. apply find_some in Hfind. destruct Hfind as [Hin Hmem].
    apply (Hno w Hin). apply In_mem. exact Hmem.
  - destruct (Validator.tables_found schema sql); reflexivity.
Qed.

(** X1: [validate] returns a valid result exactly for the texts whose
    first parsed statement begins with a token that contains SELECT and
    has none of the five forbidden words among its significant tokens;
    the statements after the first play no part. *)
Theorem validate_valid_iff (sql : string) :
  (exists r, Validator.validate parse schema sql = Return r /\
             Validator.is_valid r = true)
  <->
  (exists stmt rest first toks,
      parse sql = stmt :: rest /\
      Validator.significant_tokens stmt = first :: toks /\
      PyStr.contains "SELECT" first = true /\
      forall word, In word Validator.forbidden -> ~ In word (first :: toks)).
Proof.
  split.
  - intros (r & Hv & Hok). exact (validate_accepts_inv parse schema sql r Hv Hok).
  - intros (stmt & rest & first & toks & Hp & Ht & Hc & Hno).
    eexists. split.
    + apply (validate_accepts sql stmt rest first toks Hp Ht Hc Hno).
    + reflexivity.
Qed.

(** X2: in a result of [validate] that has a [tables_used] entry, the
    result is valid, every table listed is a table of the schema whose
    name, in upper case, occurs in the text in upper case, and the list is
    empty exactly when the warning is present. *)
Theorem validate_tables_used (sql : string) (r : Validator.ValidationResult)
    (used : list string) :
  Validator.validate parse schema sql = Return r ->
  Validator.tables_used r = Some used ->
  Validator.is_valid r = true /\
  (forall table, In table used ->
     In table (map fst schema) /\
     PyStr.contains (PyStr.upper table) (PyStr.upper sql) = true) /\
  (used = [] <-> Validator.warning r = Some "No known tables referenced").
Proof.
  intros Hv Hu. unfold Validator.validate in Hv.
  destruct (parse sql) as [|stmt rest]; [inversion Hv; subst; discriminate Hu |].
  destruct (Validator.significant_tokens stmt) as [|first toks];
    [discriminate Hv |].
  cbv zeta in Hv.
  destruct (negb (PyStr.contains "SELECT" first));
    [inversion Hv; subst; discriminate Hu |].
  destruct (find _ Validator.forbidden);
    [inversion Hv; subst; discriminate Hu |].
  assert (Hsound : forall table, In table (Validator.tables_found schema sql) ->
            In table (map fst schema) /\
            PyStr.contains (PyStr.upper table) (PyStr.upper sql) = true).
  { intros table Hin. unfold Validator.tables_found in Hin.
    apply filter_In in Hin. exact Hin. }
  destruct (Validator.tables_found schema sql) as [|t ts] eqn:Hf;
    inversion Hv; subst; simpl in Hu; inversion Hu; subst.
  - split; [reflexivity |]. split; [intros table [] |].
    split; reflexivity.
  - split; [reflexivity |]. split; [exact Hsound |].
    split; intro H; discriminate H.
Qed.

(** X3: when the first statement of the parse has no token other than
    whitespace, [validate] does not return a verdict: reading the first
    significant token raises [IndexError]. *)
Theorem validate_index_error (sql : string) (stmt : Validator.Statement)
    (rest : list Validator.Statement) :
  parse sql = stmt :: rest ->
  Validator.significant_tokens stmt = [] ->
  Validator.validate parse schema sql = Raise IndexError.
Proof.
  intros Hp Ht. unfold Validator.validate. rewrite Hp, Ht. reflexivity.
Qed.

End ValidatorFurther.

(** [SELECT * FROM customers] on the banking schema. *)
Lemma validate_tables_used_witness :
  Validator.is_valid
    {| Validator.is_valid := true; Validator.error := None;
       Validator.warning := None; Validator.tables_used := Some ["customers"] |}
  = true /\
  (forall table, In table ["customers"] ->
     In table (map fst Demo.bank_schema) /\
     PyStr.contains (PyStr.upper table) (PyStr.upper "SELECT * FROM customers") = true) /\
  (["customers"] = [] <->
   Validator.warning
     {| Validator.is_valid := true; Validator.error := None;
        Validator.warning := None; Validator.tables_used := Some ["customers"] |}
   = Some "No known tables referenced").
Proof.
  apply (validate_tables_used FlatSql.parse Demo.bank_schema "SELECT * FROM customers");
    reflexivity.
Defined.

(** Three spaces, on a parser that keeps the whitespace statement. *)
Lemma validate_index_error_witness :
  Validator.validate Demo.whitespace_statement_parse Demo.bank_schema "   "
  = Raise IndexError.
Proof.
  eapply (validate_index_error Demo.whitespace_statement_parse Demo.bank_schema "   ");
    reflexivity.
Defined.

(* ================================================================== *)
(** * Further properties of the executor *)
(* ================================================================== *)

Section ExecutorFurther.

Variables Value Db : Type.
Variable json_type_error : Value -> option string.
Variable sqlite_execute : string -> Db -> (string + list (Executor.Row Value)) * Db.
Variable fetchmany :
  list (Executor.Row Value) -> Z -> outcome (list (Executor.Row Value)).

(** X4: past the validation gate, an error of the database engine comes
    back as [success] false with the engine's message unchanged, and the
    statement has been sent to the database once. *)
Theorem run_query_engine_error (sql : string) (limit : option Z)
    (vc : option (list (string * Json))) (s : Executor.Session Db)
    (e : string) (db' : Db) :
  (forall d, vc = Some d ->
     d = [] \/ exists v, dict_get "is_valid" d = Some v /\ py_truthy v = true) ->
  sqlite_execute sql (Executor.db s) = (inl e, db') ->
  Executor.run_query json_type_error sqlite_execute fetchmany sql limit vc s
  = (Return {| Executor.success := false; Executor.results := None;
               Executor.message := None; Executor.exec_error := Some e |},
     {| Executor.db := db'; Executor.executed := Executor.executed s ++ [sql] |}).
Proof.
  intros Hopen Hexec.
  assert (Hg : Executor.gate_closed vc = false).
  { destruct (Executor.gate_closed vc) eqn:Hg; [| reflexivity].
    apply gate_closed_spec in Hg. destruct Hg as (d & -> & Hne & Hv).
    destruct (Hopen d eq_refl) as [-> | (v & Hget & Ht)]; [contradiction |].
    rewrite (Hv v Hget) in Ht. discriminate. }
  unfold Executor.run_query, LoggerConfig.log_agent_flow, Executor.run_query_body.
  rewrite Hg, Hexec. reflexivity.
Qed.

Hypothesis fetchmany_positive :
  forall cursor size,
    (0 < size < 2147483648)%Z ->
    fetchmany cursor size = Return (firstn (Z.to_nat size) cursor).

(** X5: past the validation gate, for a limit from one up to the largest
    C [int] and rows that [json.dumps] accepts, a statement that the
    engine runs always gives [success] true, with as many rows as the
    result set has up to the limit; the message [No results found] is
    there exactly when the result set is empty. *)
Theorem run_query_row_count (sql : string) (limit : Z)
    (vc : option (list (string * Json))) (s : Executor.Session Db)
    (cursor : list (Executor.Row Value)) (db' : Db) :
  (0 < limit < 2147483648)%Z ->
  (forall d, vc = Some d ->
     d = [] \/ exists v, dict_get "is_valid" d = Some v /\ py_truthy v = true) ->
  sqlite_execute sql (Executor.db s) = (inr cursor, db') ->
  (forall row, In row (firstn (Z.to_nat limit) cursor) ->
     forall kv, In kv row -> json_type_error (snd kv) = None) ->
  exists r rows,
    fst (Executor.run_query json_type_error sqlite_execute fetchmany sql
           (Some limit) vc s) = Return r /\
    Executor.success r = true /\
    Executor.results r = Some rows /\
    List.length rows = Nat.min (Z.to_nat limit) (List.length cursor) /\
    (Executor.message r = Some "No results found" <-> cursor = []) /\
    Executor.exec_error r = None.
Proof.
  intros Hlim Hopen Hexec Hser.
  assert (Hg : Executor.gate_closed vc = false).
  { destruct (Executor.gate_closed vc) eqn:Hg; [| reflexivity].
    apply gate_closed_spec in Hg. destruct Hg as (d & -> & Hne & Hv).
    destruct (Hopen d eq_refl) as [-> | (v & Hget & Ht)]; [contradiction |].
    rewrite (Hv v Hget) in Ht. discriminate. }
  rewrite (run_query_fetches Value Db json_type_error sqlite_execute fetchmany
             fetchmany_positive sql limit vc s cursor db' Hlim Hg Hexec Hser).
  assert (Hlen : List.length (map (Executor.dict_of_row Value)
                                (firstn (Z.to_nat limit) cursor))
                 = Nat.min (Z.to_nat limit) (List.length cursor)).
  { rewrite length_map, length_firstn. reflexivity. }
  destruct (map (Executor.dict_of_row Value) (firstn (Z.to_nat limit) cursor))
    as [|row rows] eqn:Hrows.
  - eexists _, []. split; [reflexivity |]. cbn.
    repeat split; try reflexivity; try exact Hlen.
    intros _. simpl in Hlen. destruct cursor as [|c cursor]; [reflexivity |].
    simpl in Hlen. lia.
  - eexists _, (row :: rows). split; [reflexivity |]. cbn.
    repeat split; try reflexivity; try exact Hlen.
    + intro H. discriminate H.
    + intro H. subst cursor. rewrite firstn_nil in Hrows. discriminate Hrows.
Qed.

End ExecutorFurther.

(** A failing database. *)
Lemma run_query_engine_error_witness :
  Executor.run_query Demo.integer_type_error Demo.sqlite_fail Demo.fetchmany
    "SELECT * FROM customer" (Some 5%Z) None
    {| Executor.db := tt; Executor.executed := [] |}
  = (Return {| Executor.success := false; Executor.results := None;
               Executor.message := None;
               Executor.exec_error := Some "no such table: customer" |},
     {| Executor.db := tt; Executor.executed := ["SELECT * FROM customer"] |}).
Proof.
  apply (run_query_engine_error Z unit Demo.integer_type_error Demo.sqlite_fail
           Demo.fetchmany "SELECT * FROM customer" (Some 5%Z) None
           {| Executor.db := tt; Executor.executed := [] |}
           "no such table: customer" tt).
  - intros d Hd. discriminate Hd.
  - reflexivity.
Defined.

(** Three rows, a limit of five. *)
Lemma run_query_row_count_witness :
  exists r rows,
    fst (Demo.run_query 3 "SELECT id FROM customers" (Some 5%Z) None
           {| Executor.db := tt; Executor.executed := [] |}) = Return r /\
    Executor.results r = Some rows /\
    List.length rows = 3.
Proof.
  destruct (run_query_row_count Z unit Demo.integer_type_error (Demo.sqlite_execute 3)
              Demo.fetchmany) with (sql := "SELECT id FROM customers") (limit := 5%Z)
              (vc := @None (list (string * Json)))
              (s := {| Executor.db := tt; Executor.executed := @nil string |})
              (cursor := Demo.rows 3) (db' := tt)
    as (r & rows & Hr & _ & Hres & Hlen & _).
  - intros c size Hsize. unfold Demo.fetchmany.
    replace ((size <? -2147483648)%Z || (2147483647 <? size)%Z) with false
      by (symmetry; apply orb_false_iff; split; [apply Z.ltb_ge | apply Z.ltb_ge]; lia).
    replace (size <=? 0)%Z with false by (symmetry; apply Z.leb_gt; lia).
    reflexivity.
  - lia.
  - intros d Hd. discriminate Hd.
  - reflexivity.
  - intros row _ kv _. reflexivity.
  - exists r, rows. split; [exact Hr |]. split; [exact Hres | exact Hlen].
Defined.

(* ================================================================== *)
(** * Further properties of the pipeline *)
(* ================================================================== *)

Lemma error_or_default_nonempty (last_error : option string) :
  Pipeline.error_or_default last_error <> "".
Proof.
  unfold Pipeline.error_or_default.
  destruct last_error as [[|c e]|]; simpl; discriminate.
Qed.

Lemma executed_sql_cons_other (ev : Pipeline.Event) (tr : list Pipeline.Event) :
  (forall q l c, ev <> Pipeline.EvExecute q l c) ->
  Pipeline.executed_sql (ev :: tr) = Pipeline.executed_sql tr.
Proof.
  intro H. destruct ev; try reflexivity. exfalso. exact (H _ _ _ eq_refl).
Qed.

Section PipelineFurther.

Variables W Value Bundle Summary Clarified : Type.
Variable agents : Pipeline.Agents W Value Bundle Summary Clarified.
Variable cfg : Pipeline.PipelineConfig.

(** The number of failures that the diagnostics record. *)
Local Abbreviation failures d :=
  (Z.of_nat (List.length (Pipeline.validator_fail_reasons d)
             + List.length (Pipeline.executor_errors d))).

(** The bookkeeping of the loop: [attempts] counts the failures recorded
    so far, [final_sql] is set on success only, and each iteration adds
    one validation, at most one executor call and, unless it is the last,
    one repair. *)
Lemma loop_bookkeeping (nl_query : string) (plan : Pipeline.Plan)
    (gen_ctx : Pipeline.GenCtx Bundle Clarified) (fuel : nat) :
  forall attempts last_error sql diag st r st',
    Pipeline.loop agents cfg nl_query plan gen_ctx fuel attempts last_error sql diag st
    = (r, st') ->
    attempts = failures diag ->
    Pipeline.retries diag = attempts ->
    Pipeline.final_sql diag = None ->
    exists new,
      Pipeline.trace st' = Pipeline.trace st ++ new /\
      match r with
      | Return (Pipeline.Done out) =>
          Pipeline.success out = true /\
          Pipeline.error out = None /\
          Pipeline.summary out <> None /\
          Pipeline.final_sql (Pipeline.diagnostics out) = Some (Pipeline.sql out) /\
          Pipeline.retries (Pipeline.diagnostics out)
          = failures (Pipeline.diagnostics out) /\
          Pipeline.count Pipeline.is_validate new
          = (Pipeline.retries (Pipeline.diagnostics out) - attempts + 1)%Z /\
          Pipeline.count Pipeline.is_repair new
          = (Pipeline.retries (Pipeline.diagnostics out) - attempts)%Z /\
          In (Pipeline.sql out) (Pipeline.executed_sql new)
      | Return (Pipeline.Broke _ _ d) =>
          Pipeline.final_sql d = None /\
          Pipeline.retries d = failures d
      | _ => True
      end.
Proof.
  induction fuel as [|fuel IH]; intros attempts last_error sql diag st r st' H Ha Hr Hf.
  - simpl in H. destruct (attempts <=? Pipeline.max_retries cfg)%Z;
      inversion H; subst; exists []; rewrite app_nil_r;
      (split; [reflexivity | try exact I; try (split; assumption)]).
  - simpl in H. destruct (attempts <=? Pipeline.max_retries cfg)%Z.
    2:{ inversion H; subst. exists []. rewrite app_nil_r.
        split; [reflexivity | split; assumption]. }
    unfold bind at 1 in H. unfold Pipeline.call at 1 in H.
    destruct (Pipeline.validate agents sql (Pipeline.world st)) as [[vr|e] w1].
    2:{ inversion H; subst. exists [Pipeline.EvValidate sql]. split; [reflexivity | exact I]. }
    destruct (Validator.is_valid vr); cbn [negb] in H.
    + unfold bind at 1 in H. unfold Pipeline.call at 1 in H.
      cbn [Pipeline.world Pipeline.trace] in H.
      destruct (Pipeline.run_query agents sql (Some (Pipeline.sql_row_limit cfg))
                  (Some vr) w1) as [[er|e] w2].
      2:{ inversion H; subst. eexists [_; _]. cbn [Pipeline.trace].
          rewrite <- app_assoc. split; [reflexivity | exact I]. }
      destruct (Executor.success er).
      * unfold bind at 1 in H. unfold Pipeline.call at 1 in H.
        cbn [Pipeline.world Pipeline.trace] in H.
        exists [Pipeline.EvValidate sql;
                Pipeline.EvExecute sql (Pipeline.sql_row_limit cfg) vr;
                Pipeline.EvSummarize].
        destruct (Pipeline.summarize agents nl_query er w2) as [[out|e] w3];
          inversion H; subst; cbn [Pipeline.trace]; rewrite <- !app_assoc;
          (split; [reflexivity |]); [| exact I].
        cbn. repeat split; try reflexivity; try discriminate; try count_events.
        left. reflexivity.
      * cbv zeta in H.
        destruct (attempts + 1 >? Pipeline.max_retries cfg)%Z.
        -- inversion H; subst. eexists [_; _]. cbn [Pipeline.trace].
           rewrite <- app_assoc. split; [reflexivity |].
           cbn. split; [exact Hf |]. rewrite length_app. cbn. lia.
        -- unfold bind at 1 in H. unfold Pipeline.call at 1 in H.
           cbn [Pipeline.world Pipeline.trace] in H.
           match type of H with context [Pipeline.repair_sql agents ?a ?b ?c ?d] =>
             destruct (Pipeline.repair_sql agents a b c d) as [[sql'|e] w3] end.
           2:{ inversion H; subst. eexists [_; _; _]. cbn [Pipeline.trace].
               rewrite <- !app_assoc. split; [reflexivity | exact I]. }
           apply IH in H.
           ++ destruct H as (new & Htr & Hres). cbn [Pipeline.trace] in Htr.
              eexists (Pipeline.EvValidate sql
                       :: Pipeline.EvExecute sql (Pipeline.sql_row_limit cfg) vr
                       :: Pipeline.EvRepair _ :: new).
              split; [rewrite Htr, <- !app_assoc; reflexivity |].
              destruct r as [[out| ? ? d |]|e]; try exact Hres.
              destruct Hres as (H1 & H2 & H3 & H4 & H5 & H6 & H7 & H8).
              repeat split; try assumption; try count_events.
              cbn. right. exact H8.
           ++ cbn. rewrite length_app. cbn. lia.
           ++ reflexivity.
           ++ exact Hf.
    + cbv zeta in H.
      destruct (attempts + 1 >? Pipeline.max_retries cfg)%Z.
      * inversion H; subst. exists [Pipeline.EvValidate sql].
        split; [reflexivity |].
        cbn. split; [exact Hf |]. rewrite length_app. cbn. lia.
      * unfold bind at 1 in H. unfold Pipeline.call at 1 in H.
        cbn [Pipeline.world Pipeline.trace] in H.
        match type of H with context [Pipeline.repair_sql agents ?a ?b ?c ?d] =>
          destruct (Pipeline.repair_sql agents a b c d) as [[sql'|e] w3] end.
        2:{ inversion H; subst. eexists [_; _]. cbn [Pipeline.trace].
            rewrite <- !app_assoc. split; [reflexivity | exact I]. }
        apply IH in H.
        -- destruct H as (new & Htr & Hres). cbn [Pipeline.trace] in Htr.
           eexists (Pipeline.EvValidate sql :: Pipeline.EvRepair _ :: new).
           split; [rewrite Htr, <- !app_assoc; reflexivity |].
           destruct r as [[out| ? ? d |]|e]; try exact Hres.
           destruct Hres as (H1 & H2 & H3 & H4 & H5 & H6 & H7 & H8).
           repeat split; try assumption; try count_events.
        -- cbn. rewrite length_app. cbn. lia.
        -- reflexivity.
        -- exact Hf.
Qed.

Variable schema_tables : list (string * list string).

Lemma run_bookkeeping (nl : string) (clarified : option Clarified)
    (st st' : Pipeline.State W)
    (r : outcome (option (Pipeline.PipelineResult Value Summary))) :
  Pipeline.run agents schema_tables cfg nl clarified st = (r, st') ->
  exists new,
    Pipeline.trace st' = Pipeline.trace st ++ new /\
    match r with
    | Return (Some res) =>
        Pipeline.retries (Pipeline.diagnostics res)
        = failures (Pipeline.diagnostics res) /\
        (Pipeline.success res = true ->
         Pipeline.error res = None /\
         Pipeline.summary res <> None /\
         Pipeline.final_sql (Pipeline.diagnostics res) = Some (Pipeline.sql res) /\
         Pipeline.count Pipeline.is_validate new
         = (Pipeline.retries (Pipeline.diagnostics res) + 1)%Z /\
         Pipeline.count Pipeline.is_repair new
         = Pipeline.retries (Pipeline.diagnostics res) /\
         In (Pipeline.sql res) (Pipeline.executed_sql new)) /\
        (Pipeline.success res = false ->
         (exists e, Pipeline.error res = Some e /\ e <> "") /\
         Pipeline.summary res = None /\
         Pipeline.final_sql (Pipeline.diagnostics res) = None /\
         Pipeline.table res = [])
    | _ => True
    end.
Proof.
  intro H. unfold Pipeline.run in H.
  unfold bind at 1 in H. unfold Pipeline.call at 1 in H.
  destruct (Pipeline.analyze_query agents nl (Pipeline.world st)) as [[plan|e] w1].
  2:{ inversion H; subst. eexists [_]. split; [reflexivity | exact I]. }
  cbv zeta in H.
  unfold bind at 1 in H. unfold Pipeline.call at 1 in H.
  cbn [Pipeline.world Pipeline.trace] in H.
  match type of H with context [Pipeline.fetch_schema_context agents ?q ?w] =>
    destruct (Pipeline.fetch_schema_context agents q w) as [[bundle|e] w2] end.
  2:{ inversion H; subst. eexists [_; _]. cbn [Pipeline.trace].
      rewrite <- !app_assoc. split; [reflexivity | exact I]. }
  unfold bind at 1 in H. unfold Pipeline.call at 1 in H.
  cbn [Pipeline.world Pipeline.trace] in H.
  match type of H with context [Pipeline.generate agents ?a ?b ?c ?d ?w] =>
    destruct (Pipeline.generate agents a b c d w) as [[sql0|e] w3] end.
  2:{ inversion H; subst. eexists [_; _; _]. cbn [Pipeline.trace].
      rewrite <- !app_assoc. split; [reflexivity | exact I]. }
  unfold bind at 1 in H.
  match type of H with context [Pipeline.loop ?a ?c ?n ?p ?g ?f ?at0 ?le ?s ?d ?st0] =>
    destruct (Pipeline.loop a c n p g f at0 le s d st0) as [lr st1] eqn:Hloop end.
  apply loop_bookkeeping in Hloop; try reflexivity.
  destruct Hloop as (new & Htr & Hres). cbn [Pipeline.trace] in Htr.
  eexists (Pipeline.EvPlan nl :: Pipeline.EvRetrieve _ :: Pipeline.EvGenerate nl :: new).
  assert (Hst : Pipeline.trace st' = Pipeline.trace st1).
  { destruct lr as [[out| sqlb le d |]|e]; inversion H; subst; reflexivity. }
  split; [rewrite Hst, Htr, <- !app_assoc; reflexivity |].
  destruct lr as [[out| sqlb le d |]|e]; inversion H; subst; try exact I.
  - destruct Hres as (H1 & H2 & H3 & H4 & H5 & H6 & H7 & H8).
    split; [exact H5 |]. split.
    + intros _. repeat split; try assumption.
      * rewrite !count_cons. cbn [Pipeline.is_validate]. rewrite H6. lia.
      * rewrite !count_cons. cbn [Pipeline.is_repair]. rewrite H7. lia.
    + intro Hs. rewrite H1 in Hs. discriminate Hs.
  - destruct Hres as [Hf Hr]. cbn. split; [exact Hr |]. split.
    + intro Hs. discriminate Hs.
    + intros _. repeat split; try assumption.
      eexists. split; [reflexivity | apply error_or_default_nonempty].
Qed.

(** X6: in every result that [run] returns, [retries] is the number of
    failures recorded in the diagnostics: the validator's reasons plus the
    executor's errors. *)
Theorem run_retries_count_failures (nl : string) (clarified : option Clarified)
    (st : Pipeline.State W) :
  match fst (Pipeline.run agents schema_tables cfg nl clarified st) with
  | Return (Some res) =>
      Pipeline.retries (Pipeline.diagnostics res)
      = failures (Pipeline.diagnostics res)
  | _ => True
  end.
Proof.
  destruct (run_bookkeeping nl clarified st
              (snd (Pipeline.run agents schema_tables cfg nl clarified st))
              (fst (Pipeline.run agents schema_tables cfg nl clarified st))
              (surjective_pairing _)) as (new & _ & Hres).
  destruct (fst (Pipeline.run agents schema_tables cfg nl clarified st))
    as [[res|]|e]; try exact I. exact (proj1 Hres).
Qed.

(** X7: a result of [run] has one of two shapes.  A successful one has no
    error, a summary, and [final_sql] equal to its SQL.  A failed one has
    an error message that is not empty, no summary, no rows and no
    [final_sql]. *)
Theorem run_result_shape (nl : string) (clarified : option Clarified)
    (st : Pipeline.State W) :
  match fst (Pipeline.run agents schema_tables cfg nl clarified st) with
  | Return (Some res) =>
      if Pipeline.success res
      then Pipeline.error res = None /\
           Pipeline.summary res <> None /\
           Pipeline.final_sql (Pipeline.diagnostics res) = Some (Pipeline.sql res)
      else (exists e, Pipeline.error res = Some e /\ e <> "") /\
           Pipeline.summary res = None /\
           Pipeline.final_sql (Pipeline.diagnostics res) = None /\
           Pipeline.table res = []
  | _ => True
  end.
Proof.
  destruct (run_bookkeeping nl clarified st
              (snd (Pipeline.run agents schema_tables cfg nl clarified st))
              (fst (Pipeline.run agents schema_tables cfg nl clarified st))
              (surjective_pairing _)) as (new & _ & Hres).
  destruct (fst (Pipeline.run agents schema_tables cfg nl clarified st))
    as [[res|]|e]; try exact I.
  destruct Hres as (_ & Hok & Hko).
  destruct (Pipeline.success res).
  - destruct (Hok eq_refl) as (H1 & H2 & H3 & _). repeat split; assumption.
  - exact (Hko eq_refl).
Qed.

(** X8: a successful run has validated [retries + 1] texts and called the
    repair [retries] times, and the SQL of its result is one of the texts
    that it handed to the executor. *)
Theorem run_success_accounting (nl : string) (clarified : option Clarified)
    (st : Pipeline.State W) :
  exists new,
    Pipeline.trace (snd (Pipeline.run agents schema_tables cfg nl clarified st))
    = Pipeline.trace st ++ new /\
    match fst (Pipeline.run agents schema_tables cfg nl clarified st) with
    | Return (Some res) =>
        Pipeline.success res = true ->
        Pipeline.count Pipeline.is_validate new
        = (Pipeline.retries (Pipeline.diagnostics res) + 1)%Z /\
        Pipeline.count Pipeline.is_repair new
        = Pipeline.retries (Pipeline.diagnostics res) /\
        In (Pipeline.sql res) (Pipeline.executed_sql new)
    | _ => True
    end.
Proof.
  destruct (run_bookkeeping nl clarified st
              (snd (Pipeline.run agents schema_tables cfg nl clarified st))
              (fst (Pipeline.run agents schema_tables cfg nl clarified st))
              (surjective_pairing _)) as (new & Htr & Hres).
  exists new. split; [exact Htr |].
  destruct (fst (Pipeline.run agents schema_tables cfg nl clarified st))
    as [[res|]|e]; try exact I.
  intro Hs. destruct Hres as (_ & Hok & _).
  destruct (Hok Hs) as (_ & _ & _ & H4 & H5 & H6). repeat split; assumption.
Qed.

End PipelineFurther.

Section PipelineRejecting.

Variables W Value Bundle Summary Clarified : Type.
Variable agents : Pipeline.Agents W Value Bundle Summary Clarified.
Variable cfg : Pipeline.PipelineConfig.

(** The collaborators return, and the validator rejects every text. *)
Hypothesis validator_rejects :
  forall sql w, exists vr w',
    Pipeline.validate agents sql w = (Return vr, w') /\
    Validator.is_valid vr = false.

Hypothesis repair_returns :
  forall nl gen_ctx hint w, exists sql w',
    Pipeline.repair_sql agents nl gen_ctx hint w = (Return sql, w').

Lemma loop_all_rejected (nl_query : string) (plan : Pipeline.Plan)
    (gen_ctx : Pipeline.GenCtx Bundle Clarified) (fuel : nat) :
  forall attempts sql diag st,
    (0 <= attempts <= Pipeline.max_retries cfg)%Z ->
    (Pipeline.max_retries cfg + 1 - attempts < Z.of_nat fuel)%Z ->
    exists sql' d st',
      Pipeline.loop agents cfg nl_query plan gen_ctx fuel attempts None sql diag st
      = (Return (Pipeline.Broke sql' None d), st') /\
      Pipeline.executed_sql (Pipeline.trace st')
      = Pipeline.executed_sql (Pipeline.trace st) /\
      Pipeline.retries d = (Pipeline.max_retries cfg + 1)%Z /\
      Z.of_nat (List.length (Pipeline.validator_fail_reasons d))
      = (Z.of_nat (List.length (Pipeline.validator_fail_reasons diag))
         + (Pipeline.max_retries cfg + 1 - attempts))%Z /\
      Pipeline.executor_errors d = Pipeline.executor_errors diag.
Proof.
  induction fuel as [|fuel IH]; intros attempts sql diag st Ha Hf; [lia |].
  simpl.
  destruct (attempts <=? Pipeline.max_retries cfg)%Z eqn:Hle;
    [| apply Z.leb_gt in Hle; lia].
  unfold bind at 1. unfold Pipeline.call at 1.
  destruct (validator_rejects sql (Pipeline.world st)) as (vr & w1 & Hv & Hinv).
  rewrite Hv, Hinv. cbn [negb]. cbv zeta.
  destruct (attempts + 1 >? Pipeline.max_retries cfg)%Z eqn:Hgt.
  - assert (attempts = Pipeline.max_retries cfg).
    { destruct (Z.gtb_spec (attempts + 1) (Pipeline.max_retries cfg));
        [lia | discriminate]. }
    eexists _, _, _. split; [reflexivity |].
    cbn. rewrite executed_sql_app. cbn. rewrite app_nil_r.
    repeat split; try lia. rewrite length_app. cbn. lia.
  - assert (Hlt : (attempts + 1 <= Pipeline.max_retries cfg)%Z).
    { destruct (Z.gtb_spec (attempts + 1) (Pipeline.max_retries cfg));
        [discriminate | lia]. }
    unfold bind at 1. unfold Pipeline.call at 1. cbn [Pipeline.world Pipeline.trace].
    match goal with |- context [Pipeline.repair_sql agents ?a ?b ?c ?d] =>
      destruct (repair_returns a b c d) as (sql1 & w2 & Hrep) end.
    rewrite Hrep.
    match goal with |- context [Pipeline.loop _ _ _ _ _ fuel ?a None ?s ?d ?st0] =>
      destruct (IH a s d st0) as (sql' & d' & st' & Hloop & Hex & Hret & Hlen & Hee) end;
      try lia.
    exists sql', d', st'. split; [exact Hloop |].
    cbn in Hex, Hlen, Hee.
    rewrite !executed_sql_app in Hex. cbn in Hex. rewrite !app_nil_r in Hex.
    rewrite length_app in Hlen. cbn in Hlen.
    repeat split; try assumption. lia.
Qed.

Variable schema_tables : list (string * list string).

Hypothesis analyze_returns :
  forall nl w, exists plan w',
    Pipeline.analyze_query agents nl w = (Return plan, w').

Hypothesis fetch_returns :
  forall q w, exists bundle w',
    Pipeline.fetch_schema_context agents q w = (Return bundle, w').

Hypothesis generate_returns :
  forall nl bundle gen_ctx schema w, exists sql w',
    Pipeline.generate agents nl bundle gen_ctx schema w = (Return sql, w').

Lemma run_all_rejected_eq (nl : string) (clarified : option Clarified)
    (st : Pipeline.State W) :
  (0 <= Pipeline.max_retries cfg)%Z ->
  exists res st',
    Pipeline.run agents schema_tables cfg nl clarified st = (Return (Some res), st') /\
    Pipeline.success res = false /\
    Pipeline.error res = Some "Could not produce safe SQL" /\
    Pipeline.retries (Pipeline.diagnostics res) = (Pipeline.max_retries cfg + 1)%Z /\
    Z.of_nat (List.length (Pipeline.validator_fail_reasons (Pipeline.diagnostics res)))
    = (Pipeline.max_retries cfg + 1)%Z /\
    Pipeline.executor_errors (Pipeline.diagnostics res) = [] /\
    Pipeline.executed_sql (Pipeline.trace st')
    = Pipeline.executed_sql (Pipeline.trace st).
Proof.
  intro Hm. unfold Pipeline.run.
  unfold bind at 1. unfold Pipeline.call at 1.
  destruct (analyze_returns nl (Pipeline.world st)) as (plan & w1 & Hplan).
  rewrite Hplan. cbv zeta.
  unfold bind at 1. unfold Pipeline.call at 1. cbn [Pipeline.world Pipeline.trace].
  match goal with |- context [Pipeline.fetch_schema_context agents ?q ?w] =>
    destruct (fetch_returns q w) as (bundle & w2 & Hfetch) end.
  rewrite Hfetch.
  unfold bind at 1. unfold Pipeline.call at 1. cbn [Pipeline.world Pipeline.trace].
  match goal with |- context [Pipeline.generate agents ?a ?b ?c ?d ?w] =>
    destruct (generate_returns a b c d w) as (sql0 & w3 & Hgen) end.
  rewrite Hgen.
  unfold bind at 1.
  match goal with |- context [Pipeline.loop _ _ ?n ?p ?g ?f 0%Z None ?s ?d ?st0] =>
    destruct (loop_all_rejected n p g f 0%Z s d st0)
      as (sql' & d' & st' & Hloop & Hex & Hret & Hlen & Hee) end;
    try lia.
  rewrite Hloop. cbn [fst snd ret].
  eexists _, _. split; [reflexivity |].
  cbn in Hlen, Hee, Hex. rewrite !executed_sql_app in Hex. cbn in Hex.
  rewrite !app_nil_r in Hex.
  cbn. repeat split; try assumption. lia.
Qed.

(** X9: when the validator rejects every text it is given (and the
    planner, the retriever, the generator and the repair return), a run
    with a retry budget [max_retries >= 0] hands nothing to the executor
    and returns a failure whose error is the fixed text
    [Could not produce safe SQL], with [retries = max_retries + 1] and as
    many validator reasons in its diagnostics. *)
Theorem run_all_rejected (nl : string) (clarified : option Clarified)
    (st : Pipeline.State W) :
  (0 <= Pipeline.max_retries cfg)%Z ->
  exists res,
    fst (Pipeline.run agents schema_tables cfg nl clarified st) = Return (Some res) /\
    Pipeline.success res = false /\
    Pipeline.error res = Some "Could not produce safe SQL" /\
    Pipeline.retries (Pipeline.diagnostics res) = (Pipeline.max_retries cfg + 1)%Z /\
    Z.of_nat (List.length (Pipeline.validator_fail_reasons (Pipeline.diagnostics res)))
    = (Pipeline.max_retries cfg + 1)%Z /\
    Pipeline.executor_errors (Pipeline.diagnostics res) = [] /\
    Pipeline.executed_sql
      (Pipeline.trace (snd (Pipeline.run agents schema_tables cfg nl clarified st)))
    = Pipeline.executed_sql (Pipeline.trace st).
Proof.
  intro Hm.
  destruct (run_all_rejected_eq nl clarified st Hm) as (res & st' & Hrun & H).
  exists res. rewrite Hrun. split; [reflexivity | exact H].
Qed.

End PipelineRejecting.

(** The default budget and a validator that rejects everything: three
    validations, nothing executed. *)
Lemma run_all_rejected_witness :
  exists res,
    fst (Pipeline.run Demo.rejecting_agents Demo.bank_schema Pipeline.default_config
           "drop everything" None Demo.start) = Return (Some res) /\
    Pipeline.success res = false /\
    Pipeline.error res = Some "Could not produce safe SQL" /\
    Pipeline.retries (Pipeline.diagnostics res) = 3%Z.
Proof.
  destruct (run_all_rejected _ _ _ _ _ Demo.rejecting_agents Pipeline.default_config)
    with (schema_tables := Demo.bank_schema) (nl := "drop everything")
         (clarified := @None unit) (st := Demo.start)
    as (res & H1 & H2 & H3 & H4 & _).
  - intros sql w. eexists _, _. split; reflexivity.
  - intros nl g h w. eexists _, _. reflexivity.
  - intros nl w. eexists _, _. reflexivity.
  - intros q w. eexists _, _. reflexivity.
  - intros nl b g s w. eexists _, _. reflexivity.
  - cbn. lia.
  - exists res. repeat split; assumption.
Defined.

(* ================================================================== *)
(** * Further properties of the SQL validator *)
(* ================================================================== *)

Lemma map_chars_app (f : ascii -> ascii) (s t : string) :
  PyStr.map_chars f (s ++ t)%string
  = (PyStr.map_chars f s ++ PyStr.map_chars f t)%string.
Proof.
  induction s as [|c s IH]; simpl; [reflexivity | now rewrite IH].
Qed.

Lemma contains_app_r (sub s t : string) :
  PyStr.contains sub t = true -> PyStr.contains sub (s ++ t)%string = true.
Proof.
  intro H. induction s as [|c s IH]; simpl; [exact H |].
  rewrite IH. apply orb_true_r.
Qed.

Lemma contains_cons (sub : string) (c : ascii) (s : string) :
  PyStr.contains sub s = true -> PyStr.contains sub (String c s) = true.
Proof.
  intro H. simpl. rewrite H. apply orb_true_r.
Qed.

Lemma startswith_take (p s : string) :
  PyStr.take (String.length p) s = p -> PyStr.startswith p s = true.
Proof.
  revert s. induction p as [|a p IH]; intros s H; [reflexivity |].
  destruct s as [|b s]; simpl in H; [discriminate |].
  injection H as Hb Hs. subst b. simpl. rewrite Ascii.eqb_refl. simpl.
  now apply IH.
Qed.

Lemma take_map_chars (f : ascii -> ascii) (n : nat) (s : string) :
  PyStr.take n (PyStr.map_chars f s) = PyStr.map_chars f (PyStr.take n s).
Proof.
  revert s. induction n as [|n IH]; intros [|c s]; simpl; try reflexivity.
  now rewrite IH.
Qed.

Lemma startswith_contains (p s : string) :
  PyStr.startswith p s = true -> PyStr.contains p s = true.
Proof.
  intro H. destruct s; simpl in *; rewrite H; reflexivity.
Qed.

Lemma lstrip_head (s : string) (c : ascii) (r : string) :
  PyStr.lstrip s = String c r -> PyStr.isspace c = false.
Proof.
  induction s as [|x s IH]; [discriminate |].
  simpl. destruct (PyStr.isspace x) eqn:Hx; [exact IH |].
  intro H. injection H as <- _. exact Hx.
Qed.

Lemma rstrip_head (s : string) (c : ascii) (r : string) :
  PyStr.rstrip s = String c r -> exists r', s = String c r'.
Proof.
  destruct s as [|x s]; [discriminate |].
  simpl. destruct (PyStr.rstrip s); [destruct (PyStr.isspace x) |];
    try discriminate; intro H; injection H as <- _; eexists; reflexivity.
Qed.

Lemma rstrip_idempotent (s : string) :
  PyStr.rstrip (PyStr.rstrip s) = PyStr.rstrip s.
Proof.
  induction s as [|c s IH]; [reflexivity |].
  simpl. destruct (PyStr.rstrip s) as [|d r] eqn:Hr.
  - destruct (PyStr.isspace c) eqn:Hc; [reflexivity |].
    simpl. rewrite Hc. reflexivity.
  - cbn [PyStr.rstrip] in *. rewrite IH. reflexivity.
Qed.

(** Stripping a stripped string changes nothing. *)
Lemma strip_idempotent (s : string) :
  PyStr.strip (PyStr.strip s) = PyStr.strip s.
Proof.
  unfold PyStr.strip.
  destruct (PyStr.lstrip s) as [|c r] eqn:Hl; [reflexivity |].
  pose proof (lstrip_head _ _ _ Hl) as Hc.
  destruct (PyStr.rstrip (String c r)) as [|d r'] eqn:Hr; [reflexivity |].
  destruct (rstrip_head _ _ _ Hr) as (r2 & Heq). injection Heq as <- _.
  cbn [PyStr.lstrip]. rewrite Hc. rewrite <- Hr. apply rstrip_idempotent.
Qed.

(** A match of the FROM/JOIN pattern begins with one of the two words. *)
Lemma from_join_at_keyword (s : string) :
  SQLValidator.from_join_at s = true ->
  PyStr.startswith "FROM" (PyStr.upper s) = true \/
  PyStr.startswith "JOIN" (PyStr.upper s) = true.
Proof.
  unfold SQLValidator.from_join_at. cbv zeta. intro H.
  apply andb_true_iff in H. destruct H as [H _].
  apply orb_true_iff in H.
  destruct H as [H | H]; apply String.eqb_eq in H; [left | right];
    apply startswith_take; unfold PyStr.upper in *;
    rewrite take_map_chars; exact H.
Qed.

Lemma search_from_join_keyword (s : string) :
  SQLValidator.search_from_join s = true ->
  PyStr.contains "FROM" (PyStr.upper s) = true \/
  PyStr.contains "JOIN" (PyStr.upper s) = true.
Proof.
  induction s as [|c s IH]; intro H.
  - discriminate H.
  - cbn [SQLValidator.search_from_join] in H. apply orb_true_iff in H.
    destruct H as [H | H].
    + apply from_join_at_keyword in H.
      destruct H as [H | H]; [left | right];
        apply startswith_contains; exact H.
    + destruct (IH H) as [H' | H']; [left | right];
        unfold PyStr.upper in *; cbn [PyStr.map_chars];
        apply contains_cons; exact H'.
Qed.

Lemma find_none_iff {A : Type} (f : A -> bool) (l : list A) :
  List.find f l = None <-> (forall x, In x l -> f x = false).
Proof.
  split.
  - intros H x Hx. exact (find_none f l H x Hx).
  - induction l as [|a l IH]; intro H; [reflexivity |].
    simpl. rewrite (H a (or_introl eq_refl)). apply IH.
    intros x Hx. apply H. now right.
Qed.

(** X10: The text of a test execution always carries a LIMIT: the text has
    the word already (in any letter case, anywhere), or [ LIMIT 1] is put
    at its end. *)
Theorem test_sql_of_has_limit (sql : string) :
  PyStr.contains "LIMIT" (PyStr.upper (SQLValidator.test_sql_of sql)) = true.
Proof.
  unfold SQLValidator.test_sql_of. cbv zeta.
  destruct (PyStr.contains "LIMIT" (PyStr.upper (PyStr.strip_char ";" sql))) eqn:H;
    cbn [negb].
  - exact H.
  - unfold PyStr.upper. rewrite map_chars_app. apply contains_app_r. reflexivity.
Qed.

Section ValidationProperties.

Variable W : Type.
Variable sqlite_test : string -> W -> SQLValidator.TestOutcome * W.
Variable keyword_order : list string.

(** X11: The verdict is true exactly when no message comes with it. *)
Theorem validate_sql_verdict_message (sql : string) (w : W) :
  fst (fst (SQLValidator.validate_sql sqlite_test keyword_order sql w)) = true <->
  snd (fst (SQLValidator.validate_sql sqlite_test keyword_order sql w)) = None.
Proof.
  unfold SQLValidator.validate_sql, SQLValidator._test_execution. cbv zeta.
  destruct (negb (PyStr.truthy (PyStr.strip sql))
            || negb (PyStr.truthy (PyStr.strip (PyStr.strip sql))));
    [cbn; split; discriminate |].
  destruct (List.find _ keyword_order); [cbn; split; discriminate |].
  destruct (negb (PyStr.startswith "SELECT" _)); [cbn; split; discriminate |].
  destruct (negb (SQLValidator._has_valid_identifiers _));
    [cbn; split; discriminate |].
  destruct (sqlite_test _ w) as [[| e | e] w']; cbn; split;
    try discriminate; reflexivity.
Qed.

(** X12: A text is accepted exactly when, stripped, it is not empty, no
    dangerous keyword occurs in its upper-case form, that form begins
    with SELECT, an identifier follows a FROM or a JOIN, and the database
    ran the test text without an exception; the state of the database is
    then the one the test left. *)
Theorem validate_sql_accepts_iff (sql : string) (w w' : W) :
  SQLValidator.validate_sql sqlite_test keyword_order sql w = ((true, None), w') <->
  PyStr.strip sql <> "" /\
  (forall keyword, In keyword keyword_order ->
     PyStr.contains keyword (PyStr.upper (PyStr.strip sql)) = false) /\
  PyStr.startswith "SELECT" (PyStr.upper (PyStr.strip sql)) = true /\
  SQLValidator._has_valid_identifiers (PyStr.strip sql) = true /\
  sqlite_test (SQLValidator.test_sql_of (PyStr.strip sql)) w = (SQLValidator.TestOk, w').
Proof.
  unfold SQLValidator.validate_sql, SQLValidator._test_execution. cbv zeta.
  split.
  - destruct (PyStr.strip sql) as [|c s] eqn:Hs; [cbn; discriminate |].
    cbn [PyStr.truthy negb orb].
    destruct (negb (PyStr.truthy (PyStr.strip (String c s)))); [discriminate |].
    destruct (List.find _ keyword_order) eqn:Hfind; [discriminate |].
    destruct (PyStr.startswith "SELECT" _) eqn:Hsel; [| discriminate].
    destruct (SQLValidator._has_valid_identifiers _) eqn:Hid; [| discriminate].
    cbn [negb].
    destruct (sqlite_test _ w) as [[| e | e] w1]; try discriminate.
    intro H. injection H as ->.
    repeat split; try reflexivity; try discriminate.
    intros keyword Hin. exact (find_none _ _ Hfind keyword Hin).
  - intros (Hne & Hkw & Hsel & Hid & Htest).
    pose proof (strip_idempotent sql) as Hstrip.
    rewrite Hstrip.
    destruct (PyStr.strip sql) as [|c s] eqn:Hs; [contradiction |].
    cbn [PyStr.truthy negb orb].
    apply find_none_iff in Hkw. rewrite Hkw, Hsel, Hid. cbn [negb].
    rewrite Htest. reflexivity.
Qed.

End ValidationProperties.

Section ValidationRejections.

Variable W : Type.
Variable sqlite_test : string -> W -> SQLValidator.TestOutcome * W.
Variable keyword_order : list string.

(** Iterating over the set visits its members, in some order. *)
Hypothesis keyword_order_members :
  forall keyword, In keyword keyword_order <-> In keyword SQLValidator.DANGEROUS_KEYWORDS.

(** X13: A dangerous keyword is looked for as a substring of the upper-case
    text, not as a word: a text in which one occurs anywhere --- inside a
    column name or a string literal too --- is rejected with a message
    that names a dangerous keyword occurring in it, and the database is
    not consulted. *)
Theorem validate_sql_dangerous_substring (sql keyword : string) (w : W) :
  In keyword SQLValidator.DANGEROUS_KEYWORDS ->
  PyStr.contains keyword (PyStr.upper (PyStr.strip sql)) = true ->
  exists found,
    In found SQLValidator.DANGEROUS_KEYWORDS /\
    PyStr.contains found (PyStr.upper (PyStr.strip sql)) = true /\
    SQLValidator.validate_sql sqlite_test keyword_order sql w
    = ((false, Some ("Dangerous keyword '" ++ found ++ "' found in query")%string), w).
Proof.
  intros Hin Hsub.
  unfold SQLValidator.validate_sql. cbv zeta.
  rewrite strip_idempotent.
  destruct (PyStr.strip sql) as [|c s] eqn:Hs.
  - exfalso. cbn in Hin.
    repeat (destruct Hin as [<- | Hin]; [discriminate Hsub |]). exact Hin.
  - cbn [PyStr.truthy negb orb].
    destruct (List.find _ keyword_order) as [found |] eqn:Hfind.
    + apply find_some in Hfind. destruct Hfind as [Hf1 Hf2].
      exists found. split; [apply keyword_order_members; exact Hf1 |].
      split; [exact Hf2 | reflexivity].
    + exfalso. apply keyword_order_members in Hin.
      pose proof (find_none _ _ Hfind keyword Hin) as Hno. cbv beta in Hno.
      rewrite Hsub in Hno. discriminate.
Qed.

(** X14: A text with neither FROM nor JOIN in it, in any letter case, is
    rejected and the database is not consulted. *)
Theorem validate_sql_needs_from_or_join (sql : string) (w : W) :
  PyStr.contains "FROM" (PyStr.upper (PyStr.strip sql)) = false ->
  PyStr.contains "JOIN" (PyStr.upper (PyStr.strip sql)) = false ->
  exists msg,
    SQLValidator.validate_sql sqlite_test keyword_order sql w = ((false, Some msg), w).
Proof.
  intros Hfrom Hjoin.
  unfold SQLValidator.validate_sql. cbv zeta.
  destruct (negb (PyStr.truthy (PyStr.strip sql))
            || negb (PyStr.truthy (PyStr.strip (PyStr.strip sql))));
    [eexists; reflexivity |].
  destruct (List.find _ keyword_order); [eexists; reflexivity |].
  destruct (negb (PyStr.startswith "SELECT" _)); [eexists; reflexivity |].
  destruct (SQLValidator._has_valid_identifiers (PyStr.strip sql)) eqn:Hid.
  - exfalso. unfold SQLValidator._has_valid_identifiers in Hid.
    destruct (search_from_join_keyword _ Hid) as [H | H]; congruence.
  - cbn [negb]. eexists; reflexivity.
Qed.

End ValidationRejections.

(** A column named [updated_at] is enough for a rejection. *)
Lemma validate_sql_dangerous_substring_witness :
  exists found,
    In found SQLValidator.DANGEROUS_KEYWORDS /\
    PyStr.contains found
      (PyStr.upper (PyStr.strip "SELECT updated_at FROM customers")) = true /\
    SQLValidator.validate_sql Demo.sqlite_test_ok SQLValidator.DANGEROUS_KEYWORDS
      "SELECT updated_at FROM customers" tt
    = ((false, Some ("Dangerous keyword '" ++ found ++ "' found in query")%string), tt).
Proof.
  apply (validate_sql_dangerous_substring unit Demo.sqlite_test_ok
           SQLValidator.DANGEROUS_KEYWORDS (fun k => conj (fun H => H) (fun H => H))
           "SELECT updated_at FROM customers" "UPDATE" tt).
  - cbn. tauto.
  - reflexivity.
Defined.

(** The fall-back text of the generator has no FROM. *)
Lemma validate_sql_needs_from_or_join_witness :
  exists msg,
    SQLValidator.validate_sql Demo.sqlite_test_ok SQLValidator.DANGEROUS_KEYWORDS
      "SELECT 1;" tt = ((false, Some msg), tt).
Proof.
  apply (validate_sql_needs_from_or_join unit Demo.sqlite_test_ok
           SQLValidator.DANGEROUS_KEYWORDS "SELECT 1;" tt); reflexivity.
Defined.

(* ================================================================== *)
(** * Further properties of the generator *)
(* ================================================================== *)

Section GeneratorBudget.

Variables W Value : Type.
Variable deps : SQLGenerator.Collaborators W Value.

(** A property of SQL texts that the validator guarantees when it
    answers [True]. *)
Variable P : string -> Prop.
Hypothesis validator_sound :
  forall sql w msg w',
    SQLGenerator.validate_sql deps sql w = (Return (true, msg), w') -> P sql.

Lemma sends_ret {A : Type} (Q : A -> Prop) (a : A) :
  Q a -> SQLGenerator.sends_at_most (W := W) 0 Q (ret a).
Proof. intros H st. simpl. split; [lia | exact H]. Qed.

Lemma sends_weaken {A : Type} (k k' : nat) (Q : A -> Prop)
    (c : M (SQLGenerator.State W) A) :
  k <= k' -> SQLGenerator.sends_at_most k Q c -> SQLGenerator.sends_at_most k' Q c.
Proof. intros Hk H st. destruct (H st) as [H1 H2]. split; [lia | exact H2]. Qed.

Lemma sends_lift {A : Type} (Q : A -> Prop) (c : M W A) :
  (forall w a w', c w = (Return a, w') -> Q a) ->
  SQLGenerator.sends_at_most 0 Q (SQLGenerator.lift c).
Proof.
  intros H st. unfold SQLGenerator.lift.
  destruct (c (SQLGenerator.world st)) as [[a|e] w'] eqn:Hc; simpl;
    (split; [lia |]); [exact (H _ _ _ Hc) | exact I].
Qed.

Lemma sends_send (p : string) (t : Z) :
  SQLGenerator.sends_at_most 1 (fun _ => True) (SQLGenerator.send deps p t).
Proof.
  intro st. unfold SQLGenerator.send.
  destruct (SQLGenerator.generate_text deps p t (SQLGenerator.world st))
    as [[a|e] w']; simpl; rewrite length_app; simpl; split; try lia; exact I.
Qed.

Lemma sends_bind {A B : Type} (k1 k2 : nat) (Q1 : A -> Prop) (Q2 : B -> Prop)
    (c : M (SQLGenerator.State W) A) (k : A -> M (SQLGenerator.State W) B) :
  SQLGenerator.sends_at_most k1 Q1 c ->
  (forall a, Q1 a -> SQLGenerator.sends_at_most k2 Q2 (k a)) ->
  SQLGenerator.sends_at_most (k1 + k2) Q2 (bind c k).
Proof.
  intros Hc Hk st. unfold bind.
  destruct (Hc st) as [H1 H2].
  destruct (c st) as [[a|e] st1]; simpl in H1, H2.
  - destruct (Hk a H2 st1) as [H3 H4]. split; [lia | exact H4].
  - simpl. split; [lia | exact I].
Qed.

Lemma sends_guarded {A : Type} (k1 k2 : nat) (Q1 : A -> Prop)
    (Q2 : SQLGenerator.Step -> Prop) (l : SQLGenerator.Locals)
    (c : M (SQLGenerator.State W) A)
    (k : A -> M (SQLGenerator.State W) SQLGenerator.Step) :
  SQLGenerator.sends_at_most k1 Q1 c ->
  (forall a, Q1 a -> SQLGenerator.sends_at_most k2 Q2 (k a)) ->
  Q2 (SQLGenerator.Continue (SQLGenerator.next_attempt l)) ->
  SQLGenerator.sends_at_most (k1 + k2) Q2 (SQLGenerator.guarded l c k).
Proof.
  intros Hc Hk Hl st. unfold SQLGenerator.guarded.
  destruct (Hc st) as [H1 H2].
  destruct (c st) as [[a|e] st1]; simpl in H1, H2.
  - destruct (Hk a H2 st1) as [H3 H4]. split; [lia | exact H4].
  - simpl. split; [lia | exact Hl].
Qed.

Lemma sends_test_sql_execution (sql : string) :
  SQLGenerator.sends_at_most 0 (fun _ => True) (SQLGenerator._test_sql_execution deps sql).
Proof.
  intro st. unfold SQLGenerator._test_sql_execution, SQLGenerator.lift.
  destruct (SQLGenerator.run_query deps sql (Some 1%Z) None (SQLGenerator.world st))
    as [[r|e] w']; simpl; split; try lia; exact I.
Qed.

Lemma sends_error_correction (query original_sql : string)
    (error_msg : option string) (attempt : Z) :
  SQLGenerator.sends_at_most 1 (fun _ => True)
    (SQLGenerator._try_llm_error_correction deps query original_sql error_msg attempt).
Proof.
  intro st. unfold SQLGenerator._try_llm_error_correction.
  destruct (SQLGenerator.build_error_correction_prompt deps query original_sql
              error_msg attempt) as [p|e].
  - destruct (sends_send p attempt st) as [H _].
    destruct (SQLGenerator.send deps p attempt st) as [[[response|]|e] st'];
      simpl in H.
    + destruct (SQLGenerator._parse_llm_response _ _) as [[corrected|] sug];
        simpl; split; try lia; exact I.
    + simpl; split; try lia; exact I.
    + simpl; split; try lia; exact I.
  - simpl. split; [lia | exact I].
Qed.

Lemma sends_ask_llm (attempts_left : Z) (l : SQLGenerator.Locals) :
  SQLGenerator.sends_at_most 1 (SQLGenerator.step_ok P l) (SQLGenerator.ask_llm deps attempts_left l).
Proof.
  unfold SQLGenerator.ask_llm.
  destruct (SQLGenerator.prompt l) as [p|] eqn:Hp.
  - change 1 with (1 + 0).
    apply sends_guarded with (Q1 := fun _ => True);
      [apply sends_send | | reflexivity].
    intros [response|] _; [| apply sends_ret; reflexivity].
    destruct (SQLGenerator._parse_llm_response _ _) as [[sql|] [suggestion|]];
      try (apply sends_ret; reflexivity).
    change 0 with (0 + 0).
    apply sends_guarded
      with (Q1 := fun v : bool * option string => fst v = true -> P sql);
      [apply sends_lift | | reflexivity].
    + intros w [b msg] w' Hv Hb. simpl in Hb. subst b.
      exact (validator_sound _ _ _ _ Hv).
    + intros [[|] error_msg] Hv; [| apply sends_ret; reflexivity].
      change 0 with (0 + 0).
      apply sends_guarded with (Q1 := fun _ => True);
        [apply sends_test_sql_execution | | reflexivity].
      intros exec_result _. destruct (Executor.success exec_result);
        apply sends_ret; [| reflexivity].
      split; [reflexivity | exact (Hv eq_refl)].
  - apply sends_weaken with (k := 0); [lia |]. apply sends_ret. reflexivity.
Qed.

Lemma sends_iteration (query : string) (context : SQLGenerator.GenContext)
    (attempts_left : Z) (l : SQLGenerator.Locals) :
  SQLGenerator.sends_at_most (if (SQLGenerator.attempt_number l =? 1)%Z then 1 else 2)
    (SQLGenerator.step_ok P l) (SQLGenerator.iteration deps query context attempts_left l).
Proof.
  unfold SQLGenerator.iteration.
  destruct (SQLGenerator.attempt_number l =? 1)%Z.
  - destruct (SQLGenerator.build_prompt deps _ _ _ _) as [p|e].
    + apply (sends_ask_llm attempts_left
               {| SQLGenerator.attempt_number := SQLGenerator.attempt_number l;
                  SQLGenerator.current_sql := SQLGenerator.current_sql l;
                  SQLGenerator.error_context := SQLGenerator.error_context l;
                  SQLGenerator.prompt := Some p |}).
    + apply sends_weaken with (k := 0); [lia |]. apply sends_ret. reflexivity.
  - assert (Hask : SQLGenerator.sends_at_most 2 (SQLGenerator.step_ok P l)
                     (SQLGenerator.ask_llm deps attempts_left l)).
    { apply sends_weaken with (k := 1); [lia | apply sends_ask_llm]. }
    destruct (SQLGenerator.current_sql l) as [cs|]; [| exact Hask].
    destruct (PyStr.truthy cs); [| exact Hask].
    change 2 with (1 + 1).
    apply sends_guarded with (Q1 := fun _ => True);
      [apply sends_error_correction | | reflexivity].
    intros [[[|] corrected] suggestion] _; [| apply sends_ask_llm].
    apply sends_weaken with (k := 0 + 0); [lia |].
    apply sends_guarded
      with (Q1 := fun v : bool * option string => fst v = true -> P corrected);
      [apply sends_lift | | reflexivity].
    + intros w [b msg] w' Hv Hb. simpl in Hb. subst b.
      exact (validator_sound _ _ _ _ Hv).
    + intros [[|] error_msg] Hv; apply sends_ret; [| reflexivity].
      split; [reflexivity | exact (Hv eq_refl)].
Qed.

Lemma sends_attempts (query : string) (context : SQLGenerator.GenContext)
    (n : nat) :
  forall l,
    (1 <= SQLGenerator.attempt_number l)%Z ->
    SQLGenerator.sends_at_most
      (if (SQLGenerator.attempt_number l =? 1)%Z then 2 * n - 1 else 2 * n)
      (SQLGenerator.loop_ok P) (SQLGenerator.attempts deps query context n l).
Proof.
  induction n as [|n IH]; intros l Hl.
  - apply sends_weaken with (k := 0); [lia |]. apply sends_ret. exact I.
  - change (SQLGenerator.attempts deps query context (S n) l)
      with (bind (SQLGenerator.iteration deps query context (Z.of_nat (S n)) l)
              (fun step =>
                 match step with
                 | SQLGenerator.Returned r => ret (inr r)
                 | SQLGenerator.Continue l' =>
                     SQLGenerator.attempts deps query context n l'
                 end)).
    apply sends_weaken
      with (k := (if (SQLGenerator.attempt_number l =? 1)%Z then 1 else 2) + 2 * n).
    { destruct (SQLGenerator.attempt_number l =? 1)%Z; lia. }
    apply sends_bind with (Q1 := SQLGenerator.step_ok P l); [apply sends_iteration |].
    intros [[[ok sql] sug]|l'] Hstep; simpl in Hstep.
    + apply sends_weaken with (k := 0); [lia |]. apply sends_ret. exact Hstep.
    + assert (Hne : (SQLGenerator.attempt_number l' =? 1)%Z = false)
        by (apply Z.eqb_neq; lia).
      specialize (IH l'). rewrite Hne in IH. apply IH. lia.
Qed.

Lemma sends_try_llm_generation (query : string)
    (context : SQLGenerator.GenContext) (attempts_left : Z) :
  SQLGenerator.sends_at_most (2 * Z.to_nat attempts_left - 1) (SQLGenerator.generated_ok P)
    (SQLGenerator._try_llm_generation deps query context attempts_left).
Proof.
  unfold SQLGenerator._try_llm_generation.
  apply sends_weaken with (k := (2 * Z.to_nat attempts_left - 1) + 0); [lia |].
  apply sends_bind with (Q1 := SQLGenerator.loop_ok P).
  - apply (sends_attempts query context (Z.to_nat attempts_left)
             {| SQLGenerator.attempt_number := 1; SQLGenerator.current_sql := None;
                SQLGenerator.error_context := None; SQLGenerator.prompt := None |}).
    simpl. lia.
  - intros [l|[[ok sql] sug]] Hr; simpl in Hr.
    + destruct (SQLGenerator.current_sql l) as [cs|]; [| apply sends_ret; exact I].
      destruct (SQLGenerator.error_context l) as [ec|]; [| apply sends_ret; exact I].
      destruct (PyStr.truthy cs && PyStr.truthy ec); [| apply sends_ret; exact I].
      destruct (negb _); [| apply sends_ret; exact I].
      intro st. unfold SQLGenerator.lift.
      destruct (SQLGenerator.validate_sql deps _ (SQLGenerator.world st))
        as [[[[|] msg]|e] w'] eqn:Hv; simpl; split; try lia; try exact I.
      exact (validator_sound _ _ _ _ Hv).
    + apply sends_ret. destruct Hr as [-> Hp]. exact Hp.
Qed.

(** X15: A generation that succeeds returns a text that the validator
    accepted: whatever the validator's [True] guarantees of a text holds
    of the text returned. *)
Theorem try_llm_generation_validated (query : string)
    (context : SQLGenerator.GenContext) (attempts_left : Z)
    (st st' : SQLGenerator.State W) (sql : string) (suggestion : option string) :
  SQLGenerator._try_llm_generation deps query context attempts_left st
  = (Return (true, sql, suggestion), st') ->
  P sql.
Proof.
  intro H.
  destruct (sends_try_llm_generation query context attempts_left st) as [_ Hq].
  rewrite H in Hq. exact Hq.
Qed.

(** X16: A repair never raises and sends at most three prompts; the text it
    returns is the fall-back [SELECT 1;] or a text that the validator
    accepted. *)
Theorem repair_sql_returns (query : string) (context : SQLGenerator.GenContext)
    (hint : option string) (st : SQLGenerator.State W) :
  exists sql,
    fst (SQLGenerator.repair_sql deps query context hint st) = Return sql /\
    (sql = "SELECT 1;" \/ P sql) /\
    List.length (SQLGenerator.sent
                   (snd (SQLGenerator.repair_sql deps query context hint st)))
      <= List.length (SQLGenerator.sent st) + 3.
Proof.
  unfold SQLGenerator.repair_sql.
  destruct (SQLValidator.get_error_context hint) as [ec|e].
  - destruct (sends_try_llm_generation query context 2%Z st) as [Hlen Hq].
    destruct (SQLGenerator._try_llm_generation deps query context 2 st)
      as [[[[[|] sql] sug]|e] st1]; simpl in Hlen, Hq |- *;
      eexists; (split; [reflexivity |]); (split; [| lia]); auto.
  - simpl. exists "SELECT 1;". split; [reflexivity |]. split; [now left | lia].
Qed.

End GeneratorBudget.

(** X17: A generation with [n] attempts sends at most [2n - 1] prompts to the
    LLM: one in the first iteration, and in each later one a correction
    prompt and, when the correction gives nothing, the first prompt
    again. *)
Theorem try_llm_generation_prompt_budget (W Value : Type)
    (deps : SQLGenerator.Collaborators W Value) (query : string)
    (context : SQLGenerator.GenContext) (attempts_left : Z)
    (st : SQLGenerator.State W) :
  List.length (SQLGenerator.sent
                 (snd (SQLGenerator._try_llm_generation deps query context
                         attempts_left st)))
    <= List.length (SQLGenerator.sent st) + (2 * Z.to_nat attempts_left - 1).
Proof.
  exact (proj1 (sends_try_llm_generation W Value deps (fun _ => True)
                  (fun _ _ _ _ _ => I) query context attempts_left st)).
Qed.

(** An LLM that answers with [SELECT 1] and a validator that accepts
    that text only. *)
Lemma try_llm_generation_validated_witness :
  fst (SQLGenerator._try_llm_generation Demo.answering_generator
         "how many customers"
         {| SQLGenerator.detected_tables := ["customers"];
            SQLGenerator.detected_capabilities := [] |}
         3%Z {| SQLGenerator.world := tt; SQLGenerator.sent := [] |})
  = Return (true, "SELECT 1", Some "one") /\
  "SELECT 1" = "SELECT 1".
Proof.
  split; [reflexivity |].
  apply (try_llm_generation_validated unit Z Demo.answering_generator
           (fun sql => sql = "SELECT 1")
           (fun sql w msg w' H =>
              proj1 (String.eqb_eq sql "SELECT 1")
                    (f_equal (fun r => match r with
                                       | (Return (b, _), _) => b
                                       | _ => true
                                       end) H))
           "how many customers"
           {| SQLGenerator.detected_tables := ["customers"];
              SQLGenerator.detected_capabilities := [] |}
           3%Z
           {| SQLGenerator.world := tt; SQLGenerator.sent := [] |}
           (snd (SQLGenerator._try_llm_generation Demo.answering_generator
                   "how many customers"
                   {| SQLGenerator.detected_tables := ["customers"];
                      SQLGenerator.detected_capabilities := [] |}
                   3%Z {| SQLGenerator.world := tt; SQLGenerator.sent := [] |}))
           "SELECT 1" (Some "one")).
  vm_compute. reflexivity.
Defined.

(** The same generator repairs with one prompt. *)
Lemma repair_sql_returns_witness :
  exists sql,
    fst (SQLGenerator.repair_sql Demo.answering_generator "how many customers"
           {| SQLGenerator.detected_tables := ["customers"];
              SQLGenerator.detected_capabilities := [] |}
           (Some "no such column: full_name")
           {| SQLGenerator.world := tt; SQLGenerator.sent := [] |}) = Return sql /\
    (sql = "SELECT 1;" \/ sql = "SELECT 1").
Proof.
  destruct (repair_sql_returns unit Z Demo.answering_generator
              (fun sql => sql = "SELECT 1")
              (fun sql w msg w' H =>
                 proj1 (String.eqb_eq sql "SELECT 1")
                       (f_equal (fun r => match r with
                                          | (Return (b, _), _) => b
                                          | _ => true
                                          end) H))
              "how many customers"
              {| SQLGenerator.detected_tables := ["customers"];
                 SQLGenerator.detected_capabilities := [] |}
              (Some "no such column: full_name")
              {| SQLGenerator.world := tt; SQLGenerator.sent := [] |})
    as (sql & H1 & H2 & _).
  exists sql. split; assumption.
Defined.

(* ================================================================== *)
(** * Further properties of the response parser *)
(* ================================================================== *)

Lemma stripped_field_stripped (key : string) (members : list (string * Json))
    (s : string) :
  SQLGenerator.stripped_field key members = Some s -> PyStr.strip s = s.
Proof.
  unfold SQLGenerator.stripped_field.
  destruct (dict_get key members) as [[]|]; try discriminate;
    intro H; injection H as <-; try reflexivity; apply strip_idempotent.
Qed.

(** X18: The parser returns both fields or none: a response gives
    [(None, None)], or an SQL text and a suggestion that are both
    non-empty and carry no whitespace at either end. *)
Theorem parse_llm_response_all_or_nothing (json_loads : string -> option Json)
    (response : string) :
  SQLGenerator._parse_llm_response json_loads response = (None, None) \/
  exists sql suggestion,
    SQLGenerator._parse_llm_response json_loads response = (Some sql, Some suggestion) /\
    sql <> "" /\ suggestion <> "" /\
    PyStr.strip sql = sql /\ PyStr.strip suggestion = suggestion.
Proof.
  unfold SQLGenerator._parse_llm_response. cbv zeta.
  destruct (json_loads _) as [[]|]; try (left; reflexivity).
  destruct (SQLGenerator.stripped_field "SQLQuery" _) as [sql|] eqn:Hsql;
    [| left; reflexivity].
  destruct (SQLGenerator.stripped_field "Suggestion" _) as [sug|] eqn:Hsug;
    [| left; reflexivity].
  destruct sql as [|c sql]; [left; reflexivity |].
  destruct sug as [|d sug]; [left; reflexivity |].
  right. eexists _, _. split; [reflexivity |].
  split; [discriminate |]. split; [discriminate |].
  split; eapply stripped_field_stripped; eassumption.
Qed.

Lemma lstrip_char_head (x : ascii) (s : string) :
  PyStr.startswith (String x EmptyString) (PyStr.lstrip_char x s) = false.
Proof.
  induction s as [|c s IH]; [reflexivity |].
  simpl. destruct (Ascii.eqb c x) eqn:Hc; [exact IH |].
  simpl. rewrite Ascii.eqb_sym, Hc. reflexivity.
Qed.

Lemma rstrip_char_head (x : ascii) (s : string) :
  PyStr.startswith (String x EmptyString) s = false ->
  PyStr.startswith (String x EmptyString) (PyStr.rstrip_char x s) = false.
Proof.
  destruct s as [|c s]; [reflexivity |].
  simpl. destruct (Ascii.eqb x c) eqn:Hc; [discriminate |]. intros _.
  destruct (PyStr.rstrip_char x s).
  - rewrite Ascii.eqb_sym, Hc. simpl. rewrite Hc. reflexivity.
  - simpl. rewrite Hc. reflexivity.
Qed.

Lemma rstrip_char_last (x : ascii) (s t : string) :
  PyStr.rstrip_char x s <> (t ++ String x EmptyString)%string.
Proof.
  revert t. induction s as [|c s IH]; intro t.
  - simpl. destruct t; discriminate.
  - simpl. destruct (PyStr.rstrip_char x s) as [|d r] eqn:Hr.
    + destruct (Ascii.eqb c x) eqn:Hc.
      * destruct t; discriminate.
      * destruct t as [|a [|b t]]; simpl; try discriminate.
        intro H. injection H as ->. rewrite Ascii.eqb_refl in Hc. discriminate.
    + destruct t as [|a t]; simpl.
      * discriminate.
      * intro H. injection H as _ H. exact (IH t H).
Qed.

(** X19: The cleaned response neither begins nor ends with a backtick. *)
Theorem clean_llm_response_no_backtick (response : string) :
  PyStr.startswith "`" (SQLGenerator._clean_llm_response response) = false /\
  forall t, SQLGenerator._clean_llm_response response <> (t ++ "`")%string.
Proof.
  unfold SQLGenerator._clean_llm_response. cbv zeta.
  unfold PyStr.strip_char. split.
  - apply rstrip_char_head. apply lstrip_char_head.
  - intro t. apply rstrip_char_last.
Qed.

(* ================================================================== *)
(** * Further properties of the prompt builder *)
(* ================================================================== *)

Section HistoryProperties.

Variable Entry : Type.
Variable max_history : Z.

Lemma add_all_window (es : list Entry) :
  forall h,
    (Z.of_nat (List.length h) <= max_history)%Z ->
    PromptingAgent.add_all max_history h es
    = skipn (List.length (h ++ es) - Z.to_nat max_history) (h ++ es).
Proof.
  induction es as [|e r IH]; intros h Hh.
  - simpl. rewrite app_nil_r.
    replace (List.length h - Z.to_nat max_history) with 0 by lia. reflexivity.
  - cbn [PromptingAgent.add_all PromptingAgent.add_query_to_history].
    replace (h ++ e :: r) with ((h ++ [e]) ++ r)
      by (rewrite <- app_assoc; reflexivity).
    destruct (Z.of_nat (List.length (h ++ [e])) >? max_history)%Z eqn:Hgt.
    + assert (Hlen : Z.of_nat (List.length (h ++ [e])) = (max_history + 1)%Z).
      { destruct (Z.gtb_spec (Z.of_nat (List.length (h ++ [e]))) max_history);
          [| discriminate].
        rewrite length_app in *. simpl in *. lia. }
      destruct (h ++ [e]) as [|x h'] eqn:Hhe;
        [destruct h; discriminate Hhe |].
      assert (Hn : List.length h' = Z.to_nat max_history)
        by (cbn [List.length] in Hlen; lia).
      cbn [tl]. rewrite IH by lia.
      replace (List.length (h' ++ r) - Z.to_nat max_history) with (List.length r)
        by (rewrite length_app; lia).
      replace (List.length ((x :: h') ++ r) - Z.to_nat max_history)
        with (S (List.length r))
        by (cbn [app List.length]; rewrite length_app; lia).
      reflexivity.
    + rewrite IH; [reflexivity |].
      destruct (Z.gtb_spec (Z.of_nat (List.length (h ++ [e]))) max_history);
        [discriminate | lia].
Qed.

(** X20: A history that starts empty holds, after any number of additions,
    the last [max_history] entries added, oldest first. *)
Theorem history_keeps_last_entries (es : list Entry) :
  (0 <= max_history)%Z ->
  PromptingAgent.add_all max_history [] es
  = skipn (List.length es - Z.to_nat max_history) es.
Proof.
  intro H. exact (add_all_window es [] H).
Qed.

End HistoryProperties.

(** Five additions to a history of three. *)
Lemma history_keeps_last_entries_witness :
  PromptingAgent.add_all 3%Z [] [1; 2; 3; 4; 5] = [3; 4; 5].
Proof.
  apply (history_keeps_last_entries nat 3%Z [1; 2; 3; 4; 5]). lia.
Defined.

Lemma overlap_common (a b : list string) :
  PromptingAgent.overlap a b = true -> exists x, In x a /\ In x b.
Proof.
  unfold PromptingAgent.overlap. intro H.
  apply existsb_exists in H. destruct H as (x & Hx & Hm).
  exists x. split; [exact Hx |].
  unfold PyStr.mem in Hm. apply existsb_exists in Hm.
  destruct Hm as (y & Hy & Heq). apply String.eqb_eq in Heq. subst. exact Hy.
Qed.

Lemma firstn_In {A : Type} (n : nat) (l : list A) (x : A) :
  In x (firstn n l) -> In x l.
Proof.
  revert l. induction n as [|n IH]; intros [|a l] H; simpl in H; try contradiction.
  destruct H as [-> | H]; [now left | right; exact (IH l H)].
Qed.

(** X21: At most two examples are chosen, and each is an example of the
    builder that shares a table with the detected tables and a word
    with the question (letter case ignored). *)
Theorem find_relevant_examples_relevant
    (example_queries : list PromptingAgent.QueryExample)
    (query : string) (detected_tables : list string) :
  List.length
    (PromptingAgent._find_relevant_examples example_queries query detected_tables) <= 2 /\
  Forall (fun example =>
            In example example_queries /\
            (exists table,
               In table (PromptingAgent.tables_used example) /\
               In table detected_tables) /\
            (exists word,
               In word (PromptingAgent.split (PyStr.lower query)) /\
               In word (PromptingAgent.split
                          (PyStr.lower (PromptingAgent.nl_query example)))))
         (PromptingAgent._find_relevant_examples example_queries query detected_tables).
Proof.
  unfold PromptingAgent._find_relevant_examples. split.
  - rewrite length_firstn. lia.
  - apply Forall_forall. intros example Hin.
    apply firstn_In in Hin. apply filter_In in Hin. destruct Hin as [Hin Hrel].
    unfold PromptingAgent.is_relevant in Hrel.
    apply andb_true_iff in Hrel. destruct Hrel as [Ht Hw].
    split; [exact Hin |]. split; apply overlap_common; assumption.
Qed.

(* ================================================================== *)
(** * Further properties of the planner *)
(* ================================================================== *)

Lemma mem_false_not_In (x : string) (xs : list string) :
  PyStr.mem x xs = false -> ~ In x xs.
Proof.
  intros H Hin. rewrite (mem_In x xs Hin) in H. discriminate.
Qed.

Lemma dedup_from_In (xs : list string) :
  forall seen x,
    In x (Planner.dedup_from seen xs) <-> In x xs /\ ~ In x seen.
Proof.
  induction xs as [|a xs IH]; intros seen x; simpl.
  - tauto.
  - destruct (PyStr.mem a seen) eqn:Hm.
    + apply In_mem in Hm. rewrite IH. split.
      * intros [H1 H2]. tauto.
      * intros [[-> | H1] H2]; [contradiction | tauto].
    + apply mem_false_not_In in Hm. simpl. rewrite IH. simpl. split.
      * intros [<- | [H1 H2]]; [tauto |]. split; [tauto |]. tauto.
      * intros [[<- | H1] H2]; [now left |].
        destruct (String.eqb_spec a x) as [-> | Hne]; [now left |].
        right. split; [exact H1 |]. intros [Heq | Hs]; [now apply Hne | tauto].
Qed.

Lemma dedup_from_NoDup (xs : list string) :
  forall seen, NoDup (Planner.dedup_from seen xs).
Proof.
  induction xs as [|a xs IH]; intro seen; simpl.
  - constructor.
  - destruct (PyStr.mem a seen); [apply IH |].
    constructor; [| apply IH].
    intro H. apply dedup_from_In in H. destruct H as [_ H]. apply H. now left.
Qed.

Lemma dedup_In (xs : list string) (x : string) :
  In x (Planner.dedup xs) <-> In x xs.
Proof.
  unfold Planner.dedup. rewrite dedup_from_In. simpl. tauto.
Qed.

Lemma tables_containing_In (schema_map : Planner.SchemaMap) (word t : string) :
  In t (Planner.tables_containing schema_map word) -> In t (map fst schema_map).
Proof.
  unfold Planner.tables_containing. intro H. apply filter_In in H. tauto.
Qed.

Section DetectTables.

Variable schema_map : Planner.SchemaMap.
Variable md : Planner.Metadata.

(** The tables that [_detect_tables] collects before it removes the
    duplicates are tables of the schema or of the metadata file. *)
Lemma detect_tables_members (text t : string) :
  In t (Planner._detect_tables schema_map md text) ->
  In t (map fst schema_map) \/ In t (map fst md).
Proof.
  unfold Planner._detect_tables. cbv zeta.
  set (direct := filter _ (map fst schema_map)).
  set (by_value := map fst (filter _ md)).
  assert (Hd : forall x, In x direct -> In x (map fst schema_map)).
  { intros x Hx. apply filter_In in Hx. tauto. }
  assert (Hv : forall x, In x by_value -> In x (map fst md)).
  { intros x Hx. unfold by_value in Hx. apply in_map_iff in Hx.
    destruct Hx as (e & <- & He). apply filter_In in He.
    apply in_map. tauto. }
  set (heur := _ ++ _ ++ _ ++ _ ++ _).
  assert (Hh : forall x, In x heur -> In x (map fst schema_map)).
  { intros x Hx. unfold heur in Hx.
    repeat (apply in_app_or in Hx; destruct Hx as [Hx | Hx]);
      match type of Hx with
      | In _ (if ?b then _ else _) => destruct b
      end;
      try contradiction; eapply tables_containing_In; exact Hx. }
  set (found := match direct ++ by_value with [] => heur | _ => direct ++ by_value end).
  assert (Hf : forall x, In x found -> In x (map fst schema_map) \/ In x (map fst md)).
  { intros x Hx. unfold found in Hx.
    destruct (direct ++ by_value) as [|y l] eqn:Hdv.
    - left. apply Hh. exact Hx.
    - rewrite <- Hdv in Hx. apply in_app_or in Hx.
      destruct Hx as [Hx | Hx]; [left; apply Hd | right; apply Hv]; exact Hx. }
  destruct (Planner.dedup found) as [|u l] eqn:Hu.
  - intro H. now left.
  - intro H. apply Hf. apply dedup_In. rewrite Hu. exact H.
Qed.

(** X22: Over a schema that has a table, the planner always names at least
    one table and never names one twice; every table it names is a table
    of the schema or of the metadata file. *)
Theorem detect_tables_result (text : string) :
  schema_map <> [] ->
  NoDup (map fst schema_map) ->
  Planner._detect_tables schema_map md text <> [] /\
  NoDup (Planner._detect_tables schema_map md text) /\
  (forall t, In t (Planner._detect_tables schema_map md text) ->
             In t (map fst schema_map) \/ In t (map fst md)).
Proof.
  intros Hne Hnd. split; [| split].
  - unfold Planner._detect_tables. cbv zeta.
    destruct (Planner.dedup _) as [|u l]; [| discriminate].
    destruct schema_map; [contradiction | discriminate].
  - unfold Planner._detect_tables. cbv zeta.
    destruct (Planner.dedup _) as [|u l] eqn:Hu; [exact Hnd |].
    rewrite <- Hu. apply dedup_from_NoDup.
  - intro t. apply detect_tables_members.
Qed.

(** X23: A table of the schema whose name occurs in the question, letter
    case ignored, is among the tables the planner names. *)
Theorem detect_tables_mentioned (text table : string) :
  In table (map fst schema_map) ->
  PyStr.contains (PyStr.lower table) (PyStr.lower text) = true ->
  In table (Planner._detect_tables schema_map md text).
Proof.
  intros Hin Hsub. unfold Planner._detect_tables. cbv zeta.
  set (direct := filter _ (map fst schema_map)).
  set (by_value := map fst (filter _ md)).
  assert (Hd : In table direct).
  { apply filter_In. split; assumption. }
  destruct (direct ++ by_value) as [|y l] eqn:Hdv.
  - exfalso. assert (H : In table (direct ++ by_value))
      by (apply in_or_app; now left).
    rewrite Hdv in H. exact H.
  - assert (Hf : In table (Planner.dedup (y :: l))).
    { apply dedup_In. rewrite <- Hdv. apply in_or_app. now left. }
    destruct (Planner.dedup (y :: l)); [contradiction | exact Hf].
Qed.

End DetectTables.

(** The banking schema and a question about accounts. *)
Lemma detect_tables_result_witness :
  Planner._detect_tables Demo.bank_schema Demo.metadata "show savings accounts" <> [] /\
  NoDup (Planner._detect_tables Demo.bank_schema Demo.metadata "show savings accounts") /\
  (forall t,
     In t (Planner._detect_tables Demo.bank_schema Demo.metadata "show savings accounts") ->
     In t (map fst Demo.bank_schema) \/ In t (map fst Demo.metadata)).
Proof.
  apply (detect_tables_result Demo.bank_schema Demo.metadata "show savings accounts").
  - discriminate.
  - vm_compute. repeat constructor; simpl; intuition discriminate.
Defined.

Lemma detect_tables_mentioned_witness :
  In "accounts"
     (Planner._detect_tables Demo.bank_schema Demo.metadata "show savings Accounts").
Proof.
  apply (detect_tables_mentioned Demo.bank_schema Demo.metadata
           "show savings Accounts" "accounts").
  - vm_compute. tauto.
  - reflexivity.
Defined.

(** X24: the capabilities are listed in strictly ascending order: sorted,
    and none twice (the tables of the metadata file have a [columns]
    entry, as [TableInfo] says; without one the source raises
    [KeyError]). *)
Theorem detect_capabilities_ascending (md : Planner.Metadata) (text : string) :
  Planner.ascending (Planner._detect_capabilities md text) = true.
Proof.
  unfold Planner._detect_capabilities, Planner.capability_tags. cbv zeta.
  destruct (Planner.any_in Planner.AGG_WORDS _),
           (Planner.any_in Planner.EXISTS_WORDS _),
           (Planner.any_in Planner.WINDOW_WORDS _),
           (Planner.any_in Planner.WEEKEND_WORDS _),
           (Planner.any_in Planner.DATE_WORDS _),
           (Planner.any_in Planner.THRESHOLD_WORDS _),
           (Planner.table_value_in md "accounts" "type" _),
           (Planner.table_value_in md "transactions" "type" _),
           (Planner.table_value_in md "employees" "position" _),
           (PyStr.contains "manager" _ || PyStr.contains "handled by" _
            || PyStr.contains "handled" _);
    vm_compute; reflexivity.
Qed.

(** X25: Between three and four follow-up suggestions are made, whatever
    the question and the metadata. *)
Theorem follow_up_suggestions_count (md : Planner.Metadata) (query : string) :
  3 <= List.length (Planner._generate_follow_up_suggestions md query) <= 4.
Proof.
  unfold Planner._generate_follow_up_suggestions. cbv zeta.
  rewrite length_firstn. split; [| lia].
  apply Nat.min_glb; [lia |].
  destruct (PyStr.contains "branch" _ || PyStr.contains "branches" _),
           (PyStr.contains "transaction" _),
           (PyStr.contains "account" _ || PyStr.contains "balance" _),
           (PyStr.contains "employee" _ || PyStr.contains "salary" _),
           (Planner.get_distinct_values md "accounts" "type") as [|t0 [|t1 l1]],
           (Planner.get_distinct_values md "employees" "position") as [|p0 l2],
           (Planner.get_distinct_values md "transactions" "type") as [|x0 l3];
    cbn [app List.length]; lia.
Qed.

Lemma lstrip_blank (s : string) :
  PyStr.isblank s = true -> PyStr.lstrip s = EmptyString.
Proof.
  induction s as [|c s IH]; simpl; intro H; [reflexivity |].
  apply andb_prop in H. destruct H as [Hc Hs]. rewrite Hc. exact (IH Hs).
Qed.

(** X26: A question of whitespace only gets the plan of the empty question:
    every table of the schema, the single step [fetch_schema], and
    neither capabilities nor clarifications nor suggestions. *)
Theorem analyze_query_blank (schema_map : Planner.SchemaMap)
    (md : Planner.Metadata) (nl_query : string) :
  PyStr.isblank nl_query = true ->
  Planner.analyze_query schema_map md nl_query
  = {| Planner.plan_query := None;
       Planner.plan_tables := map fst schema_map;
       Planner.plan_steps := [("fetch_schema", Some (map fst schema_map))];
       Planner.plan_capabilities := [];
       Planner.plan_clarifications := [];
       Planner.plan_follow_up_suggestions := None;
       Planner.plan_metadata_context := None |}.
Proof.
  intro H. unfold Planner.analyze_query, PyStr.strip.
  rewrite (lstrip_blank _ H). cbn [PyStr.rstrip PyStr.truthy negb].
  rewrite orb_true_r. reflexivity.
Qed.

Lemma analyze_query_blank_witness :
  Planner.analyze_query Demo.bank_schema Demo.metadata "   "
  = {| Planner.plan_query := None;
       Planner.plan_tables := map fst Demo.bank_schema;
       Planner.plan_steps := [("fetch_schema", Some (map fst Demo.bank_schema))];
       Planner.plan_capabilities := [];
       Planner.plan_clarifications := [];
       Planner.plan_follow_up_suggestions := None;
       Planner.plan_metadata_context := None |}.
Proof.
  apply (analyze_query_blank Demo.bank_schema Demo.metadata "   "). reflexivity.
Defined.

Lemma lower_char_idempotent (c : ascii) :
  PyStr.lower_char (PyStr.lower_char c) = PyStr.lower_char c.
Proof.
  destruct c as [b0 b1 b2 b3 b4 b5 b6 b7].
  destruct b0, b1, b2, b3, b4, b5, b6, b7; reflexivity.
Qed.

Lemma startswith_lower (sub s : string) :
  PyStr.startswith sub (PyStr.lower s) = true -> PyStr.lower sub = sub.
Proof.
  revert s. induction sub as [|a sub IH]; intros s H; [reflexivity |].
  destruct s as [|b s]; [discriminate H |].
  unfold PyStr.lower in *. cbn [PyStr.map_chars PyStr.startswith] in *.
  apply andb_prop in H. destruct H as [Hab Hs].
  apply Ascii.eqb_eq in Hab. subst a.
  rewrite lower_char_idempotent, (IH s Hs). reflexivity.
Qed.

(** What occurs in a lower-case text is in lower case itself. *)
Lemma contains_lower (sub s : string) :
  PyStr.contains sub (PyStr.lower s) = true -> PyStr.lower sub = sub.
Proof.
  induction s as [|c s IH]; intro H.
  - cbn in H. rewrite orb_false_r in H.
    exact (startswith_lower sub EmptyString H).
  - unfold PyStr.lower in H. cbn [PyStr.map_chars PyStr.contains] in H.
    apply orb_prop in H. destruct H as [H | H].
    + exact (startswith_lower sub (String c s) H).
    + exact (IH H).
Qed.

(** X27: The account types of the metadata file are looked for in the
    lower-case question as they are written: when none of them is
    written in lower case, a question with [account] in it is always
    asked for the type of account, whatever type it names. *)
Theorem account_type_always_asked (md : Planner.Metadata) (text : string) :
  PyStr.contains "account" (PyStr.lower text) = true ->
  (forall acc_type, In acc_type (Planner.get_distinct_values md "accounts" "type") ->
                    PyStr.lower acc_type <> acc_type) ->
  exists c,
    In c (Planner._detect_clarifications md text) /\
    Planner.field c = "account_type" /\
    Planner.options c = Some (Planner.get_distinct_values md "accounts" "type").
Proof.
  intros Hacc Hcap. unfold Planner._detect_clarifications. cbv zeta.
  rewrite Hacc.
  assert (Hno : existsb (fun acc_type => PyStr.contains acc_type (PyStr.lower text))
                        (Planner.get_distinct_values md "accounts" "type") = false).
  { destruct (existsb _ _) eqn:He; [| reflexivity].
    apply existsb_exists in He. destruct He as (ty & Hin & Hsub).
    exfalso. exact (Hcap ty Hin (contains_lower _ _ Hsub)). }
  rewrite Hno. cbn [andb negb].
  eexists. split.
  - apply in_or_app. right. apply in_or_app. right. apply in_or_app. right.
    left. reflexivity.
  - split; reflexivity.
Qed.

(** The question names the type, with the capital of the metadata file. *)
Lemma account_type_always_asked_witness :
  exists c,
    In c (Planner._detect_clarifications Demo.capitalised_metadata
            "my Checking account") /\
    Planner.field c = "account_type" /\
    Planner.options c = Some ["Checking"; "Savings"].
Proof.
  apply (account_type_always_asked Demo.capitalised_metadata "my Checking account").
  - reflexivity.
  - intros acc_type H. vm_compute in H.
    destruct H as [<- | [<- | []]]; discriminate.
Defined.
